(** * Data-Cleaning-Agent: the Analyzer detectors and the Cleaner transformations

    A shallow embedding of

      - [backend/src/agents/Cleaner/transformations.js]
        (Transformation, CoerceNumeric, CoerceDatetime, FillMissing,
        ClipOutliersIQR),
      - the revised Analyzer (the file whose live code starts with the
        [_seriesValues] helper), module [Analyzer],
      - [detectMissing], [detectDuplicatesAndPK] and [detectOutliersIQR] of
        [backend/src/agents/Analyzer/Analyzer.js], module [AnalyzerDraft],

    together with the properties of the specification that concern them.

    Conventions of the embedding.

      - A JavaScript number is a [num]: NaN, the two infinities, or a finite
        rational.  Arithmetic on finite numbers is exact (no rounding, no
        signed zero).
      - A cell is a [jsval]: null, undefined, a boolean, a number or a string.
      - Objects live in a [heap]; a location is an index in it.  Records,
        arrays of records and Transformation instances are heap objects, so
        that aliasing and mutation are visible.
      - A computation is a function from the heap to a [completion]:
        a normal result with the new heap, or a thrown error with the heap
        at the point of the throw.
      - Host functions that are not part of the repository (string to number
        conversion, number to string conversion, [Date.parse],
        [JSON.stringify], the fuse.js search, [uuidv4], the clock) are the
        fields of the class [Host]. *)

From Stdlib Require Import List String Ascii Bool Arith ZArith QArith Qround Lia Lqa.
From Stdlib Require Import Permutation Sorted.
Import ListNotations.

Local Open Scope string_scope.
Local Open Scope list_scope.
Local Open Scope nat_scope.

(* ================================================================== *)
(** ** Numbers *)
(* ================================================================== *)

Inductive num : Type :=
| NaN
| NegInf
| PosInf
| Fin (q : Q).

Definition Qlt_bool (a b : Q) : bool := negb (Qle_bool b a).

Definition Qsign (q : Q) : comparison := (Qnum q ?= 0)%Z.

Definition num_of_nat (n : nat) : num := Fin (inject_Z (Z.of_nat n)).

Definition num_isNaN (a : num) : bool :=
  match a with NaN => true | _ => false end.

Definition num_neg (a : num) : num :=
  match a with
  | NaN => NaN
  | NegInf => PosInf
  | PosInf => NegInf
  | Fin q => Fin (- q)%Q
  end.

Definition num_add (a b : num) : num :=
  match a, b with
  | NaN, _ | _, NaN => NaN
  | PosInf, NegInf | NegInf, PosInf => NaN
  | PosInf, _ | _, PosInf => PosInf
  | NegInf, _ | _, NegInf => NegInf
  | Fin x, Fin y => Fin (x + y)%Q
  end.

Definition num_sub (a b : num) : num := num_add a (num_neg b).

(** Sign of a number that is not NaN; zero has sign [Eq]. *)
Definition num_sign (a : num) : comparison :=
  match a with
  | NaN => Eq
  | NegInf => Lt
  | PosInf => Gt
  | Fin q => Qsign q
  end.

Definition inf_of_sign (c : comparison) : num :=
  match c with Eq => NaN | Lt => NegInf | Gt => PosInf end.

Definition sign_mul (c d : comparison) : comparison :=
  match c, d with
  | Eq, _ | _, Eq => Eq
  | Lt, Lt | Gt, Gt => Gt
  | _, _ => Lt
  end.

Definition num_mul (a b : num) : num :=
  match a, b with
  | NaN, _ | _, NaN => NaN
  | Fin x, Fin y => Fin (x * y)%Q
  | _, _ => inf_of_sign (sign_mul (num_sign a) (num_sign b))
  end.

Definition num_div (a b : num) : num :=
  match a, b with
  | NaN, _ | _, NaN => NaN
  | Fin x, Fin y =>
      match Qsign y with
      | Eq => inf_of_sign (Qsign x)
      | _ => Fin (x / y)%Q
      end
  | Fin _, _ => Fin 0%Q
  | _, Fin y =>
      match Qsign y with
      | Lt => num_neg a
      | _ => a
      end
  | _, _ => NaN
  end.

(** [a < b]; false as soon as one side is NaN. *)
Definition num_lt (a b : num) : bool :=
  match a, b with
  | NaN, _ | _, NaN => false
  | _, NegInf => false
  | NegInf, _ => true
  | PosInf, _ => false
  | _, PosInf => true
  | Fin x, Fin y => Qlt_bool x y
  end.

Definition num_gt (a b : num) : bool := num_lt b a.

(** [a <= b]; false as soon as one side is NaN. *)
Definition num_le (a b : num) : bool :=
  match a, b with
  | NaN, _ | _, NaN => false
  | NegInf, _ => true
  | _, PosInf => true
  | _, NegInf => false
  | PosInf, _ => false
  | Fin x, Fin y => Qle_bool x y
  end.

Definition num_ge (a b : num) : bool := num_le b a.

(** [a === b] on numbers. *)
Definition num_eq (a b : num) : bool :=
  match a, b with
  | NegInf, NegInf | PosInf, PosInf => true
  | Fin x, Fin y => Qeq_bool x y
  | _, _ => false
  end.

Definition Math_floor (a : num) : num :=
  match a with
  | Fin q => Fin (inject_Z (Qfloor q))
  | _ => a
  end.

Definition Math_min (a b : num) : num :=
  match a, b with
  | NaN, _ | _, NaN => NaN
  | _, _ => if num_lt b a then b else a
  end.

Definition Math_max (a b : num) : num :=
  match a, b with
  | NaN, _ | _, NaN => NaN
  | _, _ => if num_lt a b then b else a
  end.

(** [arr[i]] for a numeric index [i] into an array of numbers:
    [undefined] unless [i] is a natural number below the length. *)
Definition index_of_num (i : num) : option nat :=
  match i with
  | Fin q =>
      if Qeq_bool q (inject_Z (Qfloor q)) && (0 <=? Qfloor q)%Z
      then Some (Z.to_nat (Qfloor q)) else None
  | _ => None
  end.

(** [arr.sort(cmp)]: a stable sort, [cmp a b > 0] putting [a] after [b]. *)
Fixpoint sort_insert (cmp : num -> num -> num) (x : num) (l : list num) : list num :=
  match l with
  | [] => [x]
  | y :: l' => if num_gt (cmp x y) (Fin 0) then y :: sort_insert cmp x l'
               else x :: l
  end.

Definition Array_sort (cmp : num -> num -> num) (l : list num) : list num :=
  fold_right (sort_insert cmp) [] l.

(* ================================================================== *)
(** ** Values *)
(* ================================================================== *)

Inductive jsval : Type :=
| VNull
| VUndefined
| VBool (b : bool)
| VNum (n : num)
| VStr (s : string).

(** [nums[i]] read as a value. *)
Definition nums_at (l : list num) (i : num) : jsval :=
  match index_of_num i with
  | Some n => match nth_error l n with Some x => VNum x | None => VUndefined end
  | None => VUndefined
  end.

(** [a === b]. *)
Definition strict_eq (a b : jsval) : bool :=
  match a, b with
  | VNull, VNull => true
  | VUndefined, VUndefined => true
  | VBool x, VBool y => Bool.eqb x y
  | VNum x, VNum y => num_eq x y
  | VStr x, VStr y => String.eqb x y
  | _, _ => false
  end.

(** [v == "lit"] for a cell [v]: only the string itself is loosely equal
    to a string that does not read as a number. *)
Definition loose_eq_word (v : jsval) (lit : string) : bool :=
  match v with
  | VStr s => String.eqb s lit
  | _ => false
  end.

(** ToBoolean. *)
Definition truthy (v : jsval) : bool :=
  match v with
  | VNull | VUndefined => false
  | VBool b => b
  | VNum NaN => false
  | VNum (Fin q) => negb (Qeq_bool q 0)
  | VNum _ => true
  | VStr s => negb (String.eqb s "")
  end.

(** [typeof v === "number"], [typeof v === "string"]. *)
Definition is_number (v : jsval) : bool :=
  match v with VNum _ => true | _ => false end.

Definition is_string (v : jsval) : bool :=
  match v with VStr _ => true | _ => false end.

(** [Number.isNaN(v)]: no coercion. *)
Definition Number_isNaN (v : jsval) : bool :=
  match v with VNum NaN => true | _ => false end.

(* ================================================================== *)
(** ** Strings *)
(* ================================================================== *)

Definition is_space (c : ascii) : bool :=
  let n := nat_of_ascii c in
  ((n =? 32) || ((9 <=? n) && (n <=? 13)))%nat.

Fixpoint trim_start (s : string) : string :=
  match s with
  | String c s' => if is_space c then trim_start s' else s
  | EmptyString => EmptyString
  end.

Fixpoint trim_end (s : string) : string :=
  match s with
  | EmptyString => EmptyString
  | String c s' =>
      match trim_end s' with
      | EmptyString => if is_space c then EmptyString else String c EmptyString
      | t => String c t
      end
  end.

(** [s.trim()] on the ASCII white space. *)
Definition trim (s : string) : string := trim_end (trim_start s).

Definition lower_ascii (c : ascii) : ascii :=
  let n := nat_of_ascii c in
  if ((65 <=? n) && (n <=? 90))%nat then ascii_of_nat (n + 32) else c.

(** [s.toLowerCase()] on the ASCII letters. *)
Fixpoint toLowerCase (s : string) : string :=
  match s with
  | EmptyString => EmptyString
  | String c s' => String (lower_ascii c) (toLowerCase s')
  end.

Definition includes (l : list string) (s : string) : bool :=
  existsb (String.eqb s) l.

Definition is_digit (c : ascii) : bool :=
  let n := nat_of_ascii c in ((48 <=? n) && (n <=? 57))%nat.

Fixpoint all_digits (s : string) : bool :=
  match s with
  | EmptyString => true
  | String c s' => is_digit c && all_digits s'
  end.

(** Splits off the longest prefix of digits. *)
Fixpoint span_digits (s : string) : string * string :=
  match s with
  | String c s' =>
      if is_digit c then let (d, r) := span_digits s' in (String c d, r)
      else (EmptyString, s)
  | EmptyString => (EmptyString, EmptyString)
  end.

(** [/^[-+]?\d+(?:\.\d+)?$/.test(s)]. *)
Definition isStrictNumber (s : string) : bool :=
  let body :=
    match s with
    | String c s' => if (Ascii.eqb c "-" || Ascii.eqb c "+")%char then s' else s
    | EmptyString => s
    end in
  let (int_part, rest) := span_digits body in
  negb (String.eqb int_part "") &&
  match rest with
  | EmptyString => true
  | String c frac => Ascii.eqb c "."%char && negb (String.eqb frac "") && all_digits frac
  end.

(** [/^\d{4,}$/.test(s)]. *)
Definition isPlainYear (s : string) : bool :=
  all_digits s && (4 <=? String.length s)%nat.

(* ================================================================== *)
(** ** The host *)
(* ================================================================== *)

(** What the code calls and the repository does not define. *)
Class Host : Type := {
  (** [Number(s)] for a string [s] *)
  Number_of_string : string -> num;
  (** [String(x)] for a finite number [x] *)
  Number_toString : Q -> string;
  (** [Date.parse(s)]: a time stamp, or NaN *)
  Date_parse : string -> num;
  (** [new Fuse(list, {includeScore: true, threshold: 0.4}).search(pattern)]:
      the hits, best first, each an item of [list] with its score *)
  Fuse_search : list string -> string -> list (string * num);
  (** [JSON.stringify(row)] for a row of cells *)
  JSON_stringify : list jsval -> string;
  (** the [n]-th identifier drawn from [uuidv4()] *)
  uuidv4 : nat -> string;
  (** [new Date().toISOString()] at the [n]-th reading of the clock *)
  now_ISO : nat -> string
}.

Section Coercions.
Context {host : Host}.

(** [Number(v)]. *)
Definition Number (v : jsval) : num :=
  match v with
  | VNull => Fin 0
  | VUndefined => NaN
  | VBool true => Fin 1
  | VBool false => Fin 0
  | VNum n => n
  | VStr s => Number_of_string s
  end.

(** [isNaN(v)]: coerces first. *)
Definition isNaN (v : jsval) : bool := num_isNaN (Number v).

(** [String(v)]. *)
Definition to_String (v : jsval) : string :=
  match v with
  | VNull => "null"
  | VUndefined => "undefined"
  | VBool true => "true"
  | VBool false => "false"
  | VNum NaN => "NaN"
  | VNum PosInf => "Infinity"
  | VNum NegInf => "-Infinity"
  | VNum (Fin q) => Number_toString q
  | VStr s => s
  end.
End Coercions.

(* ================================================================== *)
(** ** Records, parameters, Transformation instances *)
(* ================================================================== *)

(** A record: its own properties in insertion order. *)
Definition record : Type := list (string * jsval).

(** [r[key]]. *)
Fixpoint prop_get (r : record) (key : string) : jsval :=
  match r with
  | [] => VUndefined
  | (k', v) :: r' => if String.eqb k' key then v else prop_get r' key
  end.

(** [r[key] = v]. *)
Fixpoint prop_set (r : record) (key : string) (v : jsval) : record :=
  match r with
  | [] => [(key, v)]
  | (k', v') :: r' =>
      if String.eqb k' key then (k', v) :: r' else (k', v') :: prop_set r' key v
  end.

Module Params.
(** The [params] object of a transformation.  [column] is the property key
    the column name converts to; an absent parameter is [VUndefined]
    (or [None]). *)
Record t : Type := {
  column : string;
  k : jsval;
  method : jsval;
  flag_column_name : option string;
  strategy : jsval;
  value : jsval
}.
End Params.

Module Transformation.
Record t : Type := {
  name : string;
  params : Params.t;
  destructive : bool;
  id : string
}.

(** [constructor(name, params = {}, destructive = false)]; [tick] counts
    the identifiers drawn so far. *)
Definition new {host : Host} (tick : nat) (name : string) (params : Params.t)
    (destructive : bool) : t :=
  {| name := name; params := params; destructive := destructive;
     id := uuidv4 tick |}.

(** [toJSON()]. *)
Definition toJSON (this : t) : string * string * Params.t * bool :=
  (id this, name this, params this, destructive this).
End Transformation.

(** [sampleArray(arr, n = 5)]. *)
Definition sampleArray {A : Type} (arr : list A) (n : option nat) : list A :=
  firstn (match n with Some m => m | None => 5 end) arr.

(* ================================================================== *)
(** ** Heap and computations *)
(* ================================================================== *)

Definition loc : Type := nat.

(** The class an instance was constructed from. *)
Inductive class : Type :=
| CTransformation
| CCoerceNumeric
| CCoerceDatetime
| CFillMissing
| CClipOutliersIQR.

Inductive object : Type :=
| ORecord (fields : record)
| OArray (elems : list loc)
| OInstance (cls : class) (t : Transformation.t).

Definition heap : Type := list object.

Inductive error : Type :=
| TypeError
| ReferenceError
| Error (message : string).

Inductive completion (A : Type) : Type :=
| Normal (a : A) (h : heap)
| Throw (e : error) (h : heap).
Arguments Normal {A} a h.
Arguments Throw {A} e h.

Definition M (A : Type) : Type := heap -> completion A.

Definition ret {A : Type} (a : A) : M A := fun h => Normal a h.

Definition throw {A : Type} (e : error) : M A := fun h => Throw e h.

Definition bind {A B : Type} (m : M A) (f : A -> M B) : M B :=
  fun h => match m h with
           | Normal a h' => f a h'
           | Throw e h' => Throw e h'
           end.

Declare Scope js_scope.
Delimit Scope js_scope with js.
Notation "x <- m ;; f" := (bind m (fun x => f))
  (at level 61, m at next level, right associativity) : js_scope.
Notation "' pat <- m ;; f" := (bind m (fun x => match x with pat => f end))
  (at level 61, pat pattern, m at next level, right associativity) : js_scope.
Local Open Scope js_scope.

Definition final_heap {A : Type} (c : completion A) : heap :=
  match c with Normal _ h => h | Throw _ h => h end.

Fixpoint list_update {A : Type} (l : list A) (n : nat) (x : A) : list A :=
  match l, n with
  | [], _ => []
  | _ :: l', O => x :: l'
  | y :: l', S n' => y :: list_update l' n' x
  end.

(** A new object. *)
Definition alloc (o : object) : M loc :=
  fun h => Normal (List.length h) (h ++ [o]).

Definition load (l : loc) : M object :=
  fun h => match nth_error h l with
           | Some o => Normal o h
           | None => Throw TypeError h
           end.

Definition store (l : loc) (o : object) : M unit :=
  fun h => if l <? List.length h then Normal tt (list_update h l o)
           else Throw TypeError h.

(** [r[key]] for a record object [r]; the code reads properties of records
    only, another kind of object is outside the data model. *)
Definition get_field (r : loc) (key : string) : M jsval :=
  o <- load r;;
  match o with
  | ORecord fs => ret (prop_get fs key)
  | _ => throw TypeError
  end.

(** [r[key] = v]. *)
Definition set_field (r : loc) (key : string) (v : jsval) : M unit :=
  o <- load r;;
  match o with
  | ORecord fs => store r (ORecord (prop_set fs key v))
  | _ => throw TypeError
  end.

(** [Object.assign({}, r)]: a new object with the own properties of [r]. *)
Definition Object_assign_empty (r : loc) : M loc :=
  o <- load r;;
  match o with
  | ORecord fs => alloc (ORecord fs)
  | _ => throw TypeError
  end.

(** The elements of the array [a]. *)
Definition array_elems (a : loc) : M (list loc) :=
  o <- load a;;
  match o with
  | OArray ls => ret ls
  | _ => throw TypeError
  end.

(** [this.params] and friends. *)
Definition get_instance (this : loc) : M Transformation.t :=
  o <- load this;;
  match o with
  | OInstance _ t => ret t
  | _ => throw TypeError
  end.

Fixpoint mapM {A B : Type} (f : A -> M B) (l : list A) : M (list B) :=
  match l with
  | [] => ret []
  | x :: l' => y <- f x;; ys <- mapM f l';; ret (y :: ys)
  end.

(** The callbacks of [records.map] and [records.filter] update a counter
    declared outside them; [S] is the type of that state. *)
Fixpoint mapM_st {S B : Type} (f : loc -> S -> M (B * S)) (l : list loc) (s : S)
  : M (list B * S) :=
  match l with
  | [] => ret ([], s)
  | x :: l' =>
      '(y, s1) <- f x s;;
      '(ys, s2) <- mapM_st f l' s1;;
      ret (y :: ys, s2)
  end.

(** [records.map(cb)] where [cb] returns a record: the result is a new
    array.  (The array is allocated once its elements are known; locations
    are not observable, so the order of allocation is not either.) *)
Definition Array_map_st {S : Type} (cb : loc -> S -> M (loc * S)) (records : loc)
    (s : S) : M (loc * S) :=
  ls <- array_elems records;;
  '(ls', s') <- mapM_st cb ls s;;
  a <- alloc (OArray ls');;
  ret (a, s').

(** [records.filter(cb)]: a new array holding the elements [cb] accepts. *)
Definition Array_filter (cb : loc -> M bool) (records : loc) : M loc :=
  ls <- array_elems records;;
  keep <- mapM cb ls;;
  alloc (OArray (map fst (filter snd (combine ls keep)))).

(** [records.map((r) => r[column])]: an array of cells, kept as a list. *)
Definition column_values (records : loc) (column : string) : M (list jsval) :=
  ls <- array_elems records;;
  mapM (fun r => get_field r column) ls.

(** [records.slice(0, 5).map((r) => r[column])]. *)
Definition column_sample (records : loc) (column : string) : M (list jsval) :=
  ls <- array_elems records;;
  mapM (fun r => get_field r column) (firstn 5 ls).

(** [records.length]. *)
Definition array_length (records : loc) : M nat :=
  ls <- array_elems records;;
  ret (List.length ls).

(** The evidence object of a transformation, and the evidence of an issue. *)
Inductive ev_field : Type :=
| EVal (v : jsval)
| EList (l : list jsval)
| EClusters (c : list (list string)).

Definition evidence : Type := list (string * ev_field).

Fixpoint ev_get (e : evidence) (key : string) : option ev_field :=
  match e with
  | [] => None
  | (k', f) :: e' => if String.eqb k' key then Some f else ev_get e' key
  end.

Definition count_val (n : nat) : ev_field := EVal (VNum (num_of_nat n)).

(* ================================================================== *)
(** ** The transformations of [transformations.js] *)
(* ================================================================== *)

(** [v === null || v === undefined || v === ""], the test the three
    column transformations write out. *)
Definition blank (v : jsval) : bool :=
  strict_eq v VNull || strict_eq v VUndefined || strict_eq v (VStr "").

(** A destructuring default: [{ x = d } = obj]. *)
Definition default_to (v d : jsval) : jsval :=
  if strict_eq v VUndefined then d else v.

(** The result of [apply]: [{ records, evidence }]. *)
Definition result : Type := (loc * evidence)%type.

Module CoerceNumeric.
Section WithHost.
Context {host : Host}.

Definition new (tick : nat) (params : Params.t) : M loc :=
  alloc (OInstance CCoerceNumeric (Transformation.new tick "coerce_numeric" params false)).

Definition apply (this records : loc) : M result :=
  t <- get_instance this;;
  let column := Params.column (Transformation.params t) in
  beforeSample <- column_sample records column;;
  '(newRecords, changed) <-
    Array_map_st (fun r changed =>
      copy <- Object_assign_empty r;;
      v <- get_field copy column;;
      let num := if blank v then VNull else VNum (Number v) in
      let changed :=
        if negb (strict_eq v num) && negb (strict_eq v VNull && strict_eq num VNull)
        then changed + (if strict_eq num v then 0 else 1)
        else changed in
      _ <- set_field copy column (if isNaN num then VNull else num);;
      ret (copy, changed)) records 0;;
  ret (newRecords,
       [("before_sample", EList beforeSample);
        ("changed_count", count_val changed)]).
End WithHost.
End CoerceNumeric.

Module CoerceDatetime.
Section WithHost.
Context {host : Host}.

Definition new (tick : nat) (params : Params.t) : M loc :=
  alloc (OInstance CCoerceDatetime (Transformation.new tick "coerce_datetime" params false)).

(** [new Date.parse(parsed)]: the operand of [new] is the member
    [Date.parse], a built-in function that is not a constructor, so the
    expression throws a TypeError whatever [parsed] is; the call of
    [toISOString] after it is never reached. *)
Definition new_Date_parse (parsed : jsval) : M jsval := throw TypeError.

Definition apply (this records : loc) : M result :=
  t <- get_instance this;;
  let column := Params.column (Transformation.params t) in
  beforeSample <- column_sample records column;;
  '(newRecords, changed) <-
    Array_map_st (fun r changed =>
      copy <- Object_assign_empty r;;
      v <- get_field copy column;;
      let parsed := if blank v then VNull else VNum (Date_parse (to_String v)) in
      out <- (if isNaN parsed then ret VNull else new_Date_parse parsed);;
      let changed :=
        if negb (String.eqb (to_String parsed) (to_String out))
        then changed + 1 else changed in
      _ <- set_field copy column out;;
      ret (copy, changed)) records 0;;
  ret (newRecords,
       [("before_sample", EList beforeSample);
        ("changed_count", count_val changed)]).
End WithHost.
End CoerceDatetime.

Module FillMissing.
Section WithHost.
Context {host : Host}.

Definition new (tick : nat) (params : Params.t) : M loc :=
  alloc (OInstance CFillMissing (Transformation.new tick "fill_missing" params false)).

(** [freq = {}]: [freq] is declared nowhere, and the body of a class is
    strict mode code, where assigning to an undeclared name throws a
    ReferenceError.  The counting and sorting that follow in the "mode"
    branch are never reached. *)
Definition assign_undeclared_freq : M jsval := throw ReferenceError.

(** [values.map(Number).filter((x) => !isNaN(x))]. *)
Definition numeric_values (values : list jsval) : list num :=
  filter (fun x => negb (num_isNaN x)) (map Number values).

Definition apply (this records : loc) : M result :=
  t <- get_instance this;;
  let column := Params.column (Transformation.params t) in
  let strategy := default_to (Params.strategy (Transformation.params t)) (VStr "mean") in
  let value := Params.value (Transformation.params t) in
  cells <- column_values records column;;
  let values := filter (fun v => negb (blank v)) cells in
  fillValue <-
    (if loose_eq_word strategy "mean" then
       let nums := numeric_values values in
       ret (if 0 <? List.length nums
            then VNum (num_div (fold_left num_add nums (Fin 0))
                               (num_of_nat (List.length nums)))
            else VNull)
     else if loose_eq_word strategy "median" then
       let nums := Array_sort num_sub (numeric_values values) in
       ret (if 0 <? List.length nums
            then nums_at nums
                   (Math_floor (num_div (num_of_nat (List.length nums)) (Fin 2)))
            else VNull)
     else if loose_eq_word strategy "mode" then
       assign_undeclared_freq
     else ret value);;
  beforeRecords <- column_sample records column;;
  '(newRecords, changed) <-
    Array_map_st (fun r changed =>
      copy <- Object_assign_empty r;;
      c <- get_field copy column;;
      if blank c then
        _ <- set_field copy column fillValue;;
        ret (copy, changed + 1)
      else ret (copy, changed)) records 0;;
  ret (newRecords,
       [("before_records", EList beforeRecords);
        ("changed_count", count_val changed);
        ("filled_value", EVal fillValue)]).
End WithHost.
End FillMissing.

Module ClipOutliersIQR.
Section WithHost.
Context {host : Host}.

Definition new (tick : nat) (params : Params.t) : M loc :=
  let destructive := strict_eq (Params.method params) (VStr "remove") in
  alloc (OInstance CClipOutliersIQR
           (Transformation.new tick "clip_outliers_iqr" params destructive)).

(** [records.map((r) => { const v = Number(r[column]);
                          return isNaN(v) ? null : v })
           .filter((x) => x !== null)], as a list of numbers. *)
Definition numeric_cells (cells : list jsval) : list num :=
  flat_map (fun c => let v := Number c in
                     if num_isNaN v then [] else [v]) cells.

(** [v < lower || v > upper]. *)
Definition outside (v lower upper : num) : bool :=
  num_lt v lower || num_gt v upper.

(** The bounds computed from the sorted numbers: [(lower, upper)]. *)
Definition bounds (k : num) (nums : list num) : num * num :=
  let q1 := nums_at nums (Math_floor (num_mul (num_of_nat (List.length nums)) (Fin (1#4)))) in
  let q3 := nums_at nums (Math_floor (num_mul (num_of_nat (List.length nums)) (Fin (3#4)))) in
  let iqr := num_sub (Number q3) (Number q1) in
  let lower := num_sub (Number q1) (num_mul k iqr) in
  let upper := num_add (Number q1) (num_mul k iqr) in
  (lower, upper).

Definition apply (this records : loc) : M result :=
  t <- get_instance this;;
  let column := Params.column (Transformation.params t) in
  let k := Number (default_to (Params.k (Transformation.params t)) (VNum (Fin (3#2)))) in
  let method := default_to (Params.method (Transformation.params t)) (VStr "clip") in
  let flag_column_name :=
    match Params.flag_column_name (Transformation.params t) with
    | Some name => name
    | None => "_outliers"
    end in
  cells <- column_values records column;;
  let nums := numeric_cells cells in
  if List.length nums <? 5 then
    ret (records, [("reason", EVal (VStr "not_enough_numeric"))])
  else
    let nums := Array_sort num_sub nums in
    let '(lower, upper) := bounds k nums in
    if loose_eq_word method "clip" then
      '(newRecords, changed) <-
        Array_map_st (fun r changed =>
          copy <- Object_assign_empty r;;
          c <- get_field copy column;;
          let v := Number c in
          if negb (num_isNaN v) && outside v lower upper then
            _ <- set_field copy column
                   (VNum (Math_max (Math_min v upper) lower));;
            ret (copy, changed + 1)
          else ret (copy, changed)) records 0;;
      ret (newRecords,
           [("method", EVal method); ("lower", EVal (VNum lower));
            ("upper", EVal (VNum upper)); ("changed_count", count_val changed)])
    else if loose_eq_word method "flag" then
      '(newRecords, changed) <-
        Array_map_st (fun r changed =>
          copy <- Object_assign_empty r;;
          c <- get_field copy column;;
          let v := Number c in
          old <- get_field copy flag_column_name;;
          _ <- set_field copy flag_column_name
                 (if negb (num_isNaN v) && outside v lower upper then VBool true
                  else if truthy old then old else VBool false);;
          now <- get_field copy flag_column_name;;
          ret (copy, if truthy now then changed + 1 else changed)) records 0;;
      ret (newRecords,
           [("method", EVal method); ("lower", EVal (VNum lower));
            ("upper", EVal (VNum upper)); ("flagged_count", count_val changed)])
    else if loose_eq_word method "remove" then
      kept <- Array_filter (fun r =>
                c <- get_field r column;;
                let v := Number c in
                ret (if num_isNaN v then true
                     else num_ge v lower && num_le v upper)) records;;
      n <- array_length records;;
      m <- array_length kept;;
      let removed := n - m in
      ret (kept,
           [("method", EVal method); ("lower", EVal (VNum lower));
            ("upper", EVal (VNum upper)); ("removed_count", count_val removed)])
    else
      ret (records, [("reason", EVal (VStr "unknown_method"))]).
End WithHost.
End ClipOutliersIQR.

(** [t.apply(records)]: the method of the class of [t]; the base class
    throws. *)
Definition apply {host : Host} (this records : loc) : M result :=
  o <- load this;;
  match o with
  | OInstance CTransformation _ => throw (Error "apply() not implemented")
  | OInstance CCoerceNumeric _ => CoerceNumeric.apply this records
  | OInstance CCoerceDatetime _ => CoerceDatetime.apply this records
  | OInstance CFillMissing _ => FillMissing.apply this records
  | OInstance CClipOutliersIQR _ => ClipOutliersIQR.apply this records
  | _ => throw TypeError
  end.

(* ================================================================== *)
(** ** The data frame and the issues *)
(* ================================================================== *)

Inductive col_type : Type := TEmpty | TDatetime | TNumeric | TString.

Module CONFIG.
Definition col_missing_threshold : num := Fin (2#10).
Definition row_missing_threshold : num := Fin (5#10).
Definition pk_uniqueness_threshold : num := Fin (98#100).
Definition numeric_parse_fraction : num := Fin (9#10).
Definition outlier_iqr_k : num := Fin (3#2).
Definition categorical_fuzzy_ratio : num := Fin (85#100).
End CONFIG.

Fixpoint index_of (x : string) (l : list string) : option nat :=
  match l with
  | [] => None
  | y :: l' => if String.eqb y x then Some 0
               else option_map S (index_of x l')
  end.

Module DataFrame.
(** A danfo DataFrame as the Analyzer reads it: the column names and the
    rows ([df.values]). *)
Record t : Type := {
  columns : list string;
  values : list (list jsval)
}.

(** [df.shape[0]]. *)
Definition nrows (df : t) : nat := List.length (values df).

(** [df[col]], by its [values]: the cells of the column, row by row. *)
Definition series (df : t) (col : string) : option (list jsval) :=
  match index_of col (columns df) with
  | Some i => Some (map (fun row => nth i row VUndefined) (values df))
  | None => None
  end.
End DataFrame.

Module Issue.
Record t : Type := {
  id : string;
  scope : string;
  column : option string;
  rows : list nat;
  issue_type : string;
  severity : string;
  score : num;
  evidence : evidence;
  suggestedFix : option string;
  timestamp : string
}.
End Issue.

(** [issue(scope, column, rows, issue_type, severity, score, evidence,
    suggestedFix = null)]; [tick] counts the issues built so far. *)
Definition issue {host : Host} (scope : string) (column : option string)
    (rows : list nat) (issue_type severity : string) (score : num)
    (evidence : evidence) (suggestedFix : option string) (tick : nat) : Issue.t :=
  {| Issue.id := uuidv4 tick;
     Issue.scope := scope;
     Issue.column := column;
     Issue.rows := rows;
     Issue.issue_type := issue_type;
     Issue.severity := severity;
     Issue.score := score;
     Issue.evidence := evidence;
     Issue.suggestedFix := suggestedFix;
     Issue.timestamp := now_ISO tick |}.

(** [[...new Set(l)]]: the distinct elements, in order of first occurrence. *)
Definition distinct (l : list string) : list string :=
  fold_left (fun seen x => if includes seen x then seen else seen ++ [x]) l [].

(** The elements of [l] with their indices. *)
Definition indexed {A : Type} (l : list A) : list (nat * A) :=
  combine (seq 0 (List.length l)) l.

(* ================================================================== *)
(** ** The Analyzer (revised file) *)
(* ================================================================== *)

Module Analyzer.
Section WithHost.
Context {host : Host}.

(** The Analyzer object: [this.df], [this.issues], and the number of
    issues built since the start (for identifiers and time stamps). *)
Record t : Type := {
  df : DataFrame.t;
  issues : list Issue.t;
  ticks : nat
}.

Definition new (df : DataFrame.t) : t :=
  {| df := df; issues := []; ticks := 0 |}.

(** [this.issues.push(issue(...))]. *)
Definition push (this : t) (mk : nat -> Issue.t) : t :=
  {| df := df this;
     issues := issues this ++ [mk (ticks this)];
     ticks := S (ticks this) |}.

(** [_seriesValues(series)]. *)
Definition _seriesValues (series : option (list jsval)) : list jsval :=
  match series with
  | None => []
  | Some vs => vs
  end.

(** [v !== null && v !== undefined && String(v).trim() !== ""]. *)
Definition present (v : jsval) : bool :=
  negb (strict_eq v VNull) && negb (strict_eq v VUndefined) &&
  negb (String.eqb (trim (to_String v)) "").

Definition isValidDate (v : string) : bool :=
  if isPlainYear v then false
  else negb (num_isNaN (Date_parse v)).

Definition count_if {A : Type} (p : A -> bool) (l : list A) : nat :=
  fold_left (fun n x => if p x then n + 1 else n) l 0.

Definition inferColumnType (series : option (list jsval)) : col_type :=
  let vals := filter present (_seriesValues series) in
  if List.length vals =? 0 then TEmpty
  else
    let sample := map (fun v => trim (to_String v)) (firstn 300 vals) in
    let dateCount := count_if isValidDate sample in
    if (0 <? List.length sample) &&
       num_ge (num_div (num_of_nat dateCount) (num_of_nat (List.length sample)))
              (Fin (9#10))
    then TDatetime
    else
      let numCount := count_if isStrictNumber sample in
      if (0 <? List.length sample) &&
         num_ge (num_div (num_of_nat numCount) (num_of_nat (List.length sample)))
                (Fin (9#10))
      then TNumeric
      else TString.

(** A column profile; the danfo dtype of the column is left out. *)
Record ColumnProfile : Type := {
  inferred_type : col_type;
  missing_count : nat;
  missing_pct : num;
  nunique : nat;
  example : list jsval
}.

Definition inferSchema (this : t) : list (string * ColumnProfile) :=
  map (fun col =>
    let s := DataFrame.series (df this) col in
    let arr := _seriesValues s in
    let nonNull := filter present arr in
    let missing_count := List.length (filter (fun v => negb (present v)) arr) in
    let missing_pct :=
      if List.length arr =? 0 then Fin 0
      else num_div (num_of_nat missing_count) (num_of_nat (List.length arr)) in
    let uniqueCount := List.length (distinct (map to_String nonNull)) in
    (col, {| inferred_type := inferColumnType s;
             missing_count := missing_count;
             missing_pct := missing_pct;
             nunique := uniqueCount;
             example := firstn 5 nonNull |}))
    (DataFrame.columns (df this)).

Definition isMissing (v : jsval) : bool :=
  strict_eq v VNull || strict_eq v VUndefined ||
  String.eqb (trim (to_String v)) "" ||
  (is_number v && Number_isNaN v) ||
  (is_string v &&
   includes ["na"; "n/a"; "-"; "null"] (toLowerCase (trim (to_String v)))).

Definition detectMissing (this : t) : t :=
  let colThresh := CONFIG.col_missing_threshold in
  let rowThresh := CONFIG.row_missing_threshold in
  (* column level *)
  let this :=
    fold_left (fun this col =>
      let s := _seriesValues (DataFrame.series (df this) col) in
      let '(missingCount, missingRowIdx) :=
        fold_left (fun '(missingCount, missingRowIdx) '(i, v) =>
          if isMissing v then
            (missingCount + 1,
             if List.length missingRowIdx <? 5 then missingRowIdx ++ [i]
             else missingRowIdx)
          else (missingCount, missingRowIdx)) (indexed s) (0, []) in
      let missingPct :=
        if List.length s =? 0 then Fin 0
        else num_div (num_of_nat missingCount) (num_of_nat (List.length s)) in
      if num_ge missingPct colThresh then
        push this (issue "column" (Some col) missingRowIdx "missing_values"
                     (if num_gt missingPct (Fin (5#10)) then "high" else "medium")
                     missingPct [("missingPct", EVal (VNum missingPct))]
                     (Some "impute_or_drop"))
      else this) (DataFrame.columns (df this)) this in
  (* row level *)
  fold_left (fun this '(i, rowValues) =>
    let missingCells := List.length (filter isMissing rowValues) in
    let missingFraction :=
      num_div (num_of_nat missingCells) (num_of_nat (List.length rowValues)) in
    if num_ge missingFraction rowThresh then
      push this (issue "row" None [i] "row_sparsity" "high" missingFraction
                   [("missingFraction", EVal (VNum missingFraction))]
                   (Some "drop_or_review"))
    else this) (indexed (DataFrame.values (df this))) this.

Definition detectDuplicatesAndPK (this : t) : t :=
  let rows := DataFrame.values (df this) in
  let '(seen, duplicates) :=
    fold_left (fun '(seen, duplicates) '(i, row) =>
      let key := JSON_stringify row in
      if includes seen key then (seen, duplicates ++ [i])
      else (seen ++ [key], duplicates)) (indexed rows) ([], []) in
  let this :=
    if 0 <? List.length duplicates then
      push this (issue "dataset" None (firstn 10 duplicates) "exact_duplicates"
                   "high" (Fin (9#10))
                   [("count", count_val (List.length duplicates))]
                   (Some "drop_or_merge"))
    else this in
  (* PK candidates *)
  let nRows := DataFrame.nrows (df this) in
  fold_left (fun this col =>
    let vals := filter present (_seriesValues (DataFrame.series (df this) col)) in
    let uniqueCount := List.length (distinct (map to_String vals)) in
    let frac :=
      if nRows =? 0 then Fin 0
      else num_div (num_of_nat uniqueCount) (num_of_nat nRows) in
    if num_ge frac CONFIG.pk_uniqueness_threshold then
      push this (issue "column" (Some col) [] "pk_candidate" "low" frac
                   [("unique_fraction", EVal (VNum frac))] None)
    else this) (DataFrame.columns (df this)) this.

(** The quartile bounds of [detectOutliersIQR]: [(lower, upper)]. *)
Definition iqr_bounds (arr : list num) : num * num :=
  let Q1 := nums_at arr (Math_floor (num_mul (num_of_nat (List.length arr)) (Fin (1#4)))) in
  let Q3 := nums_at arr (Math_floor (num_mul (num_of_nat (List.length arr)) (Fin (3#4)))) in
  let iqr := num_sub (Number Q3) (Number Q1) in
  let lower := num_sub (Number Q1) (num_mul CONFIG.outlier_iqr_k iqr) in
  let upper := num_add (Number Q3) (num_mul CONFIG.outlier_iqr_k iqr) in
  (lower, upper).

(** The [outliers] array of [detectOutliersIQR]: index and value of the
    flagged cells. *)
Definition outliers_of (original : list jsval) (lower upper : num)
  : list (nat * jsval) :=
  fold_left (fun outliers '(i, v) =>
    let num := Number v in
    if negb (num_isNaN num) && (num_lt num lower || num_gt num upper)
    then outliers ++ [(i, v)] else outliers) (indexed original) [].

Definition detectOutliersIQR (this : t) (col : string) : t :=
  let arr := filter (fun x => negb (num_isNaN x))
               (map Number (_seriesValues (DataFrame.series (df this) col))) in
  if List.length arr <? 5 then this
  else
    let arr := Array_sort num_sub arr in
    let '(lower, upper) := iqr_bounds arr in
    let original := _seriesValues (DataFrame.series (df this) col) in
    let outliers := outliers_of original lower upper in
    if 0 <? List.length outliers then
      push this (issue "column" (Some col) (map fst (firstn 10 outliers))
                   "outlier_iqr" "medium"
                   (num_div (num_of_nat (List.length outliers))
                            (num_of_nat (DataFrame.nrows (df this))))
                   [("lower", EVal (VNum lower)); ("upper", EVal (VNum upper));
                    ("count", count_val (List.length outliers))]
                   (Some "review_or_cap"))
    else this.

Definition runOutliers (this : t) : t :=
  fold_left (fun this col =>
    match inferColumnType (DataFrame.series (df this) col) with
    | TNumeric => detectOutliersIQR this col
    | _ => this
    end) (DataFrame.columns (df this)) this.

Definition detectDateParsing (this : t) : t :=
  fold_left (fun this col =>
    match inferColumnType (DataFrame.series (df this) col) with
    | TDatetime =>
        let vals := firstn 200 (_seriesValues (DataFrame.series (df this) col)) in
        let '(failures, total) :=
          fold_left (fun '(failures, total) v =>
            (if num_isNaN (Date_parse (to_String v)) then failures + 1 else failures,
             total + 1)) vals (0, 0) in
        let frac :=
          if total =? 0 then Fin 0
          else num_div (num_of_nat failures) (num_of_nat total) in
        if num_gt frac (Fin (1#10)) then
          push this (issue "column" (Some col) [] "date_parse_failures"
                       (if num_gt frac (Fin (5#10)) then "high" else "medium")
                       frac [("failed_fraction", EVal (VNum frac))]
                       (Some "parse_with_formats"))
        else this
    | _ => this
    end) (DataFrame.columns (df this)) this.

(** The clustering pass over the distinct values of one column:
    [(clusters, used)] after the loop. *)
Definition cluster_pass (uniques : list string)
  : list (list string) * list string :=
  fold_left (fun '(clusters, used) u =>
    if includes used u then (clusters, used)
    else
      let matches :=
        filter (fun m => num_lt (snd m)
                           (num_sub (Fin 1) CONFIG.categorical_fuzzy_ratio))
               (Fuse_search uniques u) in
      let group := map fst matches in
      let used := fold_left (fun used g =>
                    if includes used g then used else used ++ [g]) group used in
      (if 1 <? List.length group then clusters ++ [group] else clusters, used))
    uniques ([], []).

Definition detectCategoricalInconsistency (this : t) : t :=
  fold_left (fun this col =>
    match inferColumnType (DataFrame.series (df this) col) with
    | TString =>
        let vals := _seriesValues (DataFrame.series (df this) col) in
        let uniques := distinct (map to_String vals) in
        if 500 <? List.length uniques then this
        else
          let clusters := fst (cluster_pass uniques) in
          if 0 <? List.length clusters then
            push this (issue "column" (Some col) [] "categorical_inconsistency"
                         "medium" (Fin (6#10))
                         [("clusters", EClusters (firstn 10 clusters))]
                         (Some "map_or_standardize"))
          else this
    | _ => this
    end) (DataFrame.columns (df this)) this.

Definition detectSuspiciousText (this : t) : t :=
  fold_left (fun this col =>
    match inferColumnType (DataFrame.series (df this) col) with
    | TString =>
        let vals := _seriesValues (DataFrame.series (df this) col) in
        let longRows :=
          fold_left (fun longRows '(i, v) =>
            if 1000 <? String.length (to_String v) then longRows ++ [i]
            else longRows) (indexed vals) [] in
        if 0 <? List.length longRows then
          push this (issue "column" (Some col) (firstn 10 longRows)
                       "suspicious_text_long" "low" (Fin (6#10))
                       [("examples",
                         EList (map (fun i => nth i vals VUndefined)
                                    (firstn 3 longRows)))]
                       (Some "truncate_or_clean"))
        else this
    | _ => this
    end) (DataFrame.columns (df this)) this.

Definition runAll (this : t) : list (string * ColumnProfile) * t :=
  let schema := inferSchema this in
  let this := detectMissing this in
  let this := detectDuplicatesAndPK this in
  let this := runOutliers this in
  let this := detectDateParsing this in
  let this := detectCategoricalInconsistency this in
  let this := detectSuspiciousText this in
  (schema, this).
End WithHost.
End Analyzer.

(* ================================================================== *)
(** ** Three detectors of [Analyzer/Analyzer.js] *)
(* ================================================================== *)

Module AnalyzerDraft.
Section WithHost.
Context {host : Host}.

(** The [isMissing] helper of this file's [detectMissing]. *)
Definition isMissing (v : jsval) : bool :=
  strict_eq v VNull || strict_eq v VUndefined || strict_eq v (VStr "") ||
  (is_number v && Number_isNaN v) ||
  (is_string v &&
   includes ["na"; "n/a"; "-"; "null"] (toLowerCase (trim (to_String v)))).

(** danfo's [series.dropNa()], by its values: the cells that are not
    null, undefined or NaN. *)
Definition dropNa (vs : list jsval) : list jsval :=
  filter (fun v => negb (strict_eq v VNull || strict_eq v VUndefined ||
                         Number_isNaN v)) vs.

(** The equality of the elements of a [Set]: [===], and NaN equal to
    itself. *)
Definition same_value_zero (a b : jsval) : bool :=
  strict_eq a b || (Number_isNaN a && Number_isNaN b).

(** [new Set(values).size]. *)
Definition Set_size (values : list jsval) : nat :=
  List.length
    (fold_left (fun seen v =>
       if existsb (same_value_zero v) seen then seen else seen ++ [v])
       values []).

(** The outcome of a method: the error it throws, or the Analyzer after
    it; and the issues of the Analyzer then. *)
Definition issues_after (r : error + Analyzer.t) : list Issue.t :=
  match r with
  | inr this => Analyzer.issues this
  | inl _ => []
  end.

(** [detectMissing].  The callback of the loop over the columns starts
    with [s = this.df[col]], an assignment to the undeclared name [s]:
    in the strict mode code of a class body it throws a ReferenceError, at
    the first column.  Without columns the loop over the rows runs;
    [Object.values(this.df.iloc({rows: [i]}).data[0])] is read as the cells
    of the row [i]. *)
Definition detectMissing (this : Analyzer.t) : error + Analyzer.t :=
  let rowThresh := CONFIG.row_missing_threshold in
  match DataFrame.columns (Analyzer.df this) with
  | _ :: _ => inl ReferenceError
  | [] =>
      inr (fold_left (fun this '(i, values) =>
             let missingCells := List.length (filter isMissing values) in
             let missingFraction :=
               num_div (num_of_nat missingCells) (num_of_nat (List.length values)) in
             if num_ge missingFraction rowThresh then
               Analyzer.push this
                 (issue "row" None [i] "row_sparsity" "high" missingFraction
                    [("missingFraction", EVal (VNum missingFraction))]
                    (Some "drop_or_review"))
             else this)
             (indexed (DataFrame.values (Analyzer.df this))) this)
  end.

(** [detectDuplicatesAndPK]. *)
Definition detectDuplicatesAndPK (this : Analyzer.t) : Analyzer.t :=
  let jsonRows := map JSON_stringify (DataFrame.values (Analyzer.df this)) in
  let '(seen, duplicates) :=
    fold_left (fun '(seen, duplicates) '(i, r) =>
      if includes seen r then (seen, duplicates ++ [i])
      else (seen ++ [r], duplicates)) (indexed jsonRows) ([], []) in
  let this :=
    if 0 <? List.length duplicates then
      Analyzer.push this
        (issue "dataset" None (firstn 10 duplicates) "exact_duplicates"
           "high" (Fin (9#10))
           [("count", count_val (List.length duplicates))]
           (Some "drop_or_merge"))
    else this in
  fold_left (fun this col =>
    let uniqueCount :=
      Set_size (dropNa (Analyzer._seriesValues
                          (DataFrame.series (Analyzer.df this) col))) in
    let frac := num_div (num_of_nat uniqueCount)
                        (num_of_nat (DataFrame.nrows (Analyzer.df this))) in
    if num_ge frac CONFIG.pk_uniqueness_threshold then
      Analyzer.push this
        (issue "column" (Some col) [] "pk_candidate" "low" frac
           [("unique_fraction", EVal (VNum frac))] None)
    else this) (DataFrame.columns (Analyzer.df this)) this.

(** [nums(i)]: [nums] is an array, and calling a value that is not a
    function throws a TypeError. *)
Definition call_array (nums : list num) (i : num) : error + jsval :=
  inl TypeError.

(** [(lower, upper)] as the statements after the quartiles compute them. *)
Definition iqr_bounds (Q1 Q3 : jsval) : num * num :=
  let iqr := num_sub (Number Q3) (Number Q1) in
  let lower := num_sub (Number Q1) (num_mul CONFIG.outlier_iqr_k iqr) in
  let upper := num_sub (Number Q3) (num_mul CONFIG.outlier_iqr_k iqr) in
  (lower, upper).

(** The [outliers] array. *)
Definition outliers_of (values : list jsval) (lower upper : num) : list jsval :=
  fold_left (fun outliers v =>
    let num := Number v in
    if negb (isNaN v) && (num_lt num lower || num_gt num upper)
    then outliers ++ [v] else outliers) values [].

(** The statements after the quartiles.  [his.issues.push(...)] reads the
    undeclared name [his], a ReferenceError, before [issue] is called. *)
Definition report (this : Analyzer.t) (col : string) (values : list jsval)
    (Q1 Q3 : jsval) : error + Analyzer.t :=
  let '(lower, upper) := iqr_bounds Q1 Q3 in
  let outliers := outliers_of values lower upper in
  if 0 <? List.length outliers then inl ReferenceError
  else inr this.

Definition detectOutliersIQR (this : Analyzer.t) (col : string)
  : error + Analyzer.t :=
  match DataFrame.series (Analyzer.df this) col with
  | None => inl TypeError
  | Some values =>
      let s := dropNa values in
      let nums := filter (fun x => negb (num_isNaN x)) (map Number s) in
      if List.length nums <? 5 then inr this
      else
        let nums := Array_sort num_sub nums in
        match call_array nums
                (Math_floor (num_mul (num_of_nat (List.length nums)) (Fin (1#4)))) with
        | inl e => inl e
        | inr Q1 =>
            match call_array nums
                    (Math_floor (num_mul (num_of_nat (List.length nums)) (Fin (3#4)))) with
            | inl e => inl e
            | inr Q3 => report this col values Q1 Q3
            end
        end
  end.
End WithHost.
End AnalyzerDraft.

(* ================================================================== *)
(** ** A host for the examples *)
(* ================================================================== *)

Module ExampleHost.

Fixpoint digits_value (s : string) (acc : Z) : Z :=
  match s with
  | EmptyString => acc
  | String c s' => digits_value s' (10 * acc + Z.of_nat (nat_of_ascii c - 48))%Z
  end.

(** Reads the integer literals: white space around, an optional sign,
    digits; the empty string reads as zero, anything else as NaN. *)
Definition read_number (s : string) : num :=
  let t := trim s in
  match t with
  | EmptyString => Fin 0
  | String c t' =>
      if Ascii.eqb c "-"%char then
        if all_digits t' && negb (String.eqb t' "")
        then Fin (inject_Z (- digits_value t' 0)) else NaN
      else if Ascii.eqb c "+"%char then
        if all_digits t' && negb (String.eqb t' "")
        then Fin (inject_Z (digits_value t' 0)) else NaN
      else if all_digits t then Fin (inject_Z (digits_value t 0)) else NaN
  end.

Fixpoint show_nat_fuel (fuel n : nat) (acc : string) : string :=
  match fuel with
  | O => acc
  | S fuel' =>
      let acc' := String (ascii_of_nat (48 + n mod 10)) acc in
      if n / 10 =? 0 then acc' else show_nat_fuel fuel' (n / 10) acc'
  end.

Definition show_nat (n : nat) : string := show_nat_fuel (S n) n "".

(** Writes the integers in decimal, another rational as a fraction. *)
Definition show_number (q : Q) : string :=
  let r := Qred q in
  let sign := if (Qnum r <? 0)%Z then "-" else "" in
  let n := show_nat (Z.to_nat (Z.abs (Qnum r))) in
  if (Qden r =? 1)%positive then (sign ++ n)%string
  else (sign ++ n ++ "/" ++ show_nat (Pos.to_nat (Qden r)))%string.

Fixpoint prefixb (p s : string) : bool :=
  match p, s with
  | EmptyString, _ => true
  | String a p', String b s' => Ascii.eqb a b && prefixb p' s'
  | _, EmptyString => false
  end.

(** The index of the first occurrence of [p] in [s]. *)
Fixpoint find_sub (p s : string) (i : nat) : option nat :=
  if prefixb p s then Some i
  else match s with
       | EmptyString => None
       | String _ s' => find_sub p s' (S i)
       end.

(** The score fuse.js gives a hit without errors: 0 for the pattern
    itself, otherwise the distance from the start over 100, and at least
    0.001. *)
Definition exact_score (pattern item : string) : option num :=
  if String.eqb pattern item then Some (Fin 0)
  else match find_sub pattern item 0 with
       | Some i => Some (Math_max (Fin (1#1000))
                                  (Fin (inject_Z (Z.of_nat i) / 100)))
       | None => None
       end.

Fixpoint insert_hit (x : string * num) (l : list (string * num))
  : list (string * num) :=
  match l with
  | [] => [x]
  | y :: l' => if num_lt (snd x) (snd y) then x :: l else y :: insert_hit x l'
  end.

(** The hits without errors, best first.  (Hits with errors score above
    the cut the Analyzer applies when the pattern is short.) *)
Definition search (items : list string) (pattern : string)
  : list (string * num) :=
  fold_left (fun hits item =>
    match exact_score pattern item with
    | Some sc => insert_hit (item, sc) hits
    | None => hits
    end) items [].

Definition show_cell (v : jsval) : string :=
  match v with
  | VBool true => "true"
  | VBool false => "false"
  | VNum (Fin q) => show_number q
  | VStr s => (String (ascii_of_nat 34) s ++ String (ascii_of_nat 34) "")%string
  | _ => "null"
  end.

Definition show_row (row : list jsval) : string :=
  ("[" ++ String.concat "," (map show_cell row) ++ "]")%string.

Definition host : Host := {|
  Number_of_string := read_number;
  Number_toString := show_number;
  Date_parse := fun _ => NaN;
  Fuse_search := search;
  JSON_stringify := show_row;
  uuidv4 := fun n => ("id-" ++ show_nat n)%string;
  now_ISO := fun n => ("t" ++ show_nat n)%string
|}.

(** A record with the single column [x]. *)
Definition row (v : jsval) : object := ORecord [("x", v)].

Definition int (z : Z) : jsval := VNum (Fin (inject_Z z)).

Definition params_x : Params.t := {|
  Params.column := "x";
  Params.k := VUndefined;
  Params.method := VUndefined;
  Params.flag_column_name := None;
  Params.strategy := VUndefined;
  Params.value := VUndefined
|}.

(** The column [1, 2, 3, 4, 5, 100]. *)
Definition column_100 : list jsval :=
  [int 1; int 2; int 3; int 4; int 5; int 100].

Definition df_100 : DataFrame.t := {|
  DataFrame.columns := ["x"];
  DataFrame.values := map (fun v => [v]) column_100
|}.

(** A heap holding the records of [cells], one cell each, and then the
    array of these records; the location of that array; the location of
    the first object constructed after them. *)
Definition heap_of (cells : list jsval) : heap :=
  map row cells ++ [OArray (seq 0 (List.length cells))].

Definition array_of (cells : list jsval) : loc := List.length cells.

Definition instance_of (cells : list jsval) : loc := S (List.length cells).

(** The records of [cells] as the heap holds them, and their locations. *)
Definition records_of (cells : list jsval) : list record :=
  map (fun v => [("x", v)]) cells.

Definition locs_of (cells : list jsval) : list loc :=
  seq 0 (List.length cells).

(** The heap of [cells] after [construct] has run on it. *)
Definition heap_with (construct : M loc) (cells : list jsval) : heap :=
  final_heap (construct (heap_of cells)).

(** A column of strings, numbers and null. *)
Definition mixed_cells : list jsval :=
  [VStr "12"; VStr "abc"; VNull; int 7].

(** The column [1, 2, null, 4]. *)
Definition gap_cells : list jsval := [int 1; int 2; VNull; int 4].

(** The column ["NA", null]. *)
Definition na_cells : list jsval := [VStr "NA"; VNull].

(** The column [null, 3]. *)
Definition null_cells : list jsval := [VNull; int 3].

(** The column [1, 2, 3, 4, 5]. *)
Definition column_5 : list jsval := [int 1; int 2; int 3; int 4; int 5].

(** The sorted sample [1, ..., 10]. *)
Definition one_to_ten : list num :=
  map (fun z => Fin (inject_Z z)) [1; 2; 3; 4; 5; 6; 7; 8; 9; 10]%Z.

(** A data frame with the one column [c] = ["ab", "bc", "abc"]. *)
Definition df_abc : DataFrame.t := {|
  DataFrame.columns := ["c"];
  DataFrame.values := [[VStr "ab"]; [VStr "bc"]; [VStr "abc"]]
|}.

Definition params_strategy (strategy value : jsval) : Params.t := {|
  Params.column := "x";
  Params.k := VUndefined;
  Params.method := VUndefined;
  Params.flag_column_name := None;
  Params.strategy := strategy;
  Params.value := value
|}.

Definition params_method (method : jsval) : Params.t := {|
  Params.column := "x";
  Params.k := VUndefined;
  Params.method := method;
  Params.flag_column_name := None;
  Params.strategy := VUndefined;
  Params.value := VUndefined
|}.
End ExampleHost.


(** The heap after the calls [this.apply(r)] for the [r] of [calls], one
    after the other, whether they return or throw. *)
Definition heap_after {host : Host} (this : loc) (calls : list loc) (h : heap)
  : heap :=
  fold_left (fun h r => final_heap (apply this r h)) calls h.

(* ================================================================== *)
(** ** Reading the heap *)
(* ================================================================== *)

Definition record_at (h : heap) (l : loc) : option record :=
  match nth_error h l with
  | Some (ORecord fs) => Some fs
  | _ => None
  end.

Definition elems_at (h : heap) (a : loc) : option (list loc) :=
  match nth_error h a with
  | Some (OArray ls) => Some ls
  | _ => None
  end.

Definition instance_at (h : heap) (l : loc) : option (class * Transformation.t) :=
  match nth_error h l with
  | Some (OInstance cls t) => Some (cls, t)
  | _ => None
  end.

(** The array at [a] has the elements [ls], which are the records [rs]. *)
Definition holds (h : heap) (a : loc) (ls : list loc) (rs : list record) : Prop :=
  elems_at h a = Some ls /\
  Forall2 (fun l r => record_at h l = Some r) ls rs.

(** Every object of [h0] is in [h], at the same location and unchanged. *)
Definition extends (h0 h : heap) : Prop := exists s, h = h0 ++ s.

(** [l] was allocated after the heap [h0] was taken. *)
Definition fresh (h0 : heap) (l : loc) : Prop := List.length h0 <= l.

(** A callback over the records, as a function on the fields and on the
    counter. *)
Fixpoint map_st {S : Type} (step : record -> S -> record * S)
    (rs : list record) (s : S) : list record * S :=
  match rs with
  | [] => ([], s)
  | r :: rs' =>
      let '(r1, s1) := step r s in
      let '(rs1, s2) := map_st step rs' s1 in
      (r1 :: rs1, s2)
  end.

(** The cells of a column. *)
Definition cells_of (column : string) (rs : list record) : list jsval :=
  map (fun r => prop_get r column) rs.

(** [r'] has the properties of [r], up to the property [key]. *)
Definition same_except (key : string) (r r' : record) : Prop :=
  forall k, k <> key -> prop_get r' k = prop_get r k.

(** The array [out] of the heap [h'] is new with respect to [h], and so
    are its elements, which are the records of [rs] up to the property
    [key]. *)
Definition fresh_copies (h h' : heap) (out : loc) (rs : list record)
    (key : string) : Prop :=
  fresh h out /\
  exists ls' rs',
    holds h' out ls' rs' /\
    Forall (fresh h) ls' /\
    Forall2 (same_except key) rs rs'.

(** The number of elements satisfying [p]. *)
Definition count {A : Type} (p : A -> bool) (l : list A) : nat :=
  List.length (filter p l).

(** A callback copies its record: it allocates one object, the image of
    the record under [step], and returns it. *)
Definition copies {S : Type} (cb : loc -> S -> M (loc * S))
    (step : record -> S -> record * S) : Prop :=
  forall h r fs s,
    record_at h r = Some fs ->
    cb r s h = Normal (List.length h, snd (step fs s))
                      (h ++ [ORecord (fst (step fs s))]).

(** The heap after [records.map(cb)] and the array it returns. *)
Definition mapped_heap (h : heap) (rs' : list record) : heap :=
  h ++ map ORecord rs' ++ [OArray (seq (List.length h) (List.length rs'))].

Definition mapped_array (h : heap) (rs' : list record) : loc :=
  List.length h + List.length rs'.

(** Run from a heap that extends [h0], the computation [m] ends, normally
    or not, in a heap that extends [h0]; a normal result satisfies [P]. *)
Definition frame {A : Type} (h0 : heap) (P : A -> Prop) (m : M A) : Prop :=
  forall h, extends h0 h ->
    match m h with
    | Normal a h' => extends h0 h' /\ P a
    | Throw _ h' => extends h0 h'
    end.

(** The elements of [ls] whose record passes [test]. *)
Definition kept_locs (test : record -> bool) (ls : list loc) (rs : list record)
  : list loc :=
  map fst (filter (fun p => test (snd p)) (combine ls rs)).

Section Readings.
Context {host : Host}.

(** The callback of [CoerceNumeric.apply]. *)
Definition coerce_numeric_step (column : string) (r : record) (changed : nat)
  : record * nat :=
  let v := prop_get r column in
  let num := if blank v then VNull else VNum (Number v) in
  (prop_set r column (if isNaN num then VNull else num),
   if negb (strict_eq v num) && negb (strict_eq v VNull && strict_eq num VNull)
   then changed + (if strict_eq num v then 0 else 1)
   else changed).

(** The callback of [FillMissing.apply]. *)
Definition fill_step (column : string) (fillValue : jsval) (r : record)
    (changed : nat) : record * nat :=
  if blank (prop_get r column) then (prop_set r column fillValue, changed + 1)
  else (r, changed).

(** The fill value of the strategies that compute one. *)
Definition fill_value (strategy value : jsval) (cells : list jsval) : jsval :=
  let values := filter (fun v => negb (blank v)) cells in
  if loose_eq_word strategy "mean" then
    let nums := FillMissing.numeric_values values in
    if 0 <? List.length nums
    then VNum (num_div (fold_left num_add nums (Fin 0))
                       (num_of_nat (List.length nums)))
    else VNull
  else if loose_eq_word strategy "median" then
    let nums := Array_sort num_sub (FillMissing.numeric_values values) in
    if 0 <? List.length nums
    then nums_at nums
           (Math_floor (num_div (num_of_nat (List.length nums)) (Fin 2)))
    else VNull
  else value.

(** The callback of the "clip" method. *)
Definition clip_step (column : string) (lower upper : num) (r : record)
    (changed : nat) : record * nat :=
  let v := Number (prop_get r column) in
  if negb (num_isNaN v) && ClipOutliersIQR.outside v lower upper
  then (prop_set r column (VNum (Math_max (Math_min v upper) lower)), changed + 1)
  else (r, changed).

(** The callback of the "flag" method. *)
Definition flag_step (column flag : string) (lower upper : num) (r : record)
    (changed : nat) : record * nat :=
  let v := Number (prop_get r column) in
  let old := prop_get r flag in
  let r' := prop_set r flag
              (if negb (num_isNaN v) && ClipOutliersIQR.outside v lower upper
               then VBool true
               else if truthy old then old else VBool false) in
  (r', if truthy (prop_get r' flag) then changed + 1 else changed).

(** The test of the "remove" method. *)
Definition keep_test (column : string) (lower upper : num) (r : record) : bool :=
  let v := Number (prop_get r column) in
  if num_isNaN v then true else num_ge v lower && num_le v upper.

(** What [ClipOutliersIQR.apply] reads from the parameters and the
    column: [k], the method, the flag column, the sorted numbers. *)
Definition clip_k (p : Params.t) : num :=
  Number (default_to (Params.k p) (VNum (Fin (3#2)))).

Definition clip_method (p : Params.t) : jsval :=
  default_to (Params.method p) (VStr "clip").

Definition clip_flag (p : Params.t) : string :=
  match Params.flag_column_name p with
  | Some name => name
  | None => "_outliers"
  end.

Definition clip_nums (p : Params.t) (rs : list record) : list num :=
  ClipOutliersIQR.numeric_cells (cells_of (Params.column p) rs).

Definition clip_bounds (p : Params.t) (rs : list record) : num * num :=
  ClipOutliersIQR.bounds (clip_k p) (Array_sort num_sub (clip_nums p rs)).

(** The five outcomes of [ClipOutliersIQR.apply]. *)
Inductive clip_case : Type :=
| NotEnough | Clip | Flag | Remove | UnknownMethod.

Definition clip_case_of (p : Params.t) (rs : list record) : clip_case :=
  if List.length (clip_nums p rs) <? 5 then NotEnough
  else if loose_eq_word (clip_method p) "clip" then Clip
  else if loose_eq_word (clip_method p) "flag" then Flag
  else if loose_eq_word (clip_method p) "remove" then Remove
  else UnknownMethod.

(** The evidence of the three methods. *)
Definition clip_evidence (p : Params.t) (rs : list record) (counter : string)
    (n : nat) : evidence :=
  [("method", EVal (clip_method p));
   ("lower", EVal (VNum (fst (clip_bounds p rs))));
   ("upper", EVal (VNum (snd (clip_bounds p rs))));
   (counter, count_val n)].

(** What [apply] returns on a list of records, class by class. *)
Definition returns_copies (cls : class) (p : Params.t)
    (h : heap) (records : loc) (ls : list loc) (rs : list record)
    (c : completion result) : Prop :=
  match cls with
  | CCoerceNumeric =>
      exists out ev h',
        c = Normal (out, ev) h' /\ fresh_copies h h' out rs (Params.column p)
  | CFillMissing =>
      loose_eq_word (default_to (Params.strategy p) (VStr "mean")) "mode" = false ->
      exists out ev h',
        c = Normal (out, ev) h' /\ fresh_copies h h' out rs (Params.column p)
  | CClipOutliersIQR =>
      exists out ev h',
        c = Normal (out, ev) h' /\
        match clip_case_of p rs with
        | NotEnough | UnknownMethod => out = records /\ h' = h
        | Clip => fresh_copies h h' out rs (Params.column p)
        | Flag => fresh_copies h h' out rs (clip_flag p)
        | Remove =>
            let kept := kept_locs (keep_test (Params.column p)
                                     (fst (clip_bounds p rs))
                                     (snd (clip_bounds p rs))) ls rs in
            fresh h out /\ elems_at h' out = Some kept /\ incl kept ls
        end
  | CCoerceDatetime | CTransformation => True
  end.

(** A score in the closed interval from 0 to 1. *)
Definition unit_score (s : num) : bool :=
  num_le (Fin 0) s && num_le s (Fin 1).

(** The cell [CoerceNumeric] writes for the cell [v]. *)
Definition coerced (v : jsval) : jsval :=
  let num := if blank v then VNull else VNum (Number v) in
  if isNaN num then VNull else num.

(** Whether [CoerceNumeric] counts the cell [v] as changed. *)
Definition coerce_counts (v : jsval) : bool :=
  let num := if blank v then VNull else VNum (Number v) in
  negb (strict_eq v num) && negb (strict_eq v VNull && strict_eq num VNull) &&
  negb (strict_eq num v).

(** Every issue collected so far has a score from 0 to 1. *)
Definition scores_ok (this : Analyzer.t) : Prop :=
  Forall (fun i => unit_score (Issue.score i) = true) (Analyzer.issues this).

(** The invariant of the loops over the columns and the rows. *)
Definition loop_inv (d : DataFrame.t) (this : Analyzer.t) : Prop :=
  scores_ok this /\ Analyzer.df this = d.

(** Whether the revised detector flags the cell [v]. *)
Definition flagged (lower upper : num) (x : nat * jsval) : bool :=
  negb (num_isNaN (Number (snd x))) &&
  (num_lt (Number (snd x)) lower || num_gt (Number (snd x)) upper).
End Readings.

(* ================================================================== *)
(** ** Further readings of the transformations *)
(* ================================================================== *)

Section MoreReadings.
Context {host : Host}.

(** A cell that is already what [CoerceNumeric] writes: null, or a number
    other than NaN. *)
Definition clean_cell (v : jsval) : bool :=
  match v with
  | VNull => true
  | VNum n => negb (num_isNaN n)
  | _ => false
  end.

(** The [parsed] of the callback of [CoerceDatetime.apply]. *)
Definition datetime_parsed (v : jsval) : jsval :=
  if blank v then VNull else VNum (Date_parse (to_String v)).

(** The cells on which that callback does not reach [new Date.parse]:
    those that are not empty and that [Date.parse] does not read. *)
Definition unreadable_date (v : jsval) : bool := isNaN (datetime_parsed v).

(** The callback of [CoerceDatetime.apply] on such a cell. *)
Definition coerce_datetime_step (column : string) (r : record) (changed : nat)
  : record * nat :=
  (prop_set r column VNull, changed + 1).

End MoreReadings.

(* ================================================================== *)
(** ** Further examples *)
(* ================================================================== *)

Module MoreExamples.
(** A column of words that are not dates. *)
Definition word_cells : list jsval := [VStr "soon"; VStr "later"].

(** The column ["a", "", undefined]: no value reads as a number. *)
Definition text_cells : list jsval := [VStr "a"; VStr ""; VUndefined].

(** The column [5, null, 1, 3]. *)
Definition median_cells : list jsval :=
  [ExampleHost.int 5; VNull; ExampleHost.int 1; ExampleHost.int 3].

(** The column [1, 2, 3, 4, 5, "n/a", 100]. *)
Definition dirty_cells : list jsval :=
  [ExampleHost.int 1; ExampleHost.int 2; ExampleHost.int 3; ExampleHost.int 4;
   ExampleHost.int 5; VStr "n/a"; ExampleHost.int 100].

(** A heap for an instance built outside the constructors: the records
    of [cells], their array, and then the instance. *)
Definition heap_with_instance (cls : class) (t : Transformation.t)
    (cells : list jsval) : heap :=
  ExampleHost.heap_of cells ++ [OInstance cls t].
End MoreExamples.

Section ClipReadings.
Context {host : Host}.

End ClipReadings.

(* ================================================================== *)
(** ** Readings of the issues *)
(* ================================================================== *)

Section IssueReadings.
Context {host : Host}.

(** An issue without its identifier and its time stamp. *)
Definition finding : Type :=
  (string * option string * list nat * string * string * num * evidence *
   option string)%type.

Definition content (i : Issue.t) : finding :=
  (Issue.scope i, Issue.column i, Issue.rows i, Issue.issue_type i,
   Issue.severity i, Issue.score i, Issue.evidence i, Issue.suggestedFix i).

(** The eight kinds of issue of the revised Analyzer. *)
Definition issue_types : list string :=
  ["missing_values"; "row_sparsity"; "exact_duplicates"; "pk_candidate";
   "outlier_iqr"; "date_parse_failures"; "categorical_inconsistency";
   "suspicious_text_long"].

(** An issue about the data frame [d]: at most ten rows, each a row of
    [d]; a known kind and severity; the scope "column" with a column of
    [d], or the scope "row" with one row and no column, or the scope
    "dataset" with no column. *)
Definition well_formed (d : DataFrame.t) (i : Issue.t) : bool :=
  (List.length (Issue.rows i) <=? 10) &&
  forallb (fun r => r <? DataFrame.nrows d) (Issue.rows i) &&
  includes issue_types (Issue.issue_type i) &&
  includes ["low"; "medium"; "high"] (Issue.severity i) &&
  match Issue.column i with
  | Some c =>
      String.eqb (Issue.scope i) "column" && includes (DataFrame.columns d) c
  | None =>
      (String.eqb (Issue.scope i) "row" && (List.length (Issue.rows i) =? 1)) ||
      String.eqb (Issue.scope i) "dataset"
  end.

(** The invariant of the detectors for [well_formed]. *)
Definition wf_inv (d : DataFrame.t) (this : Analyzer.t) : Prop :=
  Forall (fun i => well_formed d i = true) (Analyzer.issues this) /\
  Analyzer.df this = d.

(** Two Analyzers on the same data frame, the issues of the first being
    those of the second after [prefix], identifiers and time stamps
    apart. *)
Definition same_findings (prefix : list finding) (a b : Analyzer.t) : Prop :=
  Analyzer.df a = Analyzer.df b /\
  map content (Analyzer.issues a) = prefix ++ map content (Analyzer.issues b).
End IssueReadings.

(* ================================================================== *)
(** ** Readings of [detectMissing] and [detectDuplicatesAndPK] *)
(* ================================================================== *)

Section DetectorReadings.
Context {host : Host}.



(** The rows whose JSON text is that of an earlier row. *)
Definition repeated_rows (keys : list string) : list nat :=
  filter (fun i => includes (firstn i keys) (nth i keys ""))
         (seq 0 (List.length keys)).

(** What [detectDuplicatesAndPK] pushes for the duplicates. *)
Definition exact_duplicates_finding (d : DataFrame.t) : list finding :=
  let duplicates := repeated_rows (map JSON_stringify (DataFrame.values d)) in
  if 0 <? List.length duplicates then
    [("dataset", None, firstn 10 duplicates, "exact_duplicates", "high",
      Fin (9#10), [("count", count_val (List.length duplicates))],
      Some "drop_or_merge")]
  else [].

(** What the loop over the columns of [detectDuplicatesAndPK] pushes for
    [col]. *)
Definition pk_candidate_finding (d : DataFrame.t) (col : string) : list finding :=
  let vals := filter Analyzer.present
                (Analyzer._seriesValues (DataFrame.series d col)) in
  let uniqueCount := List.length (distinct (map to_String vals)) in
  let frac :=
    if DataFrame.nrows d =? 0 then Fin 0
    else num_div (num_of_nat uniqueCount) (num_of_nat (DataFrame.nrows d)) in
  if num_ge frac CONFIG.pk_uniqueness_threshold then
    [("column", Some col, [], "pk_candidate", "low", frac,
      [("unique_fraction", EVal (VNum frac))], None)]
  else [].
End DetectorReadings.

Section KindReadings.
Context {host : Host}.

(** The kinds of issue a column of the type [t] can get: outliers for a
    numeric column, date parse failures for a datetime column, the two
    text checks for a string column, and the other kinds for any column. *)
Definition kind_fits (t : col_type) (issue_type : string) : bool :=
  if String.eqb issue_type "outlier_iqr" then
    match t with TNumeric => true | _ => false end
  else if String.eqb issue_type "date_parse_failures" then
    match t with TDatetime => true | _ => false end
  else if String.eqb issue_type "categorical_inconsistency" ||
          String.eqb issue_type "suspicious_text_long" then
    match t with TString => true | _ => false end
  else true.

(** An issue with a column is of a kind that fits the inferred type of
    the column; an issue without one is about a row or the duplicates. *)
Definition fits_type (d : DataFrame.t) (i : Issue.t) : bool :=
  match Issue.column i with
  | Some c =>
      kind_fits (Analyzer.inferColumnType (DataFrame.series d c))
                (Issue.issue_type i)
  | None => includes ["row_sparsity"; "exact_duplicates"] (Issue.issue_type i)
  end.

Definition typed_inv (d : DataFrame.t) (this : Analyzer.t) : Prop :=
  Forall (fun i => fits_type d i = true) (Analyzer.issues this) /\
  Analyzer.df this = d.
End KindReadings.

(* ================================================================== *)
(** ** Lists and numbers *)
(* ================================================================== *)

Lemma nth_error_app_left {A : Type} (l s : list A) (n : nat) (x : A) :
  nth_error l n = Some x -> nth_error (l ++ s) n = Some x.
Proof.
  intro H.
  rewrite nth_error_app1; [exact H|].
  apply nth_error_Some. congruence.
Qed.

Lemma nth_error_app_end {A : Type} (l : list A) (x : A) (s : list A) :
  nth_error (l ++ x :: s) (List.length l) = Some x.
Proof.
  rewrite nth_error_app2 by lia.
  rewrite Nat.sub_diag. reflexivity.
Qed.

Lemma list_update_length {A : Type} (l : list A) (n : nat) (x : A) :
  List.length (list_update l n x) = List.length l.
Proof.
  revert n; induction l as [|y l IH]; intros [|n]; simpl; auto.
Qed.

Lemma list_update_app_right {A : Type} (l s : list A) (n : nat) (x : A) :
  List.length l <= n ->
  list_update (l ++ s) n x = l ++ list_update s (n - List.length l) x.
Proof.
  revert n; induction l as [|y l IH]; intros n Hn; simpl in *.
  - rewrite Nat.sub_0_r. reflexivity.
  - destruct n as [|n]; [lia|].
    simpl. rewrite IH by lia. reflexivity.
Qed.

Lemma list_update_end {A : Type} (l : list A) (y x : A) :
  list_update (l ++ [y]) (List.length l) x = l ++ [x].
Proof.
  rewrite list_update_app_right by lia.
  rewrite Nat.sub_diag. reflexivity.
Qed.

Lemma prop_get_set_same (r : record) (key : string) (v : jsval) :
  prop_get (prop_set r key v) key = v.
Proof.
  induction r as [|[k' v'] r IH]; simpl.
  - rewrite String.eqb_refl. reflexivity.
  - destruct (String.eqb k' key) eqn:E; simpl; rewrite E; auto.
Qed.

Lemma prop_get_set_other (r : record) (key key' : string) (v : jsval) :
  key' <> key -> prop_get (prop_set r key v) key' = prop_get r key'.
Proof.
  intro Hne.
  induction r as [|[k' v'] r IH]; simpl.
  - destruct (String.eqb key key') eqn:E; [|reflexivity].
    apply String.eqb_eq in E. congruence.
  - destruct (String.eqb k' key) eqn:E; simpl.
    + apply String.eqb_eq in E. subst k'.
      destruct (String.eqb key key') eqn:E'; [|reflexivity].
      apply String.eqb_eq in E'. congruence.
    + destruct (String.eqb k' key'); auto.
Qed.

Lemma num_eq_refl (n : num) : num_isNaN n = false -> num_eq n n = true.
Proof.
  destruct n; simpl; try congruence; intros _.
  apply Qeq_bool_iff. reflexivity.
Qed.

Lemma map_st_length {S : Type} (step : record -> S -> record * S)
    (rs : list record) (s : S) :
  List.length (fst (map_st step rs s)) = List.length rs.
Proof.
  revert s; induction rs as [|r rs IH]; intro s; simpl; [reflexivity|].
  destruct (step r s) as [r1 s1].
  specialize (IH s1). destruct (map_st step rs s1) as [rs1 s2].
  simpl in *. congruence.
Qed.

(* ================================================================== *)
(** ** Running the primitives *)
(* ================================================================== *)

Lemma bind_normal {A B : Type} (m : M A) (f : A -> M B) (h h' : heap) (a : A) :
  m h = Normal a h' -> bind m f h = f a h'.
Proof. unfold bind. intros ->. reflexivity. Qed.

Lemma bind_throw {A B : Type} (m : M A) (f : A -> M B) (h h' : heap) (e : error) :
  m h = Throw e h' -> bind m f h = Throw e h'.
Proof. unfold bind. intros ->. reflexivity. Qed.

Lemma record_at_extends (h s : heap) (l : loc) (fs : record) :
  record_at h l = Some fs -> record_at (h ++ s) l = Some fs.
Proof.
  unfold record_at. intro H.
  destruct (nth_error h l) as [o|] eqn:E; [|discriminate].
  rewrite (nth_error_app_left _ _ _ _ E). exact H.
Qed.

Lemma elems_at_extends (h s : heap) (a : loc) (ls : list loc) :
  elems_at h a = Some ls -> elems_at (h ++ s) a = Some ls.
Proof.
  unfold elems_at. intro H.
  destruct (nth_error h a) as [o|] eqn:E; [|discriminate].
  rewrite (nth_error_app_left _ _ _ _ E). exact H.
Qed.

Lemma instance_at_extends (h s : heap) (l : loc) (x : class * Transformation.t) :
  instance_at h l = Some x -> instance_at (h ++ s) l = Some x.
Proof.
  unfold instance_at. intro H.
  destruct (nth_error h l) as [o|] eqn:E; [|discriminate].
  rewrite (nth_error_app_left _ _ _ _ E). exact H.
Qed.

Lemma holds_extends (h s : heap) (a : loc) (ls : list loc) (rs : list record) :
  holds h a ls rs -> holds (h ++ s) a ls rs.
Proof.
  intros [He Hr]. split.
  - apply elems_at_extends. exact He.
  - eapply Forall2_impl; [|exact Hr].
    intros l r. apply record_at_extends.
Qed.

Lemma holds_length (h : heap) (a : loc) (ls : list loc) (rs : list record) :
  holds h a ls rs -> List.length ls = List.length rs.
Proof. intros [_ Hr]. eapply Forall2_length; eauto. Qed.

Lemma load_record (h : heap) (l : loc) (fs : record) :
  record_at h l = Some fs -> load l h = Normal (ORecord fs) h.
Proof.
  unfold record_at, load.
  destruct (nth_error h l) as [[]|]; congruence.
Qed.

Lemma get_field_ok (h : heap) (l : loc) (fs : record) (key : string) :
  record_at h l = Some fs -> get_field l key h = Normal (prop_get fs key) h.
Proof.
  intro H. unfold get_field.
  rewrite (bind_normal _ _ _ _ _ (load_record _ _ _ H)). reflexivity.
Qed.

Lemma record_at_end (h : heap) (fs : record) :
  record_at (h ++ [ORecord fs]) (List.length h) = Some fs.
Proof. unfold record_at. rewrite nth_error_app_end. reflexivity. Qed.

Lemma get_field_end (h : heap) (fs : record) (key : string) :
  get_field (List.length h) key (h ++ [ORecord fs])
  = Normal (prop_get fs key) (h ++ [ORecord fs]).
Proof. apply get_field_ok, record_at_end. Qed.

Lemma set_field_end (h : heap) (fs : record) (key : string) (v : jsval) :
  set_field (List.length h) key v (h ++ [ORecord fs])
  = Normal tt (h ++ [ORecord (prop_set fs key v)]).
Proof.
  unfold set_field.
  rewrite (bind_normal _ _ _ _ _ (load_record _ _ _ (record_at_end h fs))).
  unfold store.
  replace (List.length h <? List.length (h ++ [ORecord fs])) with true.
  - rewrite list_update_end. reflexivity.
  - symmetry. apply Nat.ltb_lt. rewrite length_app. simpl. lia.
Qed.

Lemma Object_assign_empty_ok (h : heap) (l : loc) (fs : record) :
  record_at h l = Some fs ->
  Object_assign_empty l h = Normal (List.length h) (h ++ [ORecord fs]).
Proof.
  intro H. unfold Object_assign_empty.
  rewrite (bind_normal _ _ _ _ _ (load_record _ _ _ H)). reflexivity.
Qed.

Lemma array_elems_ok (h : heap) (a : loc) (ls : list loc) :
  elems_at h a = Some ls -> array_elems a h = Normal ls h.
Proof.
  unfold elems_at, array_elems, bind, load.
  destruct (nth_error h a) as [[]|]; intro E; try discriminate.
  unfold ret. congruence.
Qed.

Lemma get_instance_ok (h : heap) (l : loc) (cls : class) (t : Transformation.t) :
  instance_at h l = Some (cls, t) -> get_instance l h = Normal t h.
Proof.
  unfold instance_at, get_instance, bind, load.
  destruct (nth_error h l) as [[]|]; intro E; try discriminate.
  unfold ret. congruence.
Qed.

Lemma mapM_get_field (h : heap) (key : string) (ls : list loc) (rs : list record) :
  Forall2 (fun l r => record_at h l = Some r) ls rs ->
  mapM (fun r => get_field r key) ls h = Normal (cells_of key rs) h.
Proof.
  induction 1 as [|l r ls rs Hl _ IH]; simpl; [reflexivity|].
  rewrite (bind_normal _ _ _ _ _ (get_field_ok _ _ _ key Hl)).
  rewrite (bind_normal _ _ _ _ _ IH). reflexivity.
Qed.

Lemma column_values_ok (h : heap) (a : loc) (key : string) ls rs :
  holds h a ls rs -> column_values a key h = Normal (cells_of key rs) h.
Proof.
  intros [He Hr]. unfold column_values.
  rewrite (bind_normal _ _ _ _ _ (array_elems_ok _ _ _ He)).
  apply mapM_get_field. exact Hr.
Qed.

Lemma Forall2_firstn {A B : Type} (R : A -> B -> Prop) (n : nat) l l' :
  Forall2 R l l' -> Forall2 R (firstn n l) (firstn n l').
Proof.
  intro H. revert n.
  induction H; intros [|n]; simpl; constructor; auto.
Qed.

Lemma column_sample_ok (h : heap) (a : loc) (key : string) ls rs :
  holds h a ls rs ->
  column_sample a key h = Normal (cells_of key (firstn 5 rs)) h.
Proof.
  intros [He Hr]. unfold column_sample.
  rewrite (bind_normal _ _ _ _ _ (array_elems_ok _ _ _ He)).
  apply mapM_get_field. apply Forall2_firstn. exact Hr.
Qed.

Lemma array_length_ok (h : heap) (a : loc) (ls : list loc) :
  elems_at h a = Some ls -> array_length a h = Normal (List.length ls) h.
Proof.
  intro He. unfold array_length.
  rewrite (bind_normal _ _ _ _ _ (array_elems_ok _ _ _ He)). reflexivity.
Qed.

(* ================================================================== *)
(** ** Mapping a copying callback over the records *)
(* ================================================================== *)


Lemma mapM_st_copy {S : Type} (cb : loc -> S -> M (loc * S))
    (step : record -> S -> record * S) (h0 : heap) (ls : list loc)
    (rs : list record) :
  copies cb step ->
  Forall2 (fun l r => record_at h0 l = Some r) ls rs ->
  forall (x : heap) (s : S),
    mapM_st cb ls s (h0 ++ x)
    = Normal (seq (List.length (h0 ++ x)) (List.length ls), snd (map_st step rs s))
             ((h0 ++ x) ++ map ORecord (fst (map_st step rs s))).
Proof.
  intros Hcb Hr.
  induction Hr as [|l r ls rs Hl _ IH]; intros x s; simpl.
  - rewrite app_nil_r. reflexivity.
  - rewrite (bind_normal _ _ _ _ _
               (Hcb _ _ _ s (record_at_extends _ x _ _ Hl))).
    destruct (step r s) as [r1 s1]. simpl.
    rewrite <- app_assoc.
    rewrite (bind_normal _ _ _ _ _ (IH (x ++ [ORecord r1]) s1)).
    destruct (map_st step rs s1) as [rs1 s2]. simpl.
    unfold ret. f_equal.
    + f_equal. f_equal. rewrite !length_app. simpl. f_equal. lia.
    + rewrite <- !app_assoc. reflexivity.
Qed.

Lemma seq_records (rs : list record) :
  forall (h tl : heap),
    Forall2 (fun l r => record_at (h ++ map ORecord rs ++ tl) l = Some r)
            (seq (List.length h) (List.length rs)) rs.
Proof.
  induction rs as [|r rs IH]; intros h tl; simpl; constructor.
  - unfold record_at. rewrite nth_error_app_end. reflexivity.
  - specialize (IH (h ++ [ORecord r]) tl).
    rewrite length_app in IH. simpl in IH.
    rewrite Nat.add_1_r in IH. rewrite <- app_assoc in IH. exact IH.
Qed.


Lemma mapped_holds (h : heap) (rs' : list record) :
  holds (mapped_heap h rs') (mapped_array h rs')
        (seq (List.length h) (List.length rs')) rs'.
Proof.
  split.
  - unfold elems_at, mapped_heap, mapped_array.
    rewrite app_assoc.
    replace (List.length h + List.length rs')
      with (List.length (h ++ map ORecord rs'))
      by (rewrite length_app, length_map; reflexivity).
    rewrite nth_error_app_end. reflexivity.
  - apply seq_records.
Qed.

Lemma mapped_extends (h : heap) (rs' : list record) :
  extends h (mapped_heap h rs').
Proof. eexists. reflexivity. Qed.

Lemma Array_map_st_copy {S : Type} (cb : loc -> S -> M (loc * S))
    (step : record -> S -> record * S) (h : heap) (a : loc) ls rs (s : S) :
  copies cb step ->
  holds h a ls rs ->
  Array_map_st cb a s h
  = Normal (mapped_array h (fst (map_st step rs s)), snd (map_st step rs s))
           (mapped_heap h (fst (map_st step rs s))).
Proof.
  intros Hcb [He Hr]. unfold Array_map_st.
  rewrite (bind_normal _ _ _ _ _ (array_elems_ok _ _ _ He)).
  pose proof (mapM_st_copy cb step h ls rs Hcb Hr [] s) as Hm.
  rewrite app_nil_r in Hm.
  rewrite (bind_normal _ _ _ _ _ Hm).
  unfold alloc, bind, ret, mapped_array, mapped_heap.
  rewrite length_app, length_map, map_st_length.
  rewrite (Forall2_length Hr).
  rewrite <- app_assoc. reflexivity.
Qed.

(* ================================================================== *)
(** ** Nothing that exists is written to *)
(* ================================================================== *)


Lemma extends_refl (h : heap) : extends h h.
Proof. exists []. rewrite app_nil_r. reflexivity. Qed.

Lemma extends_trans (h0 h1 h2 : heap) :
  extends h0 h1 -> extends h1 h2 -> extends h0 h2.
Proof.
  intros [s1 ->] [s2 ->]. exists (s1 ++ s2). rewrite app_assoc. reflexivity.
Qed.

Lemma extends_nth_error (h0 h : heap) (l : loc) (o : object) :
  extends h0 h -> nth_error h0 l = Some o -> nth_error h l = Some o.
Proof. intros [s ->]. apply nth_error_app_left. Qed.

Lemma frame_ret {A : Type} (h0 : heap) (P : A -> Prop) (a : A) :
  P a -> frame h0 P (ret a).
Proof. intros Pa h Hh. simpl. auto. Qed.

Lemma frame_throw {A : Type} (h0 : heap) (P : A -> Prop) (e : error) :
  frame h0 P (throw e).
Proof. intros h Hh. exact Hh. Qed.

Lemma frame_bind {A B : Type} (h0 : heap) (P : A -> Prop) (Q : B -> Prop)
    (m : M A) (f : A -> M B) :
  frame h0 P m -> (forall a, P a -> frame h0 Q (f a)) -> frame h0 Q (bind m f).
Proof.
  intros Hm Hf h Hh. unfold bind.
  specialize (Hm h Hh).
  destruct (m h) as [a h'|e h'].
  - destruct Hm as [Hh' Pa]. exact (Hf a Pa h' Hh').
  - exact Hm.
Qed.

Lemma frame_weaken {A : Type} (h0 : heap) (P Q : A -> Prop) (m : M A) :
  frame h0 P m -> (forall a, P a -> Q a) -> frame h0 Q m.
Proof.
  intros Hm HPQ h Hh. specialize (Hm h Hh).
  destruct (m h); [destruct Hm; split; auto|exact Hm].
Qed.

Lemma frame_load (h0 : heap) (l : loc) : frame h0 (fun _ => True) (load l).
Proof.
  intros h Hh. unfold load.
  destruct (nth_error h l); simpl; auto.
Qed.

Lemma frame_alloc (h0 : heap) (o : object) : frame h0 (fresh h0) (alloc o).
Proof.
  intros h [s ->]. unfold alloc. split.
  - exists (s ++ [o]). rewrite app_assoc. reflexivity.
  - unfold fresh. rewrite length_app. lia.
Qed.

Lemma frame_store (h0 : heap) (l : loc) (o : object) :
  fresh h0 l -> frame h0 (fun _ => True) (store l o).
Proof.
  intros Hl h [s ->]. unfold store.
  destruct (l <? List.length (h0 ++ s)).
  - split; [|exact I].
    rewrite list_update_app_right by exact Hl.
    eexists. reflexivity.
  - exists s. reflexivity.
Qed.

Lemma frame_get_field (h0 : heap) (r : loc) (key : string) :
  frame h0 (fun _ => True) (get_field r key).
Proof.
  unfold get_field.
  eapply frame_bind; [apply frame_load|].
  intros [fs|ls|cls t] _; first [apply frame_ret; exact I | apply frame_throw].
Qed.

Lemma frame_set_field (h0 : heap) (r : loc) (key : string) (v : jsval) :
  fresh h0 r -> frame h0 (fun _ => True) (set_field r key v).
Proof.
  intro Hr. unfold set_field.
  eapply frame_bind; [apply frame_load|].
  intros [fs|ls|cls t] _; first [apply frame_store; exact Hr | apply frame_throw].
Qed.

Lemma frame_Object_assign_empty (h0 : heap) (r : loc) :
  frame h0 (fresh h0) (Object_assign_empty r).
Proof.
  unfold Object_assign_empty.
  eapply frame_bind; [apply frame_load|].
  intros [fs|ls|cls t] _; first [apply frame_alloc | apply frame_throw].
Qed.

Lemma frame_array_elems (h0 : heap) (a : loc) :
  frame h0 (fun _ => True) (array_elems a).
Proof.
  unfold array_elems.
  eapply frame_bind; [apply frame_load|].
  intros [fs|ls|cls t] _; first [apply frame_ret; exact I | apply frame_throw].
Qed.

Lemma frame_get_instance (h0 : heap) (l : loc) :
  frame h0 (fun _ => True) (get_instance l).
Proof.
  unfold get_instance.
  eapply frame_bind; [apply frame_load|].
  intros [fs|ls|cls t] _; first [apply frame_ret; exact I | apply frame_throw].
Qed.

Lemma frame_mapM {A B : Type} (h0 : heap) (f : A -> M B) (l : list A) :
  (forall x, frame h0 (fun _ => True) (f x)) ->
  frame h0 (fun _ => True) (mapM f l).
Proof.
  intro Hf. induction l as [|x l IH]; simpl.
  - apply frame_ret. exact I.
  - eapply frame_bind; [apply Hf|]. intros y _.
    eapply frame_bind; [apply IH|]. intros ys _.
    apply frame_ret. exact I.
Qed.

Lemma frame_mapM_st {S : Type} (h0 : heap) (cb : loc -> S -> M (loc * S))
    (l : list loc) :
  (forall x s, frame h0 (fun ys => fresh h0 (fst ys)) (cb x s)) ->
  forall s, frame h0 (fun r => Forall (fresh h0) (fst r)) (mapM_st cb l s).
Proof.
  intro Hf. induction l as [|x l IH]; intro s; simpl.
  - apply frame_ret. constructor.
  - eapply frame_bind; [apply Hf|]. intros [y s1] Hy.
    eapply frame_bind; [apply IH|]. intros [ys s2] Hys.
    apply frame_ret. constructor; assumption.
Qed.

Lemma frame_Array_map_st {S : Type} (h0 : heap) (cb : loc -> S -> M (loc * S))
    (a : loc) (s : S) :
  (forall x s, frame h0 (fun ys => fresh h0 (fst ys)) (cb x s)) ->
  frame h0 (fun _ => True) (Array_map_st cb a s).
Proof.
  intro Hf. unfold Array_map_st.
  eapply frame_bind; [apply frame_array_elems|]. intros ls _.
  eapply frame_bind; [apply frame_mapM_st; exact Hf|]. intros [ls' s'] _.
  eapply frame_bind; [apply frame_alloc|]. intros a' _.
  apply frame_ret. exact I.
Qed.

Lemma frame_Array_filter (h0 : heap) (cb : loc -> M bool) (a : loc) :
  (forall x, frame h0 (fun _ => True) (cb x)) ->
  frame h0 (fun _ => True) (Array_filter cb a).
Proof.
  intro Hf. unfold Array_filter.
  eapply frame_bind; [apply frame_array_elems|]. intros ls _.
  eapply frame_bind; [apply frame_mapM; exact Hf|]. intros keep _.
  eapply frame_weaken; [apply frame_alloc|]. auto.
Qed.

Lemma frame_column_values (h0 : heap) (a : loc) (key : string) :
  frame h0 (fun _ => True) (column_values a key).
Proof.
  unfold column_values.
  eapply frame_bind; [apply frame_array_elems|]. intros ls _.
  apply frame_mapM. intro x. apply frame_get_field.
Qed.

Lemma frame_column_sample (h0 : heap) (a : loc) (key : string) :
  frame h0 (fun _ => True) (column_sample a key).
Proof.
  unfold column_sample.
  eapply frame_bind; [apply frame_array_elems|]. intros ls _.
  apply frame_mapM. intro x. apply frame_get_field.
Qed.

Lemma frame_array_length (h0 : heap) (a : loc) :
  frame h0 (fun _ => True) (array_length a).
Proof.
  unfold array_length.
  eapply frame_bind; [apply frame_array_elems|]. intros ls _.
  apply frame_ret. exact I.
Qed.

Ltac frame_prim :=
  first
    [ apply frame_get_instance
    | apply frame_column_values
    | apply frame_column_sample
    | apply frame_array_length
    | apply frame_array_elems
    | apply frame_Object_assign_empty
    | apply frame_get_field
    | apply frame_set_field; assumption
    | apply frame_load
    | apply frame_throw ].

Ltac frame_steps :=
  repeat first
    [ apply frame_throw
    | apply frame_ret; first [exact I | assumption | simpl; assumption]
    | eapply frame_bind; [solve [frame_prim]|intros ? ?]
    | match goal with
      | |- frame _ _ (if ?b then _ else _) => destruct b
      | |- frame _ _ (let '(_, _) := ?x in _) => destruct x
      | |- frame _ _ (match ?x with _ => _ end) => destruct x
      end ].

Section Frames.
Context {host : Host}.

Lemma frame_CoerceNumeric (h0 : heap) (this records : loc) :
  frame h0 (fun _ => True) (CoerceNumeric.apply this records).
Proof.
  unfold CoerceNumeric.apply. frame_steps.
  eapply frame_bind.
  - apply frame_Array_map_st. intros x s. frame_steps.
  - intros [newRecords changed] _. frame_steps.
Qed.

Lemma frame_CoerceDatetime (h0 : heap) (this records : loc) :
  frame h0 (fun _ => True) (CoerceDatetime.apply this records).
Proof.
  unfold CoerceDatetime.apply. frame_steps.
  eapply frame_bind.
  - apply frame_Array_map_st. intros x s. frame_steps.
    eapply frame_bind with (P := fun _ => True).
    + unfold CoerceDatetime.new_Date_parse. frame_steps.
    + intros out _. frame_steps.
  - intros [newRecords changed] _. frame_steps.
Qed.

Lemma frame_FillMissing (h0 : heap) (this records : loc) :
  frame h0 (fun _ => True) (FillMissing.apply this records).
Proof.
  unfold FillMissing.apply. frame_steps.
  eapply frame_bind with (P := fun _ => True).
  - unfold FillMissing.assign_undeclared_freq. frame_steps.
  - intros fillValue _. frame_steps.
    eapply frame_bind.
    + apply frame_Array_map_st. intros x s. frame_steps.
    + intros [newRecords changed] _. frame_steps.
Qed.

Lemma frame_ClipOutliersIQR (h0 : heap) (this records : loc) :
  frame h0 (fun _ => True) (ClipOutliersIQR.apply this records).
Proof.
  unfold ClipOutliersIQR.apply. frame_steps.
  - eapply frame_bind.
    + apply frame_Array_map_st. intros x s. frame_steps.
    + intros [newRecords changed] _. frame_steps.
  - eapply frame_bind.
    + apply frame_Array_map_st. intros x s. frame_steps.
    + intros [newRecords changed] _. frame_steps.
  - eapply frame_bind with (P := fun _ => True).
    + apply frame_Array_filter. intro x. frame_steps.
    + intros kept _. frame_steps.
Qed.

(** Whatever the instance and the argument are, and whether [apply]
    returns or throws, every object that existed before the call is
    unchanged after it. *)
Lemma frame_apply (h0 : heap) (this records : loc) :
  frame h0 (fun _ => True) (apply this records).
Proof.
  unfold apply.
  eapply frame_bind; [apply frame_load|].
  intros [fs|ls|[] t] _; try apply frame_throw.
  - apply frame_CoerceNumeric.
  - apply frame_CoerceDatetime.
  - apply frame_FillMissing.
  - apply frame_ClipOutliersIQR.
Qed.

Lemma apply_extends (h : heap) (this records : loc) :
  extends h (final_heap (apply this records h)).
Proof.
  pose proof (frame_apply h this records h (extends_refl h)) as H.
  destruct (apply this records h); simpl; tauto.
Qed.
End Frames.

(* ================================================================== *)
(** ** What each [apply] returns on a list of records *)
(* ================================================================== *)

Ltac run_fields :=
  repeat first
    [ rewrite (bind_normal _ _ _ _ _ (get_field_end _ _ _))
    | rewrite (bind_normal _ _ _ _ _ (set_field_end _ _ _ _)) ].

Ltac run_copy H :=
  rewrite (bind_normal _ _ _ _ _ (Object_assign_empty_ok _ _ _ H));
  run_fields.

Section Results.
Context {host : Host}.

Lemma copies_coerce_numeric (column : string) :
  copies (fun r changed =>
      copy <- Object_assign_empty r;;
      v <- get_field copy column;;
      let num := if blank v then VNull else VNum (Number v) in
      let changed :=
        if negb (strict_eq v num) && negb (strict_eq v VNull && strict_eq num VNull)
        then changed + (if strict_eq num v then 0 else 1)
        else changed in
      _ <- set_field copy column (if isNaN num then VNull else num);;
      ret (copy, changed))
    (coerce_numeric_step column).
Proof.
  intros h r fs s H. run_copy H. reflexivity.
Qed.

Lemma CoerceNumeric_apply_ok (h : heap) (this records : loc) t ls rs :
  instance_at h this = Some (CCoerceNumeric, t) ->
  holds h records ls rs ->
  let column := Params.column (Transformation.params t) in
  let out := map_st (coerce_numeric_step column) rs 0 in
  CoerceNumeric.apply this records h
  = Normal (mapped_array h (fst out),
            [("before_sample", EList (cells_of column (firstn 5 rs)));
             ("changed_count", count_val (snd out))])
           (mapped_heap h (fst out)).
Proof.
  intros Ht Hr column out. unfold CoerceNumeric.apply.
  rewrite (bind_normal _ _ _ _ _ (get_instance_ok _ _ _ _ Ht)).
  rewrite (bind_normal _ _ _ _ _ (column_sample_ok _ _ _ _ _ Hr)).
  rewrite (bind_normal _ _ _ _ _
             (Array_map_st_copy _ _ _ _ _ _ 0 (copies_coerce_numeric _) Hr)).
  reflexivity.
Qed.

Lemma copies_fill (column : string) (fillValue : jsval) :
  copies (fun r changed =>
      copy <- Object_assign_empty r;;
      c <- get_field copy column;;
      if blank c then
        _ <- set_field copy column fillValue;;
        ret (copy, changed + 1)
      else ret (copy, changed))
    (fill_step column fillValue).
Proof.
  intros h r fs s H. run_copy H. unfold fill_step.
  destruct (blank (prop_get fs column)); run_fields; reflexivity.
Qed.

Lemma FillMissing_apply_ok (h : heap) (this records : loc) t ls rs :
  instance_at h this = Some (CFillMissing, t) ->
  holds h records ls rs ->
  let column := Params.column (Transformation.params t) in
  let strategy := default_to (Params.strategy (Transformation.params t)) (VStr "mean") in
  let fillValue :=
    fill_value strategy (Params.value (Transformation.params t))
               (cells_of column rs) in
  let out := map_st (fill_step column fillValue) rs 0 in
  loose_eq_word strategy "mode" = false ->
  FillMissing.apply this records h
  = Normal (mapped_array h (fst out),
            [("before_records", EList (cells_of column (firstn 5 rs)));
             ("changed_count", count_val (snd out));
             ("filled_value", EVal fillValue)])
           (mapped_heap h (fst out)).
Proof.
  intros Ht Hr column strategy fillValue out Hmode. unfold FillMissing.apply.
  rewrite (bind_normal _ _ _ _ _ (get_instance_ok _ _ _ _ Ht)).
  rewrite (bind_normal _ _ _ _ _ (column_values_ok _ _ _ _ _ Hr)).
  fold column. fold strategy.
  assert (Hfill :
    (if loose_eq_word strategy "mean" then
       ret (if 0 <? List.length (FillMissing.numeric_values
                     (filter (fun v => negb (blank v)) (cells_of column rs)))
            then VNum (num_div
                   (fold_left num_add (FillMissing.numeric_values
                      (filter (fun v => negb (blank v)) (cells_of column rs))) (Fin 0))
                   (num_of_nat (List.length (FillMissing.numeric_values
                      (filter (fun v => negb (blank v)) (cells_of column rs))))))
            else VNull)
     else if loose_eq_word strategy "median" then
       ret (if 0 <? List.length (Array_sort num_sub (FillMissing.numeric_values
                     (filter (fun v => negb (blank v)) (cells_of column rs))))
            then nums_at (Array_sort num_sub (FillMissing.numeric_values
                     (filter (fun v => negb (blank v)) (cells_of column rs))))
                   (Math_floor (num_div (num_of_nat (List.length
                      (Array_sort num_sub (FillMissing.numeric_values
                        (filter (fun v => negb (blank v)) (cells_of column rs))))))
                      (Fin 2)))
            else VNull)
     else if loose_eq_word strategy "mode" then FillMissing.assign_undeclared_freq
     else ret (Params.value (Transformation.params t))) h
    = Normal fillValue h).
  { unfold fillValue, fill_value. rewrite Hmode.
    destruct (loose_eq_word strategy "mean"); [reflexivity|].
    destruct (loose_eq_word strategy "median"); reflexivity. }
  rewrite (bind_normal _ _ _ _ _ Hfill).
  rewrite (bind_normal _ _ _ _ _ (column_sample_ok _ _ _ _ _ Hr)).
  rewrite (bind_normal _ _ _ _ _
             (Array_map_st_copy _ _ _ _ _ _ 0 (copies_fill _ _) Hr)).
  reflexivity.
Qed.

Lemma FillMissing_apply_mode (h : heap) (this records : loc) t ls rs :
  instance_at h this = Some (CFillMissing, t) ->
  holds h records ls rs ->
  loose_eq_word (Params.strategy (Transformation.params t)) "mode" = true ->
  FillMissing.apply this records h = Throw ReferenceError h.
Proof.
  intros Ht Hr Hmode. unfold FillMissing.apply.
  rewrite (bind_normal _ _ _ _ _ (get_instance_ok _ _ _ _ Ht)).
  rewrite (bind_normal _ _ _ _ _ (column_values_ok _ _ _ _ _ Hr)).
  destruct (Params.strategy (Transformation.params t)); try discriminate.
  simpl in Hmode. apply String.eqb_eq in Hmode. subst s. reflexivity.
Qed.
End Results.


Lemma kept_locs_combine (test : record -> bool) (ls : list loc) (rs : list record) :
  map fst (filter snd (combine ls (map test rs))) = kept_locs test ls rs.
Proof.
  unfold kept_locs. revert rs.
  induction ls as [|l ls IH]; intros [|r rs]; simpl; try reflexivity.
  destruct (test r); simpl; rewrite IH; reflexivity.
Qed.

Lemma kept_locs_records (R : loc -> record -> Prop) (test : record -> bool) ls rs :
  Forall2 R ls rs -> Forall2 R (kept_locs test ls rs) (filter test rs).
Proof.
  unfold kept_locs.
  induction 1 as [|l r ls rs Hl _ IH]; simpl; [constructor|].
  destruct (test r); simpl; [constructor|]; assumption.
Qed.

Lemma kept_locs_incl (test : record -> bool) ls rs :
  incl (kept_locs test ls rs) ls.
Proof.
  unfold kept_locs. revert rs.
  induction ls as [|l ls IH]; intros [|r rs]; simpl; try apply incl_nil_l.
  destruct (test r); simpl.
  - apply incl_cons; [left; reflexivity|].
    apply incl_tl. apply IH.
  - apply incl_tl. apply IH.
Qed.

Lemma kept_locs_all (test : record -> bool) ls rs :
  List.length ls = List.length rs ->
  forallb test rs = true -> kept_locs test ls rs = ls.
Proof.
  unfold kept_locs. revert rs.
  induction ls as [|l ls IH]; intros [|r rs]; simpl; try discriminate; auto.
  intros Hlen Hall. apply andb_prop in Hall. destruct Hall as [Hr Hall].
  rewrite Hr. simpl. rewrite IH; auto.
Qed.

Lemma mapM_test (h : heap) (cb : loc -> M bool) (test : record -> bool) ls rs :
  (forall r fs, record_at h r = Some fs -> cb r h = Normal (test fs) h) ->
  Forall2 (fun l r => record_at h l = Some r) ls rs ->
  mapM cb ls h = Normal (map test rs) h.
Proof.
  intros Hcb. induction 1 as [|l r ls rs Hl _ IH]; simpl; [reflexivity|].
  rewrite (bind_normal _ _ _ _ _ (Hcb _ _ Hl)).
  rewrite (bind_normal _ _ _ _ _ IH). reflexivity.
Qed.

Lemma Array_filter_ok (h : heap) (cb : loc -> M bool) (test : record -> bool)
    (a : loc) ls rs :
  (forall r fs, record_at h r = Some fs -> cb r h = Normal (test fs) h) ->
  holds h a ls rs ->
  Array_filter cb a h
  = Normal (List.length h) (h ++ [OArray (kept_locs test ls rs)]).
Proof.
  intros Hcb [He Hr]. unfold Array_filter.
  rewrite (bind_normal _ _ _ _ _ (array_elems_ok _ _ _ He)).
  rewrite (bind_normal _ _ _ _ _ (mapM_test _ _ _ _ _ Hcb Hr)).
  unfold alloc. rewrite kept_locs_combine. reflexivity.
Qed.

Lemma filtered_holds (h : heap) (test : record -> bool) (a : loc) ls rs :
  holds h a ls rs ->
  holds (h ++ [OArray (kept_locs test ls rs)]) (List.length h)
        (kept_locs test ls rs) (filter test rs).
Proof.
  intros [He Hr]. split.
  - unfold elems_at. rewrite nth_error_app_end. reflexivity.
  - apply kept_locs_records.
    eapply Forall2_impl; [|exact Hr].
    intros l r. apply record_at_extends.
Qed.

Section ClipResults.
Context {host : Host}.

Lemma copies_clip (column : string) (lower upper : num) :
  copies (fun r changed =>
      copy <- Object_assign_empty r;;
      c <- get_field copy column;;
      let v := Number c in
      if negb (num_isNaN v) && ClipOutliersIQR.outside v lower upper then
        _ <- set_field copy column (VNum (Math_max (Math_min v upper) lower));;
        ret (copy, changed + 1)
      else ret (copy, changed))
    (clip_step column lower upper).
Proof.
  intros h r fs s H. run_copy H. unfold clip_step.
  destruct (negb (num_isNaN (Number (prop_get fs column))) &&
            ClipOutliersIQR.outside (Number (prop_get fs column)) lower upper);
    run_fields; reflexivity.
Qed.

Lemma copies_flag (column flag : string) (lower upper : num) :
  copies (fun r changed =>
      copy <- Object_assign_empty r;;
      c <- get_field copy column;;
      let v := Number c in
      old <- get_field copy flag;;
      _ <- set_field copy flag
             (if negb (num_isNaN v) && ClipOutliersIQR.outside v lower upper
              then VBool true
              else if truthy old then old else VBool false);;
      now <- get_field copy flag;;
      ret (copy, if truthy now then changed + 1 else changed))
    (flag_step column flag lower upper).
Proof.
  intros h r fs s H. run_copy H. reflexivity.
Qed.


Lemma ClipOutliersIQR_apply_ok (h : heap) (this records : loc) t ls rs :
  instance_at h this = Some (CClipOutliersIQR, t) ->
  holds h records ls rs ->
  let p := Transformation.params t in
  let lower := fst (clip_bounds p rs) in
  let upper := snd (clip_bounds p rs) in
  ClipOutliersIQR.apply this records h =
  match clip_case_of p rs with
  | NotEnough =>
      Normal (records, [("reason", EVal (VStr "not_enough_numeric"))]) h
  | Clip =>
      let out := map_st (clip_step (Params.column p) lower upper) rs 0 in
      Normal (mapped_array h (fst out),
              clip_evidence p rs "changed_count" (snd out))
             (mapped_heap h (fst out))
  | Flag =>
      let out := map_st (flag_step (Params.column p) (clip_flag p) lower upper) rs 0 in
      Normal (mapped_array h (fst out),
              clip_evidence p rs "flagged_count" (snd out))
             (mapped_heap h (fst out))
  | Remove =>
      let kept := kept_locs (keep_test (Params.column p) lower upper) ls rs in
      Normal (List.length h,
              clip_evidence p rs "removed_count"
                (List.length ls - List.length kept))
             (h ++ [OArray kept])
  | UnknownMethod =>
      Normal (records, [("reason", EVal (VStr "unknown_method"))]) h
  end.
Proof.
  intros Ht Hr p lower upper. unfold ClipOutliersIQR.apply.
  rewrite (bind_normal _ _ _ _ _ (get_instance_ok _ _ _ _ Ht)).
  rewrite (bind_normal _ _ _ _ _ (column_values_ok _ _ _ _ _ Hr)).
  fold p. unfold clip_case_of, clip_nums.
  destruct (List.length (ClipOutliersIQR.numeric_cells
              (cells_of (Params.column p) rs)) <? 5); [reflexivity|].
  fold (clip_nums p rs). fold (clip_k p). fold (clip_bounds p rs).
  fold (clip_method p). fold (clip_flag p).
  unfold clip_evidence. subst lower upper.
  destruct (clip_bounds p rs) as [lower upper]. simpl fst. simpl snd.
  destruct (loose_eq_word (clip_method p) "clip").
  { rewrite (bind_normal _ _ _ _ _
               (Array_map_st_copy _ _ _ _ _ _ 0 (copies_clip _ _ _) Hr)).
    reflexivity. }
  destruct (loose_eq_word (clip_method p) "flag").
  { rewrite (bind_normal _ _ _ _ _
               (Array_map_st_copy _ _ _ _ _ _ 0 (copies_flag _ _ _ _) Hr)).
    reflexivity. }
  destruct (loose_eq_word (clip_method p) "remove"); [|reflexivity].
  rewrite (bind_normal _ _ _ _ _
             (Array_filter_ok _ _ (keep_test (Params.column p) lower upper)
                _ _ _
                (fun r fs H => bind_normal _ _ _ _ _ (get_field_ok _ _ _ _ H))
                Hr)).
  rewrite (bind_normal _ _ _ _ _
             (array_length_ok _ _ _ (elems_at_extends _ _ _ _ (proj1 Hr)))).
  rewrite (bind_normal _ _ _ _ _
             (array_length_ok _ _ _ (proj1 (filtered_holds _ _ _ _ _ Hr)))).
  reflexivity.
Qed.
End ClipResults.

(* ================================================================== *)
(** ** The callbacks as maps *)
(* ================================================================== *)

Lemma map_st_counting (step : record -> nat -> record * nat)
    (f : record -> record) (p : record -> bool) :
  (forall r s, step r s = (f r, if p r then s + 1 else s)) ->
  forall rs s, map_st step rs s = (map f rs, s + count p rs).
Proof.
  intros Hstep rs. unfold count.
  induction rs as [|r rs IH]; intro s; simpl.
  - rewrite Nat.add_0_r. reflexivity.
  - rewrite Hstep. rewrite IH.
    destruct (p r); simpl; f_equal; lia.
Qed.

Lemma count_none {A : Type} (p : A -> bool) (l : list A) :
  Forall (fun x => p x = false) l -> count p l = 0.
Proof.
  unfold count. induction 1 as [|x l Hx _ IH]; simpl; [reflexivity|].
  rewrite Hx. exact IH.
Qed.

Lemma count_le {A : Type} (p : A -> bool) (l : list A) :
  count p l <= List.length l.
Proof. unfold count. apply filter_length_le. Qed.

Section Maps.
Context {host : Host}.


Lemma coerce_numeric_map (column : string) (rs : list record) (s : nat) :
  map_st (coerce_numeric_step column) rs s
  = (map (fun r => prop_set r column (coerced (prop_get r column))) rs,
     s + count (fun r => coerce_counts (prop_get r column)) rs).
Proof.
  apply map_st_counting. intros r s0.
  unfold coerce_numeric_step, coerced, coerce_counts. f_equal.
  destruct (negb (strict_eq (prop_get r column)
              (if blank (prop_get r column) then VNull
               else VNum (Number (prop_get r column)))) &&
            negb (strict_eq (prop_get r column) VNull &&
                  strict_eq (if blank (prop_get r column) then VNull
                             else VNum (Number (prop_get r column))) VNull));
    simpl; [|reflexivity].
  destruct (strict_eq _ (prop_get r column)); simpl; lia.
Qed.

Lemma fill_map (column : string) (fillValue : jsval) (rs : list record) (s : nat) :
  map_st (fill_step column fillValue) rs s
  = (map (fun r => if blank (prop_get r column)
                   then prop_set r column fillValue else r) rs,
     s + count (fun r => blank (prop_get r column)) rs).
Proof.
  apply map_st_counting. intros r s0. unfold fill_step.
  destruct (blank (prop_get r column)); reflexivity.
Qed.

(** A coerced cell is null or a number that is not NaN. *)
Lemma coerced_clean (v : jsval) :
  coerced v = VNull \/
  exists n, coerced v = VNum n /\ num_isNaN n = false.
Proof.
  unfold coerced. destruct (blank v); [left; reflexivity|].
  unfold isNaN. simpl.
  destruct (num_isNaN (Number v)) eqn:E; [left; reflexivity|].
  right. eexists. split; [reflexivity|exact E].
Qed.

(** A clean cell is not counted. *)
Lemma clean_not_counted (v : jsval) :
  (v = VNull \/ exists n, v = VNum n /\ num_isNaN n = false) ->
  coerce_counts v = false.
Proof.
  intros [->|[n [-> Hn]]]; [reflexivity|].
  unfold coerce_counts. simpl.
  rewrite (num_eq_refl n Hn). reflexivity.
Qed.

Lemma apply_dispatch (h : heap) (this records : loc) cls t :
  instance_at h this = Some (cls, t) ->
  apply this records h =
  match cls with
  | CTransformation => Throw (Error "apply() not implemented") h
  | CCoerceNumeric => CoerceNumeric.apply this records h
  | CCoerceDatetime => CoerceDatetime.apply this records h
  | CFillMissing => FillMissing.apply this records h
  | CClipOutliersIQR => ClipOutliersIQR.apply this records h
  end.
Proof.
  unfold instance_at, apply, bind, load.
  destruct (nth_error h this) as [[| |c t0]|]; try discriminate.
  intro E. injection E as -> ->. destruct cls; reflexivity.
Qed.
End Maps.

(* ================================================================== *)
(** ** CoerceNumeric is idempotent in its evidence *)
(* ================================================================== *)

(** C7.  Applying CoerceNumeric to a list of records returns a list whose
    column holds only null and numbers that are not NaN, and applying the
    same instance again to that list reports [changed_count = 0]. *)
Theorem CoerceNumeric_twice_changes_nothing {host : Host}
    (h : heap) (this records : loc) (t : Transformation.t)
    (ls : list loc) (rs : list record) :
  instance_at h this = Some (CCoerceNumeric, t) ->
  holds h records ls rs ->
  exists out1 ev1 h1 ls1 rs1 out2 ev2 h2,
    apply this records h = Normal (out1, ev1) h1 /\
    holds h1 out1 ls1 rs1 /\
    Forall (fun r =>
              let v := prop_get r (Params.column (Transformation.params t)) in
              v = VNull \/ exists n, v = VNum n /\ num_isNaN n = false) rs1 /\
    apply this out1 h1 = Normal (out2, ev2) h2 /\
    ev_get ev2 "changed_count" = Some (EVal (VNum (Fin 0))).
Proof.
  intros Ht Hr.
  set (column := Params.column (Transformation.params t)).
  set (rs1 := map (fun r => prop_set r column (coerced (prop_get r column))) rs).
  pose proof (CoerceNumeric_apply_ok h this records t ls rs Ht Hr) as H1.
  cbv zeta in H1. fold column in H1.
  rewrite coerce_numeric_map in H1. simpl fst in H1. simpl snd in H1.
  fold rs1 in H1.
  assert (Hclean : Forall (fun r => prop_get r column = VNull \/
                     exists n, prop_get r column = VNum n /\ num_isNaN n = false) rs1).
  { unfold rs1. apply Forall_forall. intros r Hin.
    apply in_map_iff in Hin. destruct Hin as [r0 [<- _]].
    rewrite prop_get_set_same. apply coerced_clean. }
  assert (Ht1 : instance_at (mapped_heap h rs1) this = Some (CCoerceNumeric, t)).
  { apply instance_at_extends. exact Ht. }
  pose proof (CoerceNumeric_apply_ok _ this _ t _ rs1 Ht1 (mapped_holds h rs1)) as H2.
  cbv zeta in H2. fold column in H2.
  rewrite coerce_numeric_map in H2. simpl fst in H2. simpl snd in H2.
  rewrite count_none in H2.
  2:{ eapply Forall_impl; [|exact Hclean].
      intros r Hc. apply clean_not_counted. exact Hc. }
  do 8 eexists. split; [|split; [|split; [|split]]].
  - rewrite (apply_dispatch _ _ _ _ _ Ht). exact H1.
  - apply mapped_holds.
  - exact Hclean.
  - rewrite (apply_dispatch _ _ _ _ _ Ht1). exact H2.
  - reflexivity.
Qed.

Lemma CoerceNumeric_twice_witness :
  let cells := ExampleHost.mixed_cells in
  let h := ExampleHost.heap_with
             (@CoerceNumeric.new ExampleHost.host 0 ExampleHost.params_x) cells in
  exists out1 ev1 h1 ls1 rs1 out2 ev2 h2,
    @apply ExampleHost.host (ExampleHost.instance_of cells)
           (ExampleHost.array_of cells) h = Normal (out1, ev1) h1 /\
    holds h1 out1 ls1 rs1 /\
    Forall (fun r =>
              let v := prop_get r "x" in
              v = VNull \/ exists n, v = VNum n /\ num_isNaN n = false) rs1 /\
    @apply ExampleHost.host (ExampleHost.instance_of cells) out1 h1
    = Normal (out2, ev2) h2 /\
    ev_get ev2 "changed_count" = Some (EVal (VNum (Fin 0))).
Proof.
  intros cells h.
  apply (@CoerceNumeric_twice_changes_nothing ExampleHost.host h
           (ExampleHost.instance_of cells) (ExampleHost.array_of cells)
           (@Transformation.new ExampleHost.host 0 "coerce_numeric"
              ExampleHost.params_x false)
           (ExampleHost.locs_of cells) (ExampleHost.records_of cells)).
  - reflexivity.
  - split; [reflexivity|repeat constructor].
Defined.

(* ================================================================== *)
(** ** The destructive flag of ClipOutliersIQR *)
(* ================================================================== *)

Lemma heap_after_extends {host : Host} (this : loc) (calls : list loc) (h : heap) :
  extends h (heap_after this calls h).
Proof.
  unfold heap_after. revert h.
  induction calls as [|r calls IH]; intro h; simpl.
  - apply extends_refl.
  - eapply extends_trans; [apply apply_extends|apply IH].
Qed.

Lemma strict_eq_word (v : jsval) (w : string) :
  strict_eq v (VStr w) = true <-> v = VStr w.
Proof.
  destruct v; simpl; split; intro H; try discriminate; try reflexivity.
  - apply String.eqb_eq in H. congruence.
  - injection H as ->. apply String.eqb_refl.
Qed.

(** C8.  The ClipOutliersIQR instance constructed from [params] has
    [destructive = true] exactly when [params.method === "remove"], and it
    is the same instance, with the same flag, after any sequence of calls
    of its [apply]. *)
Theorem ClipOutliersIQR_destructive_iff_remove {host : Host}
    (tick : nat) (params : Params.t) (h : heap) (calls : list loc) :
  exists this h1 t,
    ClipOutliersIQR.new tick params h = Normal this h1 /\
    instance_at h1 this = Some (CClipOutliersIQR, t) /\
    Transformation.params t = params /\
    (Transformation.destructive t = true <-> Params.method params = VStr "remove") /\
    instance_at (heap_after this calls h1) this = Some (CClipOutliersIQR, t).
Proof.
  exists (List.length h). eexists. eexists.
  split; [reflexivity|].
  assert (Hi : instance_at
                 (h ++ [OInstance CClipOutliersIQR
                          (Transformation.new tick "clip_outliers_iqr" params
                             (strict_eq (Params.method params) (VStr "remove")))])
                 (List.length h)
               = Some (CClipOutliersIQR,
                       Transformation.new tick "clip_outliers_iqr" params
                         (strict_eq (Params.method params) (VStr "remove")))).
  { unfold instance_at. rewrite nth_error_app_end. reflexivity. }
  split; [exact Hi|]. split; [reflexivity|]. split.
  - simpl. apply strict_eq_word.
  - destruct (heap_after_extends (List.length h) calls
                (h ++ [OInstance CClipOutliersIQR
                         (Transformation.new tick "clip_outliers_iqr" params
                            (strict_eq (Params.method params) (VStr "remove")))]))
      as [s ->].
    apply instance_at_extends. exact Hi.
Qed.

(* ================================================================== *)
(** ** FillMissing *)
(* ================================================================== *)

Lemma blank_iff (v : jsval) :
  blank v = true <-> v = VNull \/ v = VUndefined \/ v = VStr "".
Proof.
  unfold blank. split.
  - destruct v as [| |b|n|s]; simpl; try discriminate; auto.
    destruct s; simpl; [auto|discriminate].
  - intros [->|[->| ->]]; reflexivity.
Qed.

Lemma same_except_refl (key : string) (r : record) : same_except key r r.
Proof. intros k _. reflexivity. Qed.

Lemma same_except_set (key : string) (r : record) (v : jsval) :
  same_except key r (prop_set r key v).
Proof. intros k Hk. apply prop_get_set_other. exact Hk. Qed.

Lemma Forall2_map_right {A B : Type} (R : A -> B -> Prop) (f : A -> B) (l : list A) :
  (forall x, R x (f x)) -> Forall2 R l (map f l).
Proof. intro H. induction l; simpl; constructor; auto. Qed.

Lemma Forall2_map_st {S : Type} (R : record -> record -> Prop)
    (step : record -> S -> record * S) :
  (forall r s, R r (fst (step r s))) ->
  forall rs s, Forall2 R rs (fst (map_st step rs s)).
Proof.
  intros H rs. induction rs as [|r rs IH]; intro s; simpl; [constructor|].
  pose proof (H r s) as Hr.
  destruct (step r s) as [r1 s1]. specialize (IH s1).
  destruct (map_st step rs s1) as [rs1 s2]. simpl in *.
  constructor; assumption.
Qed.

Lemma seq_fresh (h : heap) (n : nat) : Forall (fresh h) (seq (List.length h) n).
Proof.
  apply Forall_forall. intros l Hl. apply in_seq in Hl. unfold fresh. lia.
Qed.

Lemma mapped_fresh_copies (h : heap) (rs rs' : list record) (key : string) :
  Forall2 (same_except key) rs rs' ->
  fresh_copies h (mapped_heap h rs') (mapped_array h rs') rs key.
Proof.
  intro H. split.
  - unfold fresh, mapped_array. lia.
  - exists (seq (List.length h) (List.length rs')), rs'.
    split; [apply mapped_holds|]. split; [apply seq_fresh|exact H].
Qed.

(** C3, as the code has it.  For a strategy other than "mode",
    [FillMissing.apply] returns a list of copies in which every cell of the
    column that is null, undefined or the empty string holds the fill value
    of the evidence, every other record is as it was, and [changed_count]
    is the number of these cells. *)
Theorem FillMissing_fills_blank_cells {host : Host}
    (h : heap) (this records : loc) (t : Transformation.t)
    (ls : list loc) (rs : list record) :
  instance_at h this = Some (CFillMissing, t) ->
  holds h records ls rs ->
  let column := Params.column (Transformation.params t) in
  let strategy := default_to (Params.strategy (Transformation.params t)) (VStr "mean") in
  let fillValue := fill_value strategy (Params.value (Transformation.params t))
                     (cells_of column rs) in
  loose_eq_word strategy "mode" = false ->
  exists out ev h' ls' rs',
    apply this records h = Normal (out, ev) h' /\
    holds h' out ls' rs' /\
    ev_get ev "filled_value" = Some (EVal fillValue) /\
    Forall2 (fun r r' =>
               let v := prop_get r column in
               if blank v
               then prop_get r' column = fillValue /\ same_except column r r'
               else r' = r) rs rs' /\
    ev_get ev "changed_count"
    = Some (count_val (count (fun r => blank (prop_get r column)) rs)) /\
    (forall v, blank v = true <-> v = VNull \/ v = VUndefined \/ v = VStr "").
Proof.
  intros Ht Hr column strategy fillValue Hmode.
  pose proof (FillMissing_apply_ok h this records t ls rs Ht Hr Hmode) as H1.
  fold column in H1. fold strategy in H1. fold fillValue in H1.
  rewrite fill_map in H1. simpl fst in H1. simpl snd in H1.
  do 5 eexists. split; [|split; [|split; [|split; [|split]]]].
  - rewrite (apply_dispatch _ _ _ _ _ Ht). exact H1.
  - apply mapped_holds.
  - reflexivity.
  - apply Forall2_map_right. intro r. cbv zeta.
    destruct (blank (prop_get r column)); [|reflexivity].
    split; [apply prop_get_set_same|apply same_except_set].
  - reflexivity.
  - apply blank_iff.
Qed.

Lemma FillMissing_fills_blank_cells_witness :
  let cells := ExampleHost.gap_cells in
  let p := ExampleHost.params_strategy (VStr "mean") VUndefined in
  let h := ExampleHost.heap_with (@FillMissing.new ExampleHost.host 0 p) cells in
  let fillValue := @fill_value ExampleHost.host (VStr "mean") VUndefined cells in
  num_eq (@Number ExampleHost.host fillValue) (Fin (7#3)) = true /\
  exists out ev h' ls' rs',
    @apply ExampleHost.host (ExampleHost.instance_of cells)
           (ExampleHost.array_of cells) h = Normal (out, ev) h' /\
    holds h' out ls' rs' /\
    ev_get ev "filled_value" = Some (EVal fillValue) /\
    Forall2 (fun r r' =>
               let v := prop_get r "x" in
               if blank v
               then prop_get r' "x" = fillValue /\ same_except "x" r r'
               else r' = r) (ExampleHost.records_of cells) rs' /\
    ev_get ev "changed_count" = Some (count_val 1) /\
    (forall v, blank v = true <-> v = VNull \/ v = VUndefined \/ v = VStr "").
Proof.
  intros cells p h fillValue.
  split; [reflexivity|].
  apply (@FillMissing_fills_blank_cells ExampleHost.host h
           (ExampleHost.instance_of cells) (ExampleHost.array_of cells)
           (@Transformation.new ExampleHost.host 0 "fill_missing" p false)
           (ExampleHost.locs_of cells) (ExampleHost.records_of cells)).
  - reflexivity.
  - split; [reflexivity|repeat constructor].
  - reflexivity.
Defined.

(** Evaluates the closed call of [apply] in the goal. *)
Ltac eval_apply :=
  match goal with
  | |- context [@apply ?host ?this ?records ?h] =>
      let c := eval vm_compute in (@apply host this records h) in
      change (@apply host this records h) with c
  end.

(** C3, as the claim has it, fails: in the column ["NA", null] the cell
    "NA" is missing for the detector, and [FillMissing] with the constant 0
    leaves it as it is and counts one changed cell, not two. *)
Lemma FillMissing_keeps_NA :
  let cells := ExampleHost.na_cells in
  let p := ExampleHost.params_strategy (VStr "constant") (ExampleHost.int 0) in
  let h := ExampleHost.heap_with (@FillMissing.new ExampleHost.host 0 p) cells in
  @Analyzer.isMissing ExampleHost.host (VStr "NA") = true /\
  @AnalyzerDraft.isMissing ExampleHost.host (VStr "NA") = true /\
  count (@Analyzer.isMissing ExampleHost.host) cells = 2 /\
  exists out ev h' ls',
    @apply ExampleHost.host (ExampleHost.instance_of cells)
           (ExampleHost.array_of cells) h = Normal (out, ev) h' /\
    holds h' out ls' [[("x", VStr "NA")]; [("x", ExampleHost.int 0)]] /\
    ev_get ev "filled_value" = Some (EVal (ExampleHost.int 0)) /\
    ev_get ev "changed_count" = Some (count_val 1).
Proof.
  intros cells p h.
  split; [reflexivity|]. split; [reflexivity|]. split; [reflexivity|].
  eval_apply.
  do 4 eexists. split; [reflexivity|].
  split; [|split; reflexivity].
  split; [reflexivity|repeat constructor].
Qed.

(** C4: the code at strategy "max".  [apply] returns, fills the null cell
    with the constant as the "constant" strategy does, and its evidence has
    no [reason] field. *)
Lemma FillMissing_unknown_strategy_not_reported :
  let cells := ExampleHost.null_cells in
  let p := ExampleHost.params_strategy (VStr "max") (ExampleHost.int 0) in
  let h := ExampleHost.heap_with (@FillMissing.new ExampleHost.host 0 p) cells in
  exists out ev h' ls',
    @apply ExampleHost.host (ExampleHost.instance_of cells)
           (ExampleHost.array_of cells) h = Normal (out, ev) h' /\
    holds h' out ls' [[("x", ExampleHost.int 0)]; [("x", ExampleHost.int 3)]] /\
    ev_get ev "reason" = None /\
    ev_get ev "filled_value" = Some (EVal (ExampleHost.int 0)) /\
    ev_get ev "changed_count" = Some (count_val 1).
Proof.
  intros cells p h.
  eval_apply.
  do 4 eexists. split; [reflexivity|].
  split; [|split; [|split]; reflexivity].
  split; [reflexivity|repeat constructor].
Qed.

(* ================================================================== *)
(** ** What [apply] does to the records it is given *)
(* ================================================================== *)

Section Copies.
Context {host : Host}.

Lemma coerce_numeric_same_except (column : string) (rs : list record) (s : nat) :
  Forall2 (same_except column) rs (fst (map_st (coerce_numeric_step column) rs s)).
Proof.
  apply Forall2_map_st. intros r s0. apply same_except_set.
Qed.

Lemma fill_same_except (column : string) (v : jsval) (rs : list record) (s : nat) :
  Forall2 (same_except column) rs (fst (map_st (fill_step column v) rs s)).
Proof.
  apply Forall2_map_st. intros r s0. unfold fill_step.
  destruct (blank (prop_get r column)); simpl;
    [apply same_except_set|apply same_except_refl].
Qed.

Lemma clip_same_except (column : string) (lower upper : num) (rs : list record)
    (s : nat) :
  Forall2 (same_except column) rs
          (fst (map_st (clip_step column lower upper) rs s)).
Proof.
  apply Forall2_map_st. intros r s0. unfold clip_step.
  destruct (negb (num_isNaN (Number (prop_get r column))) &&
            ClipOutliersIQR.outside (Number (prop_get r column)) lower upper);
    simpl; [apply same_except_set|apply same_except_refl].
Qed.

Lemma flag_same_except (column flag : string) (lower upper : num)
    (rs : list record) (s : nat) :
  Forall2 (same_except flag) rs
          (fst (map_st (flag_step column flag lower upper) rs s)).
Proof.
  apply Forall2_map_st. intros r s0. apply same_except_set.
Qed.
End Copies.

Lemma apply_returns_copies {host : Host}
    (h : heap) (this records : loc) (cls : class) (t : Transformation.t)
    (ls : list loc) (rs : list record) :
  instance_at h this = Some (cls, t) ->
  holds h records ls rs ->
  returns_copies cls (Transformation.params t) h records ls rs
                 (apply this records h).
Proof.
  intros Ht Hr. set (p := Transformation.params t).
  rewrite (apply_dispatch _ _ _ _ _ Ht).
  destruct cls; try exact I; unfold returns_copies.
  - rewrite (CoerceNumeric_apply_ok h this records t ls rs Ht Hr).
    do 3 eexists. split; [reflexivity|].
    apply mapped_fresh_copies. apply coerce_numeric_same_except.
  - intro Hmode.
    rewrite (FillMissing_apply_ok h this records t ls rs Ht Hr Hmode).
    do 3 eexists. split; [reflexivity|].
    apply mapped_fresh_copies. apply fill_same_except.
  - rewrite (ClipOutliersIQR_apply_ok h this records t ls rs Ht Hr).
    fold p. destruct (clip_case_of p rs).
    + do 3 eexists. split; [reflexivity|]. split; reflexivity.
    + do 3 eexists. split; [reflexivity|].
      apply mapped_fresh_copies. apply clip_same_except.
    + do 3 eexists. split; [reflexivity|].
      apply mapped_fresh_copies. apply flag_same_except.
    + do 3 eexists. split; [reflexivity|]. cbv zeta.
      split; [unfold fresh; lia|]. split.
      * unfold elems_at. rewrite nth_error_app_end. reflexivity.
      * apply kept_locs_incl.
    + do 3 eexists. split; [reflexivity|]. split; reflexivity.
Qed.

(** C6, as the code has it.  Whatever [apply] does, every object that
    existed before the call is unchanged after it.  CoerceNumeric,
    FillMissing (for a strategy other than "mode") and ClipOutliersIQR
    return; CoerceNumeric, FillMissing and the "clip" and "flag" methods
    return a new array of new records, each the copy of the record at its
    place up to the one property the transformation writes; the "remove"
    method returns a new array holding the records of the input that pass
    its test; with fewer than 5 numeric values, or with another method,
    ClipOutliersIQR returns the array it was given and allocates nothing. *)
Theorem apply_leaves_the_input_alone {host : Host}
    (h : heap) (this records : loc) (cls : class) (t : Transformation.t)
    (ls : list loc) (rs : list record) :
  instance_at h this = Some (cls, t) ->
  holds h records ls rs ->
  let p := Transformation.params t in
  let c := apply this records h in
  extends h (final_heap c) /\
  match cls with
  | CCoerceNumeric =>
      exists out ev h',
        c = Normal (out, ev) h' /\ fresh_copies h h' out rs (Params.column p)
  | CFillMissing =>
      loose_eq_word (default_to (Params.strategy p) (VStr "mean")) "mode" = false ->
      exists out ev h',
        c = Normal (out, ev) h' /\ fresh_copies h h' out rs (Params.column p)
  | CClipOutliersIQR =>
      exists out ev h',
        c = Normal (out, ev) h' /\
        match clip_case_of p rs with
        | NotEnough | UnknownMethod => out = records /\ h' = h
        | Clip => fresh_copies h h' out rs (Params.column p)
        | Flag => fresh_copies h h' out rs (clip_flag p)
        | Remove =>
            let kept := kept_locs (keep_test (Params.column p)
                                     (fst (clip_bounds p rs))
                                     (snd (clip_bounds p rs))) ls rs in
            fresh h out /\ elems_at h' out = Some kept /\ incl kept ls
        end
  | CCoerceDatetime | CTransformation => True
  end.
Proof.
  intros Ht Hr p c. split; [apply apply_extends|].
  exact (apply_returns_copies h this records cls t ls rs Ht Hr).
Qed.

Lemma apply_leaves_the_input_alone_witness :
  let cells := ExampleHost.column_100 in
  let p := ExampleHost.params_method (VStr "flag") in
  let h := ExampleHost.heap_with (@ClipOutliersIQR.new ExampleHost.host 0 p) cells in
  let c := @apply ExampleHost.host (ExampleHost.instance_of cells)
                  (ExampleHost.array_of cells) h in
  @clip_case_of ExampleHost.host p (ExampleHost.records_of cells) = Flag /\
  extends h (final_heap c) /\
  exists out ev h',
    c = Normal (out, ev) h' /\
    fresh_copies h h' out (ExampleHost.records_of cells) "_outliers".
Proof.
  intros cells p h c.
  split; [reflexivity|].
  apply (@apply_leaves_the_input_alone ExampleHost.host h
           (ExampleHost.instance_of cells) (ExampleHost.array_of cells)
           CClipOutliersIQR
           (@Transformation.new ExampleHost.host 0 "clip_outliers_iqr" p false)
           (ExampleHost.locs_of cells) (ExampleHost.records_of cells)).
  - reflexivity.
  - split; [reflexivity|repeat constructor].
Defined.

(** C6, as the claim has it, fails.  On the one-record column [1] the
    "clip" method returns the array it was given, in an unchanged heap: not
    a new sequence.  On the column [1, 2, 3, 4, 5] the "remove" method
    returns an array with all the elements of the input: not a strict
    subset. *)
Lemma ClipOutliersIQR_returns_its_input :
  (let cells := [ExampleHost.int 1] in
   let p := ExampleHost.params_method (VStr "clip") in
   let h := ExampleHost.heap_with (@ClipOutliersIQR.new ExampleHost.host 0 p) cells in
   exists ev,
     @apply ExampleHost.host (ExampleHost.instance_of cells)
            (ExampleHost.array_of cells) h
     = Normal (ExampleHost.array_of cells, ev) h) /\
  (let cells := ExampleHost.column_5 in
   let p := ExampleHost.params_method (VStr "remove") in
   let h := ExampleHost.heap_with (@ClipOutliersIQR.new ExampleHost.host 0 p) cells in
   exists out ev h',
     @apply ExampleHost.host (ExampleHost.instance_of cells)
            (ExampleHost.array_of cells) h = Normal (out, ev) h' /\
     elems_at h' out = elems_at h (ExampleHost.array_of cells) /\
     ev_get ev "removed_count" = Some (count_val 0)).
Proof.
  split.
  - intros cells p h. eval_apply. eexists. reflexivity.
  - intros cells p h. eval_apply. do 3 eexists.
    split; [reflexivity|]. split; reflexivity.
Qed.

(* ================================================================== *)
(** ** CoerceDatetime *)
(* ================================================================== *)

(** As soon as the first cell is empty or reads as a date, [apply]
    throws, after it has copied the first record. *)
Lemma CoerceDatetime_apply_throws {host : Host}
    (h : heap) (this records : loc) (t : Transformation.t)
    (l : loc) (ls : list loc) (r : record) (rs : list record) :
  instance_at h this = Some (CCoerceDatetime, t) ->
  holds h records (l :: ls) (r :: rs) ->
  let v := prop_get r (Params.column (Transformation.params t)) in
  isNaN (if blank v then VNull else VNum (Date_parse (to_String v))) = false ->
  apply this records h = Throw TypeError (h ++ [ORecord r]).
Proof.
  intros Ht Hr v Hv.
  rewrite (apply_dispatch _ _ _ _ _ Ht). unfold CoerceDatetime.apply.
  rewrite (bind_normal _ _ _ _ _ (get_instance_ok _ _ _ _ Ht)).
  rewrite (bind_normal _ _ _ _ _ (column_sample_ok _ _ _ _ _ Hr)).
  destruct Hr as [He Hr]. inversion Hr as [|? ? ? ? Hl Hrest]; subst.
  apply bind_throw. unfold Array_map_st.
  rewrite (bind_normal _ _ _ _ _ (array_elems_ok _ _ _ He)).
  apply bind_throw. simpl mapM_st. apply bind_throw.
  run_copy Hl. fold v. rewrite Hv. reflexivity.
Qed.

(** C10: the code at the column [null].  [CoerceDatetime.apply] throws
    a TypeError and returns no list of records. *)
Lemma CoerceDatetime_throws_on_null :
  let cells := [VNull] in
  let h := ExampleHost.heap_with
             (@CoerceDatetime.new ExampleHost.host 0 ExampleHost.params_x) cells in
  exists h',
    @apply ExampleHost.host (ExampleHost.instance_of cells)
           (ExampleHost.array_of cells) h = Throw TypeError h'.
Proof.
  intros cells h. eval_apply. eexists. reflexivity.
Qed.

(* ================================================================== *)
(** ** The scores of the issues *)
(* ================================================================== *)

Lemma Qsign_of_nat_pos (b : nat) :
  0 < b -> Qsign (inject_Z (Z.of_nat b)) = Gt.
Proof.
  intro Hb. unfold Qsign. simpl. apply Z.compare_gt_iff. lia.
Qed.

Lemma ratio_unit (a b : nat) :
  a <= b -> 0 < b ->
  unit_score (num_div (num_of_nat a) (num_of_nat b)) = true.
Proof.
  intros Hab Hb. unfold num_div, num_of_nat.
  rewrite (Qsign_of_nat_pos b Hb).
  unfold unit_score. simpl.
  assert (Hpos : (0 < inject_Z (Z.of_nat b))%Q).
  { rewrite <- (Zlt_Qlt 0). lia. }
  apply andb_true_intro. split; apply Qle_bool_iff.
  - apply Qle_shift_div_l; [exact Hpos|].
    rewrite Qmult_0_l. rewrite <- (Zle_Qle 0). lia.
  - apply Qle_shift_div_r; [exact Hpos|].
    rewrite Qmult_1_l. rewrite <- Zle_Qle. lia.
Qed.

Lemma ratio_zero_zero : num_div (num_of_nat 0) (num_of_nat 0) = NaN.
Proof. reflexivity. Qed.

Lemma num_ge_NaN (x : num) : num_ge NaN x = false.
Proof. destruct x; reflexivity. Qed.

(** A ratio of counts that passes a threshold is a score. *)
Lemma ratio_ge_unit (a b : nat) (threshold : num) :
  a <= b ->
  num_ge (num_div (num_of_nat a) (num_of_nat b)) threshold = true ->
  unit_score (num_div (num_of_nat a) (num_of_nat b)) = true.
Proof.
  intros Hab Hge. destruct b as [|b].
  - assert (a = 0) by lia. subst a.
    rewrite ratio_zero_zero in Hge. rewrite num_ge_NaN in Hge. discriminate.
  - apply ratio_unit; lia.
Qed.

Lemma indexed_length {A : Type} (l : list A) :
  List.length (indexed l) = List.length l.
Proof.
  unfold indexed. rewrite length_combine, length_seq. lia.
Qed.

Lemma distinct_fold_length (l seen : list string) :
  List.length
    (fold_left (fun seen x => if includes seen x then seen else seen ++ [x]) l seen)
  <= List.length seen + List.length l.
Proof.
  revert seen. induction l as [|x l IH]; intro seen; simpl; [lia|].
  destruct (includes seen x).
  - specialize (IH seen). lia.
  - specialize (IH (seen ++ [x])). rewrite length_app in IH. simpl in IH. lia.
Qed.

Lemma distinct_length (l : list string) :
  List.length (distinct l) <= List.length l.
Proof. unfold distinct. apply (distinct_fold_length l []). Qed.

Section Scores.
Context {host : Host}.


Lemma push_inv (d : DataFrame.t) (this : Analyzer.t)
    (scope : string) (column : option string) (rows : list nat)
    (issue_type severity : string) (score : num) (ev : evidence)
    (suggestedFix : option string) :
  loop_inv d this ->
  unit_score score = true ->
  loop_inv d (Analyzer.push this
                (issue scope column rows issue_type severity score ev suggestedFix)).
Proof.
  intros [Hok Hdf] Hs. split; [|exact Hdf].
  unfold scores_ok, Analyzer.push. simpl.
  apply Forall_app. split; [exact Hok|].
  constructor; [exact Hs|constructor].
Qed.

Lemma fold_inv {A : Type} (d : DataFrame.t)
    (f : Analyzer.t -> A -> Analyzer.t) (l : list A) :
  (forall this x, loop_inv d this -> loop_inv d (f this x)) ->
  forall this, loop_inv d this -> loop_inv d (fold_left f l this).
Proof.
  intro Hf. induction l as [|x l IH]; intros this H; simpl; [exact H|].
  apply IH. apply Hf. exact H.
Qed.

Lemma series_length (d : DataFrame.t) (col : string) :
  List.length (Analyzer._seriesValues (DataFrame.series d col))
  <= DataFrame.nrows d.
Proof.
  unfold DataFrame.series, DataFrame.nrows.
  destruct (index_of col (DataFrame.columns d)); simpl.
  - rewrite length_map. lia.
  - lia.
Qed.

Lemma missing_fold_count (l : list (nat * jsval)) (n : nat) (idx : list nat) :
  fst (fold_left (fun '(missingCount, missingRowIdx) '(i, v) =>
         if Analyzer.isMissing v then
           (missingCount + 1,
            if List.length missingRowIdx <? 5 then missingRowIdx ++ [i]
            else missingRowIdx)
         else (missingCount, missingRowIdx)) l (n, idx))
  <= n + List.length l.
Proof.
  revert n idx. induction l as [|[i v] l IH]; intros n idx; simpl; [lia|].
  destruct (Analyzer.isMissing v).
  - etransitivity; [apply IH|]. lia.
  - etransitivity; [apply IH|]. lia.
Qed.

Lemma detectMissing_inv (d : DataFrame.t) (this : Analyzer.t) :
  loop_inv d this -> loop_inv d (Analyzer.detectMissing this).
Proof.
  intro H. unfold Analyzer.detectMissing.
  apply fold_inv.
  - intros this0 [i rowValues] H0.
    destruct (num_ge _ CONFIG.row_missing_threshold) eqn:E; [|exact H0].
    apply push_inv; [exact H0|].
    eapply ratio_ge_unit; [apply filter_length_le|exact E].
  - apply fold_inv; [|exact H].
    intros this0 col H0.
    set (s := Analyzer._seriesValues (DataFrame.series (Analyzer.df this0) col)).
    pose proof (missing_fold_count (indexed s) 0 []) as Hc.
    rewrite indexed_length in Hc.
    destruct (fold_left _ (indexed s) (0, [])) as [missingCount missingRowIdx].
    simpl in Hc.
    destruct (num_ge _ CONFIG.col_missing_threshold) eqn:E; [|exact H0].
    apply push_inv; [exact H0|].
    destruct (List.length s =? 0) eqn:El; [reflexivity|].
    apply Nat.eqb_neq in El. apply ratio_unit; lia.
Qed.

Lemma detectDuplicatesAndPK_inv (d : DataFrame.t) (this : Analyzer.t) :
  loop_inv d this -> loop_inv d (Analyzer.detectDuplicatesAndPK this).
Proof.
  intro H. unfold Analyzer.detectDuplicatesAndPK.
  destruct (fold_left _ (indexed (DataFrame.values (Analyzer.df this))) ([], []))
    as [seen duplicates].
  assert (H1 : loop_inv d
           (if 0 <? List.length duplicates
            then Analyzer.push this
                   (issue "dataset" None (firstn 10 duplicates) "exact_duplicates"
                      "high" (Fin (9#10))
                      [("count", count_val (List.length duplicates))]
                      (Some "drop_or_merge"))
            else this)).
  { destruct (0 <? List.length duplicates); [|exact H].
    apply push_inv; [exact H|reflexivity]. }
  rewrite (proj2 H1).
  apply fold_inv; [|exact H1].
  intros this0 col H0. rewrite (proj2 H0).
  destruct (num_ge _ CONFIG.pk_uniqueness_threshold) eqn:E; [|exact H0].
  apply push_inv; [exact H0|].
  destruct (DataFrame.nrows d =? 0) eqn:En; [reflexivity|].
  apply Nat.eqb_neq in En. apply ratio_unit; [|lia].
  etransitivity; [apply distinct_length|].
  rewrite length_map.
  etransitivity; [apply filter_length_le|apply series_length].
Qed.

Lemma outliers_fold_length (l : list (nat * jsval)) (lower upper : num)
    (acc : list (nat * jsval)) :
  List.length
    (fold_left (fun outliers '(i, v) =>
       let num := Number v in
       if negb (num_isNaN num) && (num_lt num lower || num_gt num upper)
       then outliers ++ [(i, v)] else outliers) l acc)
  <= List.length acc + List.length l.
Proof.
  revert acc. induction l as [|[i v] l IH]; intro acc; simpl; [lia|].
  destruct (negb (num_isNaN (Number v)) &&
            (num_lt (Number v) lower || num_gt (Number v) upper)).
  - etransitivity; [apply IH|]. rewrite length_app. simpl. lia.
  - etransitivity; [apply IH|]. lia.
Qed.

Lemma outliers_of_length (original : list jsval) (lower upper : num) :
  List.length (Analyzer.outliers_of original lower upper) <= List.length original.
Proof.
  unfold Analyzer.outliers_of.
  etransitivity; [apply outliers_fold_length|].
  rewrite indexed_length. simpl. lia.
Qed.

Lemma detectOutliersIQR_inv (d : DataFrame.t) (this : Analyzer.t) (col : string) :
  loop_inv d this -> loop_inv d (Analyzer.detectOutliersIQR this col).
Proof.
  intro H. unfold Analyzer.detectOutliersIQR.
  destruct (List.length _ <? 5); [exact H|].
  destruct (Analyzer.iqr_bounds _) as [lower upper].
  destruct (0 <? List.length (Analyzer.outliers_of _ lower upper)) eqn:E; [|exact H].
  apply Nat.ltb_lt in E.
  apply push_inv; [exact H|].
  pose proof (outliers_of_length
                (Analyzer._seriesValues (DataFrame.series (Analyzer.df this) col))
                lower upper) as Hl.
  pose proof (series_length (Analyzer.df this) col) as Hs.
  apply ratio_unit; lia.
Qed.

Lemma runOutliers_inv (d : DataFrame.t) (this : Analyzer.t) :
  loop_inv d this -> loop_inv d (Analyzer.runOutliers this).
Proof.
  intro H. unfold Analyzer.runOutliers.
  apply fold_inv; [|exact H].
  intros this0 col H0.
  destruct (Analyzer.inferColumnType _); try exact H0.
  apply detectOutliersIQR_inv. exact H0.
Qed.

Lemma failures_fold (l : list jsval) (f0 t0 : nat) :
  f0 <= t0 ->
  let r := fold_left (fun '(failures, total) v =>
             (if num_isNaN (Date_parse (to_String v)) then failures + 1 else failures,
              total + 1)) l (f0, t0) in
  fst r <= snd r.
Proof.
  revert f0 t0. induction l as [|v l IH]; intros f0 t0 H; simpl; [exact H|].
  apply IH. destruct (num_isNaN (Date_parse (to_String v))); lia.
Qed.

Lemma detectDateParsing_inv (d : DataFrame.t) (this : Analyzer.t) :
  loop_inv d this -> loop_inv d (Analyzer.detectDateParsing this).
Proof.
  intro H. unfold Analyzer.detectDateParsing.
  apply fold_inv; [|exact H].
  intros this0 col H0.
  destruct (Analyzer.inferColumnType _); try exact H0.
  pose proof (failures_fold
                (firstn 200 (Analyzer._seriesValues
                               (DataFrame.series (Analyzer.df this0) col)))
                0 0 (Nat.le_refl 0)) as Hf.
  cbv zeta in Hf.
  destruct (fold_left _ _ (0, 0)) as [failures total]. simpl in Hf.
  destruct (num_gt _ (Fin (1 # 10))) eqn:E; [|exact H0].
  apply push_inv; [exact H0|].
  destruct (total =? 0) eqn:Et; [reflexivity|].
  apply Nat.eqb_neq in Et. apply ratio_unit; lia.
Qed.

Lemma detectCategoricalInconsistency_inv (d : DataFrame.t) (this : Analyzer.t) :
  loop_inv d this -> loop_inv d (Analyzer.detectCategoricalInconsistency this).
Proof.
  intro H. unfold Analyzer.detectCategoricalInconsistency.
  apply fold_inv; [|exact H].
  intros this0 col H0.
  destruct (Analyzer.inferColumnType _); try exact H0.
  destruct (500 <? _); [exact H0|].
  destruct (0 <? _); [|exact H0].
  apply push_inv; [exact H0|reflexivity].
Qed.

Lemma detectSuspiciousText_inv (d : DataFrame.t) (this : Analyzer.t) :
  loop_inv d this -> loop_inv d (Analyzer.detectSuspiciousText this).
Proof.
  intro H. unfold Analyzer.detectSuspiciousText.
  apply fold_inv; [|exact H].
  intros this0 col H0.
  destruct (Analyzer.inferColumnType _); try exact H0.
  destruct (0 <? _); [|exact H0].
  apply push_inv; [exact H0|reflexivity].
Qed.
End Scores.

Lemma Set_size_le (values : list jsval) :
  AnalyzerDraft.Set_size values <= List.length values.
Proof.
  unfold AnalyzerDraft.Set_size.
  assert (H : forall l seen,
             List.length
               (fold_left (fun seen v =>
                  if existsb (AnalyzerDraft.same_value_zero v) seen
                  then seen else seen ++ [v]) l seen)
             <= List.length seen + List.length l).
  { induction l as [|v l IH]; intro seen; simpl; [lia|].
    destruct (existsb (AnalyzerDraft.same_value_zero v) seen).
    - specialize (IH seen). lia.
    - specialize (IH (seen ++ [v])). rewrite length_app in IH. simpl in IH. lia. }
  apply (H values []).
Qed.

Lemma AnalyzerDraft_detectMissing_inv {host : Host} (d : DataFrame.t)
    (this : Analyzer.t) :
  loop_inv d this ->
  Forall (fun i => unit_score (Issue.score i) = true)
         (AnalyzerDraft.issues_after (AnalyzerDraft.detectMissing this)).
Proof.
  intro H. unfold AnalyzerDraft.detectMissing.
  destruct (DataFrame.columns (Analyzer.df this)); [|constructor].
  cbn [AnalyzerDraft.issues_after].
  refine (proj1 (fold_inv d _ _ _ this H)).
  intros this0 [i values] H0.
  destruct (num_ge _ CONFIG.row_missing_threshold) eqn:E; [|exact H0].
  apply push_inv; [exact H0|].
  eapply ratio_ge_unit; [apply filter_length_le|exact E].
Qed.

Lemma AnalyzerDraft_detectDuplicatesAndPK_inv {host : Host} (d : DataFrame.t)
    (this : Analyzer.t) :
  loop_inv d this -> loop_inv d (AnalyzerDraft.detectDuplicatesAndPK this).
Proof.
  intro H. unfold AnalyzerDraft.detectDuplicatesAndPK.
  destruct (fold_left _ (indexed _) ([], [])) as [seen duplicates].
  assert (H1 : loop_inv d
           (if 0 <? List.length duplicates
            then Analyzer.push this
                   (issue "dataset" None (firstn 10 duplicates) "exact_duplicates"
                      "high" (Fin (9#10))
                      [("count", count_val (List.length duplicates))]
                      (Some "drop_or_merge"))
            else this)).
  { destruct (0 <? List.length duplicates); [|exact H].
    apply push_inv; [exact H|reflexivity]. }
  apply fold_inv; [|exact H1].
  intros this0 col H0.
  destruct (num_ge _ CONFIG.pk_uniqueness_threshold) eqn:E; [|exact H0].
  apply push_inv; [exact H0|].
  eapply ratio_ge_unit; [|exact E].
  etransitivity; [apply Set_size_le|].
  etransitivity; [apply filter_length_le|apply series_length].
Qed.

(** C9.  After [runAll] on any data frame, every issue of the Analyzer,
    whichever detector pushed it, has a score [s] with [0 <= s <= 1].  So
    has every issue that [detectMissing] and [detectDuplicatesAndPK] of
    [Analyzer/Analyzer.js] push. *)
Theorem runAll_scores_in_unit_interval {host : Host} (df : DataFrame.t) :
  let in_unit_interval (i : Issue.t) :=
    num_le (Fin 0) (Issue.score i) = true /\
    num_le (Issue.score i) (Fin 1) = true in
  Forall in_unit_interval
         (Analyzer.issues (snd (Analyzer.runAll (Analyzer.new df)))) /\
  Forall in_unit_interval
         (AnalyzerDraft.issues_after
            (AnalyzerDraft.detectMissing (Analyzer.new df))) /\
  Forall in_unit_interval
         (Analyzer.issues (AnalyzerDraft.detectDuplicatesAndPK (Analyzer.new df))).
Proof.
  intro in_unit_interval.
  assert (Hstart : loop_inv df (Analyzer.new df))
    by (split; [constructor|reflexivity]).
  assert (Hweak : forall l,
             Forall (fun i => unit_score (Issue.score i) = true) l ->
             Forall in_unit_interval l).
  { intros l Hl. eapply Forall_impl; [|exact Hl].
    intros i Hi. unfold unit_score in Hi.
    apply andb_prop in Hi. exact Hi. }
  split; [|split]; apply Hweak.
  - assert (H : loop_inv df (snd (Analyzer.runAll (Analyzer.new df)))).
    { unfold Analyzer.runAll. simpl snd.
      apply detectSuspiciousText_inv, detectCategoricalInconsistency_inv,
        detectDateParsing_inv, runOutliers_inv, detectDuplicatesAndPK_inv,
        detectMissing_inv.
      exact Hstart. }
    exact (proj1 H).
  - apply (AnalyzerDraft_detectMissing_inv df). exact Hstart.
  - exact (proj1 (AnalyzerDraft_detectDuplicatesAndPK_inv df _ Hstart)).
Qed.

(* ================================================================== *)
(** ** Quartiles and bounds *)
(* ================================================================== *)





Section Bounds.
Context {host : Host}.




Lemma outliers_fold_filter (lower upper : num) (l acc : list (nat * jsval)) :
  fold_left (fun outliers '(i, v) =>
     let num := Number v in
     if negb (num_isNaN num) && (num_lt num lower || num_gt num upper)
     then outliers ++ [(i, v)] else outliers) l acc
  = acc ++ filter (flagged lower upper) l.
Proof.
  revert acc. induction l as [|[i v] l IH]; intro acc; simpl.
  - rewrite app_nil_r. reflexivity.
  - rewrite IH. unfold flagged at 2. simpl.
    destruct (negb (num_isNaN (Number v)) &&
              (num_lt (Number v) lower || num_gt (Number v) upper));
      [rewrite <- app_assoc|]; reflexivity.
Qed.

Lemma in_combine_seq {A : Type} (l : list A) (start i : nat) (v : A) :
  In (i, v) (combine (seq start (List.length l)) l)
  <-> start <= i /\ nth_error l (i - start) = Some v.
Proof.
  revert start. induction l as [|x l IH]; intro start; simpl.
  - split; [tauto|]. intros [_ H]. destruct (i - start); discriminate.
  - rewrite IH. split.
    + intros [E|[Hle Hn]].
      * injection E as <- <-. split; [lia|].
        rewrite Nat.sub_diag. reflexivity.
      * split; [lia|].
        replace (i - start) with (S (i - S start)) by lia. exact Hn.
    + intros [Hle Hn].
      destruct (Nat.eq_dec i start) as [->|Hne].
      * left. rewrite Nat.sub_diag in Hn. simpl in Hn. congruence.
      * right. split; [lia|].
        replace (i - start) with (S (i - S start)) in Hn by lia. exact Hn.
Qed.

End Bounds.

(* ================================================================== *)
(** ** Sorting *)
(* ================================================================== *)

Lemma sort_insert_cons (cmp : num -> num -> num) (x y : num) (l : list num) :
  sort_insert cmp x (y :: l)
  = if num_gt (cmp x y) (Fin 0) then y :: sort_insert cmp x l else x :: y :: l.
Proof. reflexivity. Qed.

Lemma sort_insert_perm (cmp : num -> num -> num) (x : num) (l : list num) :
  Permutation (sort_insert cmp x l) (x :: l).
Proof.
  induction l as [|y l IH]; [reflexivity|].
  rewrite sort_insert_cons.
  destruct (num_gt (cmp x y) (Fin 0)); [|reflexivity].
  rewrite IH. apply perm_swap.
Qed.

Lemma Array_sort_perm (cmp : num -> num -> num) (l : list num) :
  Permutation (Array_sort cmp l) l.
Proof.
  induction l as [|x l IH]; simpl; [reflexivity|].
  rewrite sort_insert_perm. constructor. exact IH.
Qed.

Lemma Array_sort_length (cmp : num -> num -> num) (l : list num) :
  List.length (Array_sort cmp l) = List.length l.
Proof. apply Permutation_length, Array_sort_perm. Qed.

Lemma compare_by_sub (x y : num) :
  num_isNaN x = false -> num_isNaN y = false ->
  if num_gt (num_sub x y) (Fin 0) then num_le y x = true
  else num_le x y = true.
Proof.
  destruct x as [| | |a], y as [| | |b]; simpl; try discriminate;
    intros _ _; try reflexivity.
  unfold num_gt, num_sub. simpl. unfold Qlt_bool.
  destruct (Qle_bool (a + - b) 0) eqn:E; simpl.
  - apply Qle_bool_iff in E. apply Qle_bool_iff. lra.
  - apply Qle_bool_iff. destruct (Qlt_le_dec 0 (a + - b)) as [H|H].
    + lra.
    + apply Qle_bool_iff in H. congruence.
Qed.

Lemma sort_insert_sorted (x : num) (l : list num) :
  num_isNaN x = false ->
  Forall (fun y => num_isNaN y = false) l ->
  Sorted (fun a b => num_le a b = true) l ->
  Sorted (fun a b => num_le a b = true) (sort_insert num_sub x l).
Proof.
  intros Hx Hl Hs.
  induction l as [|y l IH].
  - constructor; constructor.
  - inversion Hl as [|? ? Hy Hl']; subst.
    inversion Hs as [|? ? Hs' Hhd]; subst.
    pose proof (compare_by_sub x y Hx Hy) as Hc.
    rewrite sort_insert_cons.
    destruct (num_gt (num_sub x y) (Fin 0)).
    + constructor; [apply IH; assumption|].
      destruct l as [|z l].
      * constructor. exact Hc.
      * rewrite sort_insert_cons.
        destruct (num_gt (num_sub x z) (Fin 0)).
        -- constructor. inversion Hhd. assumption.
        -- constructor. exact Hc.
    + constructor; [exact Hs|]. constructor. exact Hc.
Qed.

(** [nums.sort((a, b) => a - b)] on numbers that are not NaN: the same
    numbers, in ascending order. *)
Lemma Array_sort_sorted (l : list num) :
  Forall (fun y => num_isNaN y = false) l ->
  Sorted (fun a b => num_le a b = true) (Array_sort num_sub l) /\
  Permutation (Array_sort num_sub l) l.
Proof.
  intro Hl. split; [|apply Array_sort_perm].
  induction Hl as [|x l Hx Hl IH]; simpl; [constructor|].
  apply sort_insert_sorted; [exact Hx| |exact IH].
  apply Forall_forall. intros y Hy.
  apply (Permutation_in _ (Array_sort_perm num_sub l)) in Hy.
  revert y Hy. apply Forall_forall. exact Hl.
Qed.

(* ================================================================== *)
(** ** The outlier detectors *)
(* ================================================================== *)


(** C1: the code of [Analyzer/Analyzer.js] at the column
    [1, 2, 3, 4, 5, 100].  The detector throws at [nums(...)] and flags
    nothing.  Given the quartiles 2 and 5, its statements compute the upper
    bound [Q3 - 1.5 iqr = 1/2], under which all six values are outliers,
    and throw at [his.issues].  The revised detector flags the value 100,
    at row 5, and nothing else. *)
Lemma AnalyzerDraft_detectOutliersIQR_at_100 :
  let this := Analyzer.new ExampleHost.df_100 in
  @AnalyzerDraft.detectOutliersIQR ExampleHost.host this "x" = inl TypeError /\
  (let '(lower, upper) :=
     @AnalyzerDraft.iqr_bounds ExampleHost.host (ExampleHost.int 2) (ExampleHost.int 5) in
   num_eq lower (Fin (-5 # 2)) = true /\
   num_eq upper (Fin (1 # 2)) = true /\
   @AnalyzerDraft.outliers_of ExampleHost.host ExampleHost.column_100 lower upper
   = ExampleHost.column_100) /\
  @AnalyzerDraft.report ExampleHost.host this "x" ExampleHost.column_100
     (ExampleHost.int 2) (ExampleHost.int 5) = inl ReferenceError /\
  map Issue.rows
    (Analyzer.issues (@Analyzer.detectOutliersIQR ExampleHost.host this "x"))
  = [[5]].
Proof.
  intro this. repeat split; reflexivity.
Qed.

(** C2: the code at the column [1, 2, 3, 4, 5, 100] with [k = 1.5].  The
    detector has the bounds [-5/2] and [19/2]; [ClipOutliersIQR] reports
    the bounds [-5/2] and [13/2], and clips 100 to [13/2]. *)
Lemma ClipOutliersIQR_upper_bound_at_100 :
  let cells := ExampleHost.column_100 in
  let p := ExampleHost.params_method (VStr "clip") in
  let h := ExampleHost.heap_with (@ClipOutliersIQR.new ExampleHost.host 0 p) cells in
  let sorted := Array_sort num_sub (map (@Number ExampleHost.host) cells) in
  (let '(lower, upper) := @Analyzer.iqr_bounds ExampleHost.host sorted in
   num_eq lower (Fin (-5 # 2)) = true /\ num_eq upper (Fin (19 # 2)) = true) /\
  (let '(lower, upper) := @ClipOutliersIQR.bounds ExampleHost.host (Fin (3 # 2)) sorted in
   num_eq lower (Fin (-5 # 2)) = true /\ num_eq upper (Fin (13 # 2)) = true) /\
  exists out ev h' ls' rs' lower upper clipped,
    @apply ExampleHost.host (ExampleHost.instance_of cells)
           (ExampleHost.array_of cells) h = Normal (out, ev) h' /\
    ev_get ev "lower" = Some (EVal (VNum lower)) /\
    ev_get ev "upper" = Some (EVal (VNum upper)) /\
    num_eq lower (Fin (-5 # 2)) = true /\
    num_eq upper (Fin (13 # 2)) = true /\
    holds h' out ls' rs' /\
    cells_of "x" rs'
    = [ExampleHost.int 1; ExampleHost.int 2; ExampleHost.int 3;
       ExampleHost.int 4; ExampleHost.int 5; VNum clipped] /\
    num_eq clipped (Fin (13 # 2)) = true.
Proof.
  intros cells p h sorted.
  split; [split; reflexivity|]. split; [split; reflexivity|].
  eval_apply. do 8 eexists.
  split; [reflexivity|].
  split; [reflexivity|]. split; [reflexivity|].
  split; [reflexivity|]. split; [reflexivity|].
  split; [split; [reflexivity|repeat constructor]|].
  split; reflexivity.
Qed.

(* ================================================================== *)
(** ** The clustering pass *)
(* ================================================================== *)

(** C5: the code at the column ["ab", "bc", "abc"].  The search for "ab"
    hits "ab" and "abc", the search for "bc" hits "bc" and "abc", and
    "abc" is a member of both clusters of the issue. *)
Lemma cluster_pass_assigns_abc_twice :
  let uniques := ["ab"; "bc"; "abc"] in
  map fst (@Fuse_search ExampleHost.host uniques "ab") = ["ab"; "abc"] /\
  map fst (@Fuse_search ExampleHost.host uniques "bc") = ["bc"; "abc"] /\
  fst (@Analyzer.cluster_pass ExampleHost.host uniques)
  = [["ab"; "abc"]; ["bc"; "abc"]] /\
  map Issue.evidence
    (Analyzer.issues
       (@Analyzer.detectCategoricalInconsistency ExampleHost.host
          (Analyzer.new ExampleHost.df_abc)))
  = [[("clusters", EClusters [["ab"; "abc"]; ["bc"; "abc"]])]].
Proof.
  intro uniques. repeat split; reflexivity.
Qed.

(* ================================================================== *)
(** ** The record count *)
(* ================================================================== *)

(** CoerceNumeric, FillMissing (for a strategy other than "mode") and
    ClipOutliersIQR with the method "clip" or "flag" return an array with
    as many elements as the one they are given. *)
Lemma apply_preserves_record_count {host : Host}
    (h : heap) (this records : loc) (cls : class) (t : Transformation.t)
    (ls : list loc) (rs : list record) :
  instance_at h this = Some (cls, t) ->
  holds h records ls rs ->
  let p := Transformation.params t in
  match cls with
  | CCoerceNumeric => True
  | CFillMissing =>
      loose_eq_word (default_to (Params.strategy p) (VStr "mean")) "mode" = false
  | CClipOutliersIQR =>
      loose_eq_word (clip_method p) "clip" = true \/
      loose_eq_word (clip_method p) "flag" = true
  | CCoerceDatetime | CTransformation => False
  end ->
  exists out ev h' ls',
    apply this records h = Normal (out, ev) h' /\
    elems_at h' out = Some ls' /\
    List.length ls' = List.length ls.
Proof.
  intros Ht Hr p Hcls.
  assert (Hcopies : forall h' out key,
             fresh_copies h h' out rs key ->
             exists ls', elems_at h' out = Some ls' /\
                         List.length ls' = List.length ls).
  { intros h' out key [_ [ls' [rs' [[He Hr'] [_ Hsame]]]]].
    exists ls'. split; [exact He|].
    rewrite (Forall2_length Hr'), <- (Forall2_length Hsame).
    symmetry. apply (holds_length _ _ _ _ Hr). }
  pose proof (apply_returns_copies h this records cls t ls rs Ht Hr) as H.
  fold p in H. unfold returns_copies in H.
  destruct cls; try contradiction.
  - destruct H as [out [ev [h' [E Hc]]]].
    destruct (Hcopies _ _ _ Hc) as [ls' [He Hl]].
    exists out, ev, h', ls'. auto.
  - destruct (H Hcls) as [out [ev [h' [E Hc]]]].
    destruct (Hcopies _ _ _ Hc) as [ls' [He Hl]].
    exists out, ev, h', ls'. auto.
  - destruct H as [out [ev [h' [E Hc]]]].
    unfold clip_case_of in Hc.
    destruct (List.length (clip_nums p rs) <? 5).
    { destruct Hc as [-> ->]. exists records, ev, h, ls.
      split; [exact E|]. split; [exact (proj1 Hr)|reflexivity]. }
    destruct (loose_eq_word (clip_method p) "clip").
    { destruct (Hcopies _ _ _ Hc) as [ls' [He Hl]].
      exists out, ev, h', ls'. auto. }
    destruct (loose_eq_word (clip_method p) "flag").
    { destruct (Hcopies _ _ _ Hc) as [ls' [He Hl]].
      exists out, ev, h', ls'. auto. }
    destruct Hcls; discriminate.
Qed.

(* ================================================================== *)
(** ** Examples *)
(* ================================================================== *)

(** In the sorted sample [1, ..., 10] the quartiles are the elements at the
    indices 2 and 7: 3 and 8. *)
Example quartiles_of_one_to_ten :
  nums_at ExampleHost.one_to_ten
    (Math_floor (num_mul (num_of_nat 10) (Fin (1 # 4)))) = VNum (Fin 3) /\
  nums_at ExampleHost.one_to_ten
    (Math_floor (num_mul (num_of_nat 10) (Fin (3 # 4)))) = VNum (Fin 8).
Proof. split; reflexivity. Qed.

(** On the one-column frame [1, 2, 3, 4, 5, 100] the Analyzer reports a
    primary key candidate with the score 1 and one outlier with the score
    1/6. *)
Example runAll_on_the_column_100 :
  map (fun i => (Issue.issue_type i, Issue.rows i))
      (Analyzer.issues
         (snd (@Analyzer.runAll ExampleHost.host (Analyzer.new ExampleHost.df_100))))
  = [("pk_candidate", []); ("outlier_iqr", [5])].
Proof. reflexivity. Qed.

(** [FillMissing] with the strategy "mode" throws. *)
Example FillMissing_mode_throws :
  let cells := ExampleHost.gap_cells in
  let p := ExampleHost.params_strategy (VStr "mode") VUndefined in
  let h := ExampleHost.heap_with (@FillMissing.new ExampleHost.host 0 p) cells in
  @apply ExampleHost.host (ExampleHost.instance_of cells)
         (ExampleHost.array_of cells) h = Throw ReferenceError h.
Proof. reflexivity. Qed.

(* ================================================================== *)
(** ** More on the transformations *)
(* ================================================================== *)

Lemma count_mono {A : Type} (p q : A -> bool) (l : list A) :
  (forall x, p x = true -> q x = true) -> count p l <= count q l.
Proof.
  intro H. unfold count. induction l as [|x l IH]; simpl; [lia|].
  destruct (p x) eqn:Ep.
  - rewrite (H x Ep). simpl. lia.
  - destruct (q x); simpl; lia.
Qed.

Lemma blank_is_missing {host : Host} (v : jsval) :
  blank v = true ->
  Analyzer.isMissing v = true /\ AnalyzerDraft.isMissing v = true.
Proof.
  intro H. apply blank_iff in H. destruct H as [->|[->| ->]]; split; reflexivity.
Qed.

(** X1.  [FillMissing] (strategy other than "mode") changes only cells
    that the missing-value detectors count as missing, and the
    [changed_count] it reports is at most the number of cells the revised
    detector counts. *)
Theorem FillMissing_changes_only_missing_cells {host : Host}
    (h : heap) (this records : loc) (t : Transformation.t)
    (ls : list loc) (rs : list record) :
  instance_at h this = Some (CFillMissing, t) ->
  holds h records ls rs ->
  let column := Params.column (Transformation.params t) in
  loose_eq_word (default_to (Params.strategy (Transformation.params t))
                   (VStr "mean")) "mode" = false ->
  exists out ev h' ls' rs' n,
    apply this records h = Normal (out, ev) h' /\
    holds h' out ls' rs' /\
    Forall2 (fun r r' =>
               r' = r \/
               (Analyzer.isMissing (prop_get r column) = true /\
                AnalyzerDraft.isMissing (prop_get r column) = true)) rs rs' /\
    ev_get ev "changed_count" = Some (count_val n) /\
    n <= count (fun r => Analyzer.isMissing (prop_get r column)) rs.
Proof.
  intros Ht Hr column Hmode.
  pose proof (FillMissing_apply_ok h this records t ls rs Ht Hr Hmode) as H1.
  fold column in H1. rewrite fill_map in H1. simpl fst in H1. simpl snd in H1.
  do 6 eexists. split; [|split; [|split; [|split]]].
  - rewrite (apply_dispatch _ _ _ _ _ Ht). exact H1.
  - apply mapped_holds.
  - apply Forall2_map_right. intro r.
    destruct (blank (prop_get r column)) eqn:E; [right|left; reflexivity].
    apply blank_is_missing. exact E.
  - reflexivity.
  - simpl. apply count_mono. intros r E.
    apply (blank_is_missing _ E).
Qed.

Lemma FillMissing_changes_only_missing_cells_witness :
  let cells := ExampleHost.na_cells in
  let p := ExampleHost.params_strategy (VStr "constant") (ExampleHost.int 0) in
  let h := ExampleHost.heap_with (@FillMissing.new ExampleHost.host 0 p) cells in
  exists out ev h' ls' rs' n,
    @apply ExampleHost.host (ExampleHost.instance_of cells)
           (ExampleHost.array_of cells) h = Normal (out, ev) h' /\
    holds h' out ls' rs' /\
    Forall2 (fun r r' =>
               r' = r \/
               (@Analyzer.isMissing ExampleHost.host (prop_get r "x") = true /\
                @AnalyzerDraft.isMissing ExampleHost.host (prop_get r "x") = true))
            (ExampleHost.records_of cells) rs' /\
    ev_get ev "changed_count" = Some (count_val n) /\
    n <= count (fun r => @Analyzer.isMissing ExampleHost.host (prop_get r "x"))
               (ExampleHost.records_of cells).
Proof.
  intros cells p h.
  apply (@FillMissing_changes_only_missing_cells ExampleHost.host h
           (ExampleHost.instance_of cells) (ExampleHost.array_of cells)
           (@Transformation.new ExampleHost.host 0 "fill_missing" p false)
           (ExampleHost.locs_of cells) (ExampleHost.records_of cells)).
  - reflexivity.
  - split; [reflexivity|repeat constructor].
  - reflexivity.
Defined.

Lemma coerce_counts_clean {host : Host} (v : jsval) :
  coerce_counts v = negb (clean_cell v).
Proof.
  unfold coerce_counts.
  destruct v as [| |b|n|s]; try reflexivity.
  - simpl. destruct n; try reflexivity.
    simpl. replace (Qeq_bool q q) with true; [reflexivity|].
    symmetry. apply Qeq_bool_iff. reflexivity.
  - unfold blank, strict_eq. simpl.
    destruct (String.eqb s ""); reflexivity.
Qed.

Lemma coerced_of_clean {host : Host} (v : jsval) :
  clean_cell v = true -> coerced v = v.
Proof.
  destruct v as [| |b|n|s]; simpl; try discriminate; [reflexivity|].
  intro Hn. apply negb_true_iff in Hn.
  unfold coerced. simpl. unfold isNaN. simpl. rewrite Hn. reflexivity.
Qed.

Lemma prop_set_get_same (r : record) (key : string) :
  prop_get r key <> VUndefined -> prop_set r key (prop_get r key) = r.
Proof.
  induction r as [|[k' v'] r IH]; simpl; [congruence|].
  destruct (String.eqb k' key); [reflexivity|].
  intro H. rewrite (IH H). reflexivity.
Qed.

Lemma count_ext {A : Type} (p q : A -> bool) (l : list A) :
  (forall x, p x = q x) -> count p l = count q l.
Proof.
  intro H. unfold count. f_equal. apply filter_ext. exact H.
Qed.

Lemma coerced_is_clean {host : Host} (v : jsval) : clean_cell (coerced v) = true.
Proof.
  destruct (coerced_clean v) as [->|[n [-> Hn]]]; simpl; [reflexivity|].
  rewrite Hn. reflexivity.
Qed.

(** X2.  [CoerceNumeric.apply] returns one copy per record.  In each copy
    the cell of the column is null or a number other than NaN, and every
    other property is as in the record; [changed_count] is the number of
    cells that were not already null or a number other than NaN, and
    [before_sample] holds the first five cells of the input. *)
Theorem CoerceNumeric_apply_spec {host : Host}
    (h : heap) (this records : loc) (t : Transformation.t)
    (ls : list loc) (rs : list record) :
  instance_at h this = Some (CCoerceNumeric, t) ->
  holds h records ls rs ->
  let column := Params.column (Transformation.params t) in
  exists out ev h' ls' rs',
    apply this records h = Normal (out, ev) h' /\
    holds h' out ls' rs' /\
    Forall2 (fun r r' =>
               clean_cell (prop_get r' column) = true /\
               same_except column r r' /\
               (clean_cell (prop_get r column) = true -> r' = r)) rs rs' /\
    ev_get ev "changed_count"
    = Some (count_val (count (fun r => negb (clean_cell (prop_get r column))) rs)) /\
    ev_get ev "before_sample" = Some (EList (cells_of column (firstn 5 rs))).
Proof.
  intros Ht Hr column.
  pose proof (CoerceNumeric_apply_ok h this records t ls rs Ht Hr) as H1.
  cbv zeta in H1. fold column in H1.
  rewrite coerce_numeric_map in H1. simpl fst in H1. simpl snd in H1.
  do 5 eexists. split; [|split; [|split; [|split]]].
  - rewrite (apply_dispatch _ _ _ _ _ Ht). exact H1.
  - apply mapped_holds.
  - apply Forall2_map_right. intro r. split; [|split].
    + rewrite prop_get_set_same. apply coerced_is_clean.
    + apply same_except_set.
    + intro Hc. rewrite (coerced_of_clean _ Hc).
      apply prop_set_get_same. intro E. rewrite E in Hc. discriminate.
  - simpl. do 2 f_equal. apply count_ext.
    intro r. apply coerce_counts_clean.
  - reflexivity.
Qed.

Lemma CoerceNumeric_apply_spec_witness :
  let cells := ExampleHost.mixed_cells in
  let h := ExampleHost.heap_with
             (@CoerceNumeric.new ExampleHost.host 0 ExampleHost.params_x) cells in
  exists out ev h' ls' rs',
    @apply ExampleHost.host (ExampleHost.instance_of cells)
           (ExampleHost.array_of cells) h = Normal (out, ev) h' /\
    holds h' out ls' rs' /\
    Forall2 (fun r r' =>
               clean_cell (prop_get r' "x") = true /\
               same_except "x" r r' /\
               (clean_cell (prop_get r "x") = true -> r' = r))
            (ExampleHost.records_of cells) rs' /\
    ev_get ev "changed_count" = Some (count_val 2) /\
    ev_get ev "before_sample" = Some (EList cells).
Proof.
  intros cells h.
  apply (@CoerceNumeric_apply_spec ExampleHost.host h
           (ExampleHost.instance_of cells) (ExampleHost.array_of cells)
           (@Transformation.new ExampleHost.host 0 "coerce_numeric"
              ExampleHost.params_x false)
           (ExampleHost.locs_of cells) (ExampleHost.records_of cells)).
  - reflexivity.
  - split; [reflexivity|repeat constructor].
Defined.

(* ================================================================== *)
(** ** CoerceDatetime, cell by cell *)
(* ================================================================== *)

Lemma mapM_st_until {S : Type} (cb : loc -> S -> M (loc * S))
    (step : record -> S -> record * S) (good : record -> bool)
    (h0 : heap) (ls : list loc) (rs : list record) :
  (forall h r fs s, record_at h r = Some fs -> good fs = true ->
     cb r s h = Normal (List.length h, snd (step fs s))
                       (h ++ [ORecord (fst (step fs s))])) ->
  (forall h r fs s, record_at h r = Some fs -> good fs = false ->
     cb r s h = Throw TypeError (h ++ [ORecord fs])) ->
  Forall2 (fun l r => record_at h0 l = Some r) ls rs ->
  forall (x : heap) (s : S),
    if forallb good rs
    then mapM_st cb ls s (h0 ++ x)
         = Normal (seq (List.length (h0 ++ x)) (List.length ls),
                   snd (map_st step rs s))
                  ((h0 ++ x) ++ map ORecord (fst (map_st step rs s)))
    else exists y, mapM_st cb ls s (h0 ++ x) = Throw TypeError (h0 ++ y).
Proof.
  intros Hgood Hbad Hr.
  induction Hr as [|l r ls rs Hl _ IH]; intros x s; simpl.
  - rewrite app_nil_r. reflexivity.
  - destruct (good r) eqn:Eg; simpl.
    + rewrite (bind_normal _ _ _ _ _
                 (Hgood _ _ _ s (record_at_extends _ x _ _ Hl) Eg)).
      destruct (step r s) as [r1 s1]. simpl.
      specialize (IH (x ++ [ORecord r1]) s1).
      rewrite <- app_assoc.
      destruct (forallb good rs).
      * rewrite (bind_normal _ _ _ _ _ IH).
        destruct (map_st step rs s1) as [rs1 s2]. simpl.
        unfold ret. f_equal.
        -- f_equal. f_equal. rewrite !length_app. simpl. f_equal. lia.
        -- rewrite <- !app_assoc. reflexivity.
      * destruct IH as [y IH]. exists y.
        apply bind_throw. exact IH.
    + exists (x ++ [ORecord r]).
      apply bind_throw. rewrite app_assoc.
      apply (Hbad _ _ _ s (record_at_extends _ x _ _ Hl) Eg).
Qed.

Lemma unreadable_parsed_NaN {host : Host} (v : jsval) :
  unreadable_date v = true -> datetime_parsed v = VNum NaN.
Proof.
  unfold unreadable_date, datetime_parsed.
  destruct (blank v); [discriminate|].
  unfold isNaN. simpl.
  destruct (Date_parse (to_String v)); try discriminate. reflexivity.
Qed.

(** X3.  [CoerceDatetime.apply] returns only if every cell of the column
    is a value that is not empty and that [Date.parse] does not read; then
    every cell becomes null and [changed_count] is the number of records.
    As soon as one cell is empty or reads as a date, it throws a TypeError
    and leaves every object that existed unchanged. *)
Theorem CoerceDatetime_apply_spec {host : Host}
    (h : heap) (this records : loc) (t : Transformation.t)
    (ls : list loc) (rs : list record) :
  instance_at h this = Some (CCoerceDatetime, t) ->
  holds h records ls rs ->
  let column := Params.column (Transformation.params t) in
  if forallb (fun r => unreadable_date (prop_get r column)) rs
  then exists out ev h' ls',
         apply this records h = Normal (out, ev) h' /\
         holds h' out ls' (map (fun r => prop_set r column VNull) rs) /\
         ev_get ev "changed_count" = Some (count_val (List.length rs))
  else exists h',
         apply this records h = Throw TypeError h' /\ extends h h'.
Proof.
  intros Ht Hr column.
  rewrite (apply_dispatch _ _ _ _ _ Ht). unfold CoerceDatetime.apply.
  rewrite (bind_normal _ _ _ _ _ (get_instance_ok _ _ _ _ Ht)).
  rewrite (bind_normal _ _ _ _ _ (column_sample_ok _ _ _ _ _ Hr)).
  fold column.
  pose proof (mapM_st_until
                (fun r changed =>
                   copy <- Object_assign_empty r;;
                   v <- get_field copy column;;
                   let parsed := if blank v then VNull
                                 else VNum (Date_parse (to_String v)) in
                   out <- (if isNaN parsed then ret VNull
                           else CoerceDatetime.new_Date_parse parsed);;
                   let changed :=
                     if negb (String.eqb (to_String parsed) (to_String out))
                     then changed + 1 else changed in
                   _ <- set_field copy column out;;
                   ret (copy, changed))
                (coerce_datetime_step column)
                (fun r => unreadable_date (prop_get r column))
                h ls rs) as Hm.
  assert (Hgood : forall h1 r fs s, record_at h1 r = Some fs ->
            unreadable_date (prop_get fs column) = true ->
            (copy <- Object_assign_empty r;;
             v <- get_field copy column;;
             let parsed := if blank v then VNull
                           else VNum (Date_parse (to_String v)) in
             out <- (if isNaN parsed then ret VNull
                     else CoerceDatetime.new_Date_parse parsed);;
             let changed :=
               if negb (String.eqb (to_String parsed) (to_String out))
               then s + 1 else s in
             _ <- set_field copy column out;;
             ret (copy, changed)) h1
            = Normal (List.length h1, snd (coerce_datetime_step column fs s))
                     (h1 ++ [ORecord (fst (coerce_datetime_step column fs s))])).
  { intros h1 r fs s H E. run_copy H.
    pose proof (unreadable_parsed_NaN _ E) as Ep.
    unfold datetime_parsed in Ep. rewrite Ep.
    unfold bind at 1. simpl. run_fields. reflexivity. }
  assert (Hbad : forall h1 r fs s, record_at h1 r = Some fs ->
            unreadable_date (prop_get fs column) = false ->
            (copy <- Object_assign_empty r;;
             v <- get_field copy column;;
             let parsed := if blank v then VNull
                           else VNum (Date_parse (to_String v)) in
             out <- (if isNaN parsed then ret VNull
                     else CoerceDatetime.new_Date_parse parsed);;
             let changed :=
               if negb (String.eqb (to_String parsed) (to_String out))
               then s + 1 else s in
             _ <- set_field copy column out;;
             ret (copy, changed)) h1
            = Throw TypeError (h1 ++ [ORecord fs])).
  { intros h1 r fs s H E. run_copy H.
    unfold unreadable_date, datetime_parsed in E. cbv zeta. rewrite E.
    reflexivity. }
  specialize (Hm Hgood Hbad (proj2 Hr) [] 0).
  rewrite app_nil_r in Hm.
  destruct (forallb (fun r => unreadable_date (prop_get r column)) rs).
  - assert (Hmap : forall l s,
              map_st (coerce_datetime_step column) l s
              = (map (fun r => prop_set r column VNull) l, s + List.length l)).
    { induction l as [|r l IH]; intro s; simpl.
      - rewrite Nat.add_0_r. reflexivity.
      - rewrite IH. f_equal. lia. }
    rewrite Hmap in Hm. simpl fst in Hm. simpl snd in Hm.
    match goal with
    | |- context [Array_map_st ?cb records 0] =>
        assert (HA : Array_map_st cb records 0 h
                     = Normal (mapped_array h (map (fun r => prop_set r column VNull) rs),
                               List.length rs)
                              (mapped_heap h (map (fun r => prop_set r column VNull) rs)))
    end.
    { unfold Array_map_st.
      rewrite (bind_normal _ _ _ _ _ (array_elems_ok _ _ _ (proj1 Hr))).
      rewrite (bind_normal _ _ _ _ _ Hm).
      unfold alloc, bind, ret, mapped_array, mapped_heap.
      rewrite length_app, !length_map.
      rewrite (Forall2_length (proj2 Hr)).
      rewrite <- app_assoc. reflexivity. }
    rewrite (bind_normal _ _ _ _ _ HA).
    do 4 eexists. split; [reflexivity|].
    split; [apply mapped_holds|reflexivity].
  - destruct Hm as [y Hm]. exists (h ++ y).
    split; [|exists y; reflexivity].
    apply bind_throw. unfold Array_map_st.
    rewrite (bind_normal _ _ _ _ _ (array_elems_ok _ _ _ (proj1 Hr))).
    apply bind_throw. exact Hm.
Qed.

Lemma CoerceDatetime_apply_spec_witness :
  let cells := MoreExamples.word_cells in
  let h := ExampleHost.heap_with
             (@CoerceDatetime.new ExampleHost.host 0 ExampleHost.params_x) cells in
  exists out ev h' ls',
    @apply ExampleHost.host (ExampleHost.instance_of cells)
           (ExampleHost.array_of cells) h = Normal (out, ev) h' /\
    holds h' out ls' [[("x", VNull)]; [("x", VNull)]] /\
    ev_get ev "changed_count" = Some (count_val 2).
Proof.
  intros cells h.
  apply (@CoerceDatetime_apply_spec ExampleHost.host h
           (ExampleHost.instance_of cells) (ExampleHost.array_of cells)
           (@Transformation.new ExampleHost.host 0 "coerce_datetime"
              ExampleHost.params_x false)
           (ExampleHost.locs_of cells) (ExampleHost.records_of cells)).
  - reflexivity.
  - split; [reflexivity|repeat constructor].
Defined.

(* ================================================================== *)
(** ** FillMissing: the fill value and a second call *)
(* ================================================================== *)

Lemma fill_leaves_no_blank {host : Host} (column : string) (fillValue : jsval)
    (rs : list record) :
  blank fillValue = false ->
  Forall (fun r => blank (prop_get r column) = false)
         (map (fun r => if blank (prop_get r column)
                        then prop_set r column fillValue else r) rs).
Proof.
  intro Hf. apply Forall_forall. intros r' Hin.
  apply in_map_iff in Hin. destruct Hin as [r [<- _]].
  destruct (blank (prop_get r column)) eqn:E; [|exact E].
  rewrite prop_get_set_same. exact Hf.
Qed.

Lemma fill_nothing {host : Host} (column : string) (fillValue : jsval)
    (rs : list record) :
  Forall (fun r => blank (prop_get r column) = false) rs ->
  map (fun r => if blank (prop_get r column)
                then prop_set r column fillValue else r) rs = rs.
Proof.
  induction 1 as [|r rs Hr _ IH]; simpl; [reflexivity|].
  rewrite Hr, IH. reflexivity.
Qed.

(** X4.  When the fill value is not itself null, undefined or the empty
    string, [FillMissing.apply] (strategy other than "mode") leaves no such
    cell in the column, and a second call on its result changes nothing:
    the same records, and [changed_count = 0]. *)
Theorem FillMissing_twice_changes_nothing {host : Host}
    (h : heap) (this records : loc) (t : Transformation.t)
    (ls : list loc) (rs : list record) :
  instance_at h this = Some (CFillMissing, t) ->
  holds h records ls rs ->
  let column := Params.column (Transformation.params t) in
  let strategy := default_to (Params.strategy (Transformation.params t)) (VStr "mean") in
  loose_eq_word strategy "mode" = false ->
  blank (fill_value strategy (Params.value (Transformation.params t))
           (cells_of column rs)) = false ->
  exists out1 ev1 h1 ls1 rs1 out2 ev2 h2 ls2,
    apply this records h = Normal (out1, ev1) h1 /\
    holds h1 out1 ls1 rs1 /\
    Forall (fun r => blank (prop_get r column) = false) rs1 /\
    apply this out1 h1 = Normal (out2, ev2) h2 /\
    holds h2 out2 ls2 rs1 /\
    ev_get ev2 "changed_count" = Some (EVal (VNum (Fin 0))).
Proof.
  intros Ht Hr column strategy Hmode Hfill.
  pose proof (FillMissing_apply_ok h this records t ls rs Ht Hr Hmode) as H1.
  fold column in H1. fold strategy in H1.
  rewrite fill_map in H1. simpl fst in H1. simpl snd in H1.
  set (fillValue := fill_value strategy (Params.value (Transformation.params t))
                      (cells_of column rs)) in *.
  set (rs1 := map (fun r => if blank (prop_get r column)
                            then prop_set r column fillValue else r) rs) in *.
  assert (Hnb : Forall (fun r => blank (prop_get r column) = false) rs1)
    by (apply fill_leaves_no_blank; exact Hfill).
  assert (Ht1 : instance_at (mapped_heap h rs1) this = Some (CFillMissing, t))
    by (apply instance_at_extends; exact Ht).
  pose proof (FillMissing_apply_ok _ this _ t _ rs1 Ht1 (mapped_holds h rs1) Hmode)
    as H2.
  fold column in H2. fold strategy in H2.
  rewrite fill_map in H2. simpl fst in H2. simpl snd in H2.
  rewrite (fill_nothing column _ rs1 Hnb) in H2.
  rewrite count_none in H2 by exact Hnb.
  do 9 eexists. split; [|split; [|split; [|split; [|split]]]].
  - rewrite (apply_dispatch _ _ _ _ _ Ht). exact H1.
  - apply mapped_holds.
  - exact Hnb.
  - rewrite (apply_dispatch _ _ _ _ _ Ht1). exact H2.
  - apply mapped_holds.
  - reflexivity.
Qed.

Lemma FillMissing_twice_changes_nothing_witness :
  let cells := ExampleHost.gap_cells in
  let p := ExampleHost.params_strategy (VStr "mean") VUndefined in
  let h := ExampleHost.heap_with (@FillMissing.new ExampleHost.host 0 p) cells in
  exists out1 ev1 h1 ls1 rs1 out2 ev2 h2 ls2,
    @apply ExampleHost.host (ExampleHost.instance_of cells)
           (ExampleHost.array_of cells) h = Normal (out1, ev1) h1 /\
    holds h1 out1 ls1 rs1 /\
    Forall (fun r => blank (prop_get r "x") = false) rs1 /\
    @apply ExampleHost.host (ExampleHost.instance_of cells) out1 h1
    = Normal (out2, ev2) h2 /\
    holds h2 out2 ls2 rs1 /\
    ev_get ev2 "changed_count" = Some (EVal (VNum (Fin 0))).
Proof.
  intros cells p h.
  apply (@FillMissing_twice_changes_nothing ExampleHost.host h
           (ExampleHost.instance_of cells) (ExampleHost.array_of cells)
           (@Transformation.new ExampleHost.host 0 "fill_missing" p false)
           (ExampleHost.locs_of cells) (ExampleHost.records_of cells)).
  - reflexivity.
  - split; [reflexivity|repeat constructor].
  - reflexivity.
  - reflexivity.
Defined.

Lemma median_index (n : nat) :
  index_of_num (Math_floor (num_div (num_of_nat n) (Fin 2))) = Some (n / 2).
Proof.
  unfold num_div, num_of_nat. simpl Qsign.
  change (Qsign 2) with Gt. cbv iota.
  unfold Math_floor, index_of_num.
  rewrite Qfloor_Z.
  replace (Qeq_bool _ _) with true
    by (symmetry; apply Qeq_bool_iff; reflexivity).
  replace (Qfloor (inject_Z (Z.of_nat n) / 2))
    with (Z.of_nat n * 1 / 2)%Z by reflexivity.
  rewrite Z.mul_1_r.
  replace (0 <=? Z.of_nat n / 2)%Z with true
    by (symmetry; apply Z.leb_le; apply Z.div_pos; lia).
  simpl. f_equal.
  change 2%Z with (Z.of_nat 2).
  rewrite <- Nat2Z.inj_div. apply Nat2Z.id.
Qed.

(** X5.  With the strategy "median" and at least one numeric value in the
    column, the fill value is one of these values: the element of index
    [floor(n / 2)] of their ascending sort, without interpolation. *)
Theorem FillMissing_median_is_a_value {host : Host}
    (h : heap) (this records : loc) (t : Transformation.t)
    (ls : list loc) (rs : list record) :
  instance_at h this = Some (CFillMissing, t) ->
  holds h records ls rs ->
  let column := Params.column (Transformation.params t) in
  let nums := FillMissing.numeric_values
                (filter (fun v => negb (blank v)) (cells_of column rs)) in
  Params.strategy (Transformation.params t) = VStr "median" ->
  0 < List.length nums ->
  exists m out ev h',
    apply this records h = Normal (out, ev) h' /\
    ev_get ev "filled_value" = Some (EVal (VNum m)) /\
    In m nums /\
    Sorted (fun a b => num_le a b = true) (Array_sort num_sub nums) /\
    nth_error (Array_sort num_sub nums) (List.length nums / 2) = Some m.
Proof.
  intros Ht Hr column nums Hs Hn.
  assert (Hmode : loose_eq_word
            (default_to (Params.strategy (Transformation.params t)) (VStr "mean"))
            "mode" = false) by (rewrite Hs; reflexivity).
  pose proof (FillMissing_apply_ok h this records t ls rs Ht Hr Hmode) as H1.
  fold column in H1. rewrite Hs in H1.
  unfold fill_value in H1. simpl loose_eq_word in H1. cbv iota in H1.
  fold nums in H1.
  assert (Hlen : List.length (Array_sort num_sub nums) = List.length nums)
    by apply Array_sort_length.
  rewrite Hlen in H1.
  replace (0 <? List.length nums) with true in H1
    by (symmetry; apply Nat.ltb_lt; exact Hn).
  unfold nums_at in H1. rewrite median_index in H1.
  assert (Hi : List.length nums / 2 < List.length (Array_sort num_sub nums)).
  { rewrite Hlen. apply Nat.div_lt; lia. }
  apply nth_error_Some in Hi.
  destruct (nth_error (Array_sort num_sub nums) (List.length nums / 2))
    as [m|] eqn:Em; [|congruence].
  assert (Hclean : Forall (fun y => num_isNaN y = false) nums).
  { apply Forall_forall. intros y Hy. apply filter_In in Hy.
    apply negb_true_iff. tauto. }
  exists m. do 3 eexists. split; [|split; [|split; [|split]]].
  - rewrite (apply_dispatch _ _ _ _ _ Ht). exact H1.
  - reflexivity.
  - apply (Permutation_in _ (Array_sort_perm num_sub nums)).
    eapply nth_error_In. exact Em.
  - apply Array_sort_sorted. exact Hclean.
  - reflexivity.
Qed.

Lemma FillMissing_median_is_a_value_witness :
  let cells := MoreExamples.median_cells in
  let p := ExampleHost.params_strategy (VStr "median") VUndefined in
  let h := ExampleHost.heap_with (@FillMissing.new ExampleHost.host 0 p) cells in
  let nums := @FillMissing.numeric_values ExampleHost.host
                (filter (fun v => negb (blank v)) cells) in
  exists m out ev h',
    @apply ExampleHost.host (ExampleHost.instance_of cells)
           (ExampleHost.array_of cells) h = Normal (out, ev) h' /\
    ev_get ev "filled_value" = Some (EVal (VNum m)) /\
    In m nums /\
    Sorted (fun a b => num_le a b = true) (Array_sort num_sub nums) /\
    nth_error (Array_sort num_sub nums) 1 = Some m.
Proof.
  intros cells p h nums.
  apply (@FillMissing_median_is_a_value ExampleHost.host h
           (ExampleHost.instance_of cells) (ExampleHost.array_of cells)
           (@Transformation.new ExampleHost.host 0 "fill_missing" p false)
           (ExampleHost.locs_of cells) (ExampleHost.records_of cells)).
  - reflexivity.
  - split; [reflexivity|repeat constructor].
  - reflexivity.
  - simpl. lia.
Defined.

(** X6.  With the strategy "mean" or "median" and no numeric value in the
    column, the fill value is null: every cell that is undefined or the
    empty string becomes null, and is counted as changed. *)
Theorem FillMissing_without_numbers_fills_null {host : Host}
    (h : heap) (this records : loc) (t : Transformation.t)
    (ls : list loc) (rs : list record) :
  instance_at h this = Some (CFillMissing, t) ->
  holds h records ls rs ->
  let column := Params.column (Transformation.params t) in
  let strategy := default_to (Params.strategy (Transformation.params t)) (VStr "mean") in
  loose_eq_word strategy "mean" = true \/ loose_eq_word strategy "median" = true ->
  FillMissing.numeric_values
    (filter (fun v => negb (blank v)) (cells_of column rs)) = [] ->
  exists out ev h' ls',
    apply this records h = Normal (out, ev) h' /\
    ev_get ev "filled_value" = Some (EVal VNull) /\
    holds h' out ls'
      (map (fun r => if blank (prop_get r column)
                     then prop_set r column VNull else r) rs) /\
    ev_get ev "changed_count"
    = Some (count_val (count (fun r => blank (prop_get r column)) rs)).
Proof.
  intros Ht Hr column strategy Hs Hn.
  assert (Hmode : loose_eq_word strategy "mode" = false).
  { destruct strategy as [| | | |s]; try (destruct Hs; discriminate).
    simpl in *. destruct Hs as [Hs|Hs]; apply String.eqb_eq in Hs; subst s;
      reflexivity. }
  pose proof (FillMissing_apply_ok h this records t ls rs Ht Hr Hmode) as H1.
  fold column in H1. fold strategy in H1.
  assert (Hfill : fill_value strategy (Params.value (Transformation.params t))
                    (cells_of column rs) = VNull).
  { unfold fill_value. rewrite Hn. simpl.
    destruct (loose_eq_word strategy "mean"); [reflexivity|].
    destruct Hs as [Hs|Hs]; [discriminate|]. rewrite Hs. reflexivity. }
  rewrite Hfill in H1.
  rewrite fill_map in H1. simpl fst in H1. simpl snd in H1.
  do 4 eexists. split; [|split; [|split]].
  - rewrite (apply_dispatch _ _ _ _ _ Ht). exact H1.
  - reflexivity.
  - apply mapped_holds.
  - reflexivity.
Qed.

Lemma FillMissing_without_numbers_fills_null_witness :
  let cells := MoreExamples.text_cells in
  let p := ExampleHost.params_strategy VUndefined VUndefined in
  let h := ExampleHost.heap_with (@FillMissing.new ExampleHost.host 0 p) cells in
  exists out ev h' ls',
    @apply ExampleHost.host (ExampleHost.instance_of cells)
           (ExampleHost.array_of cells) h = Normal (out, ev) h' /\
    ev_get ev "filled_value" = Some (EVal VNull) /\
    holds h' out ls' [[("x", VStr "a")]; [("x", VNull)]; [("x", VNull)]] /\
    ev_get ev "changed_count" = Some (count_val 2).
Proof.
  intros cells p h.
  apply (@FillMissing_without_numbers_fills_null ExampleHost.host h
           (ExampleHost.instance_of cells) (ExampleHost.array_of cells)
           (@Transformation.new ExampleHost.host 0 "fill_missing" p false)
           (ExampleHost.locs_of cells) (ExampleHost.records_of cells)).
  - reflexivity.
  - split; [reflexivity|repeat constructor].
  - left. reflexivity.
  - reflexivity.
Defined.

(* ================================================================== *)
(** ** ClipOutliersIQR, method by method *)
(* ================================================================== *)






Section ClipMaps.
Context {host : Host}.


End ClipMaps.

Lemma kept_locs_length (test : record -> bool) ls rs :
  List.length ls = List.length rs ->
  List.length (kept_locs test ls rs) = List.length (filter test rs).
Proof.
  unfold kept_locs. revert rs.
  induction ls as [|l ls IH]; intros [|r rs]; simpl; try discriminate; auto.
  intro H. destruct (test r); simpl; rewrite IH; auto.
Qed.










(* ================================================================== *)
(** ** The destructive flag and the record count *)
(* ================================================================== *)

Lemma remove_case_method {host : Host} (p : Params.t) (rs : list record) :
  clip_case_of p rs = Remove -> Params.method p = VStr "remove".
Proof.
  unfold clip_case_of, clip_method.
  destruct (List.length (clip_nums p rs) <? 5); [discriminate|].
  destruct (Params.method p) as [| |b|n|s]; simpl; try discriminate.
  destruct (String.eqb s "clip"); [discriminate|].
  destruct (String.eqb s "flag"); [discriminate|].
  destruct (String.eqb s "remove") eqn:E; [|discriminate].
  intros _. apply String.eqb_eq in E. congruence.
Qed.

(** X10.  A ClipOutliersIQR instance, applied to a list of records right
    after its construction, returns a list that is never longer than the
    input, and of the same length when its [destructive] flag is false. *)
Theorem ClipOutliersIQR_destructive_bounds_the_count {host : Host}
    (tick : nat) (params : Params.t) (h : heap) (records : loc)
    (ls : list loc) (rs : list record) :
  holds h records ls rs ->
  exists this h1 t out ev h' ls',
    ClipOutliersIQR.new tick params h = Normal this h1 /\
    instance_at h1 this = Some (CClipOutliersIQR, t) /\
    apply this records h1 = Normal (out, ev) h' /\
    elems_at h' out = Some ls' /\
    List.length ls' <= List.length ls /\
    (Transformation.destructive t = false -> List.length ls' = List.length ls).
Proof.
  intro Hr.
  set (t := Transformation.new tick "clip_outliers_iqr" params
              (strict_eq (Params.method params) (VStr "remove"))).
  set (h1 := h ++ [OInstance CClipOutliersIQR t]).
  assert (Ht : instance_at h1 (List.length h) = Some (CClipOutliersIQR, t)).
  { unfold instance_at, h1. rewrite nth_error_app_end. reflexivity. }
  assert (Hr1 : holds h1 records ls rs) by (apply holds_extends; exact Hr).
  pose proof (holds_length _ _ _ _ Hr) as Hlen.
  pose proof (ClipOutliersIQR_apply_ok h1 (List.length h) records t ls rs Ht Hr1)
    as H1.
  cbv zeta in H1.
  exists (List.length h), h1, t.
  rewrite (apply_dispatch _ _ _ _ _ Ht).
  destruct (clip_case_of (Transformation.params t) rs) eqn:Hcase.
  - do 4 eexists. split; [reflexivity|]. split; [exact Ht|].
    split; [exact H1|]. split; [exact (proj1 Hr1)|]. split; [lia|reflexivity].
  - do 4 eexists. split; [reflexivity|]. split; [exact Ht|].
    split; [exact H1|]. split; [apply mapped_holds|].
    rewrite length_seq, map_st_length. split; [lia|intros _; lia].
  - do 4 eexists. split; [reflexivity|]. split; [exact Ht|].
    split; [exact H1|]. split; [apply mapped_holds|].
    rewrite length_seq, map_st_length. split; [lia|intros _; lia].
  - do 4 eexists. split; [reflexivity|]. split; [exact Ht|].
    split; [exact H1|].
    split; [unfold elems_at; rewrite nth_error_app_end; reflexivity|].
    rewrite (kept_locs_length _ ls rs Hlen).
    pose proof (filter_length_le
                  (keep_test (Params.column (Transformation.params t))
                     (fst (clip_bounds (Transformation.params t) rs))
                     (snd (clip_bounds (Transformation.params t) rs))) rs) as Hf.
    split; [lia|].
    intro Hd. apply remove_case_method in Hcase.
    unfold t in Hd, Hcase. simpl in Hd, Hcase.
    rewrite Hcase in Hd. discriminate.
  - do 4 eexists. split; [reflexivity|]. split; [exact Ht|].
    split; [exact H1|]. split; [exact (proj1 Hr1)|]. split; [lia|reflexivity].
Qed.

Lemma ClipOutliersIQR_destructive_bounds_the_count_witness :
  let cells := MoreExamples.dirty_cells in
  let p := ExampleHost.params_method (VStr "remove") in
  exists this h1 t out ev h' ls',
    @ClipOutliersIQR.new ExampleHost.host 0 p (ExampleHost.heap_of cells)
    = Normal this h1 /\
    instance_at h1 this = Some (CClipOutliersIQR, t) /\
    @apply ExampleHost.host this (ExampleHost.array_of cells) h1
    = Normal (out, ev) h' /\
    elems_at h' out = Some ls' /\
    List.length ls' <= 7 /\
    (Transformation.destructive t = false -> List.length ls' = 7).
Proof.
  intros cells p.
  apply (@ClipOutliersIQR_destructive_bounds_the_count ExampleHost.host 0 p
           (ExampleHost.heap_of cells) (ExampleHost.array_of cells)
           (ExampleHost.locs_of cells) (ExampleHost.records_of cells)).
  split; [reflexivity|repeat constructor].
Defined.

(* ================================================================== *)
(** ** The bounds and the quartiles *)
(* ================================================================== *)





(* ================================================================== *)
(** ** FillMissing with another strategy *)
(* ================================================================== *)

(** X12.  A strategy that is none of the words "mean", "median" and
    "mode" (a word [FillMissing] does not know, or a value that is not a
    string) is handled as "constant": the cells that are null, undefined
    or the empty string are filled with [params.value], and the evidence
    names it as [filled_value]. *)
Theorem FillMissing_other_strategy_is_constant {host : Host}
    (h : heap) (this records : loc) (t : Transformation.t)
    (ls : list loc) (rs : list record) :
  instance_at h this = Some (CFillMissing, t) ->
  holds h records ls rs ->
  let p := Transformation.params t in
  let column := Params.column p in
  let strategy := default_to (Params.strategy p) (VStr "mean") in
  loose_eq_word strategy "mean" = false ->
  loose_eq_word strategy "median" = false ->
  loose_eq_word strategy "mode" = false ->
  exists out h' ls',
    apply this records h
    = Normal (out,
              [("before_records", EList (cells_of column (firstn 5 rs)));
               ("changed_count",
                count_val (count (fun r => blank (prop_get r column)) rs));
               ("filled_value", EVal (Params.value p))]) h' /\
    holds h' out ls'
      (map (fun r => if blank (prop_get r column)
                     then prop_set r column (Params.value p) else r) rs).
Proof.
  intros Ht Hr p column strategy Hmean Hmedian Hmode.
  pose proof (FillMissing_apply_ok h this records t ls rs Ht Hr Hmode) as H1.
  fold p in H1. fold column in H1. fold strategy in H1.
  unfold fill_value in H1. rewrite Hmean, Hmedian in H1.
  rewrite fill_map in H1. simpl fst in H1. simpl snd in H1.
  do 3 eexists. split.
  - rewrite (apply_dispatch _ _ _ _ _ Ht). exact H1.
  - apply mapped_holds.
Qed.

Lemma FillMissing_other_strategy_is_constant_witness :
  let cells := ExampleHost.null_cells in
  let p := ExampleHost.params_strategy (VStr "constant") (ExampleHost.int 7) in
  let h := ExampleHost.heap_with (@FillMissing.new ExampleHost.host 0 p) cells in
  exists out h' ls',
    @apply ExampleHost.host (ExampleHost.instance_of cells)
           (ExampleHost.array_of cells) h
    = Normal (out,
              [("before_records", EList cells);
               ("changed_count", count_val 1);
               ("filled_value", EVal (ExampleHost.int 7))]) h' /\
    holds h' out ls' [[("x", ExampleHost.int 7)]; [("x", ExampleHost.int 3)]].
Proof.
  intros cells p h.
  apply (@FillMissing_other_strategy_is_constant ExampleHost.host h
           (ExampleHost.instance_of cells) (ExampleHost.array_of cells)
           (@Transformation.new ExampleHost.host 0 "fill_missing" p false)
           (ExampleHost.locs_of cells) (ExampleHost.records_of cells)).
  - reflexivity.
  - split; [reflexivity|repeat constructor].
  - reflexivity.
  - reflexivity.
  - reflexivity.
Defined.

(* ================================================================== *)
(** ** The issues of the revised Analyzer *)
(* ================================================================== *)

Lemma fold_left_inv {A S : Type} (P : S -> Prop) (f : S -> A -> S) (l : list A) :
  (forall s x, In x l -> P s -> P (f s x)) ->
  forall s, P s -> P (fold_left f l s).
Proof.
  induction l as [|x l IH]; intros Hf s Hs; simpl; [exact Hs|].
  apply IH.
  - intros s0 y Hy. apply Hf. right. exact Hy.
  - apply Hf; [left; reflexivity|exact Hs].
Qed.

Lemma In_firstn {A : Type} (n : nat) (l : list A) (x : A) :
  In x (firstn n l) -> In x l.
Proof.
  revert l. induction n as [|n IH]; intros [|y l] H; simpl in *; try tauto.
  destruct H as [H|H]; [left; exact H|right; apply IH; exact H].
Qed.

Lemma indexed_In {A : Type} (l : list A) (i : nat) (v : A) :
  In (i, v) (indexed l) <-> nth_error l i = Some v.
Proof.
  unfold indexed. rewrite in_combine_seq. rewrite Nat.sub_0_r.
  split; [tauto|]. intro H. split; [lia|exact H].
Qed.

Lemma indexed_lt {A : Type} (l : list A) (i : nat) (v : A) :
  In (i, v) (indexed l) -> i < List.length l.
Proof.
  intro H. apply indexed_In in H. apply nth_error_Some. congruence.
Qed.

Lemma rows_below (n : nat) (rows : list nat) :
  Forall (fun r => r < n) rows ->
  forallb (fun r => r <? n) rows = true.
Proof.
  intro H. apply forallb_forall. intros r Hr. apply Nat.ltb_lt.
  revert r Hr. apply Forall_forall. exact H.
Qed.

Lemma includes_In (l : list string) (s : string) :
  includes l s = true <-> In s l.
Proof.
  unfold includes. rewrite existsb_exists. split.
  - intros [x [Hx E]]. apply String.eqb_eq in E. subst. exact Hx.
  - intro H. exists s. split; [exact H|apply String.eqb_refl].
Qed.

Section WellFormed.
Context {host : Host}.

Lemma push_wf (d : DataFrame.t) (this : Analyzer.t)
    (scope : string) (column : option string) (rows : list nat)
    (issue_type severity : string) (score : num) (ev : evidence)
    (suggestedFix : option string) :
  wf_inv d this ->
  List.length rows <= 10 ->
  Forall (fun r => r < DataFrame.nrows d) rows ->
  includes issue_types issue_type = true ->
  includes ["low"; "medium"; "high"] severity = true ->
  match column with
  | Some c => scope = "column" /\ In c (DataFrame.columns d)
  | None => (scope = "row" /\ List.length rows = 1) \/ scope = "dataset"
  end ->
  wf_inv d (Analyzer.push this
              (issue scope column rows issue_type severity score ev suggestedFix)).
Proof.
  intros [Hok Hdf] Hlen Hrows Htype Hsev Hscope. split; [|exact Hdf].
  unfold Analyzer.push. simpl.
  apply Forall_app. split; [exact Hok|].
  constructor; [|constructor].
  unfold well_formed, issue.
  cbn [Issue.rows Issue.issue_type Issue.severity Issue.column Issue.scope].
  rewrite (rows_below _ _ Hrows), Htype, Hsev.
  replace (List.length rows <=? 10) with true
    by (symmetry; apply Nat.leb_le; exact Hlen).
  destruct column as [c|].
  - destruct Hscope as [-> Hc]. apply includes_In in Hc. rewrite Hc. reflexivity.
  - destruct Hscope as [[-> H1]| ->]; [|reflexivity].
    rewrite H1. reflexivity.
Qed.

Lemma series_rows (d : DataFrame.t) (col : string) (i : nat) (v : jsval) :
  In (i, v) (indexed (Analyzer._seriesValues (DataFrame.series d col))) ->
  i < DataFrame.nrows d.
Proof.
  intro H. apply indexed_lt in H.
  pose proof (series_length d col). lia.
Qed.

Lemma detectMissing_wf (d : DataFrame.t) (this : Analyzer.t) :
  wf_inv d this -> wf_inv d (Analyzer.detectMissing this).
Proof.
  intro H. unfold Analyzer.detectMissing. cbv zeta.
  match goal with
  | |- wf_inv d (fold_left _ (indexed (DataFrame.values (Analyzer.df ?a))) ?a) =>
      assert (H1 : wf_inv d a)
  end.
  { rewrite (proj2 H).
    apply (fold_left_inv (wf_inv d)); [|exact H].
    intros this0 col Hcol H0. rewrite (proj2 H0).
    set (s := Analyzer._seriesValues (DataFrame.series d col)).
    assert (Hacc : (fun '(_, idx) =>
                      List.length idx <= 5 /\
                      Forall (fun r => r < DataFrame.nrows d) idx)
                   (fold_left (fun '(missingCount, missingRowIdx) '(i, v) =>
                      if Analyzer.isMissing v then
                        (missingCount + 1,
                         if List.length missingRowIdx <? 5 then missingRowIdx ++ [i]
                         else missingRowIdx)
                      else (missingCount, missingRowIdx)) (indexed s) (0, []))).
    { apply fold_left_inv.
      - intros [c idx] [i v] Hin [Hl Hr].
        destruct (Analyzer.isMissing v); [|split; assumption].
        destruct (List.length idx <? 5) eqn:E; [|split; assumption].
        apply Nat.ltb_lt in E. rewrite length_app. simpl. split; [lia|].
        apply Forall_app. split; [exact Hr|].
        constructor; [|constructor]. apply (series_rows d col i v). exact Hin.
      - split; [simpl; lia|constructor]. }
    destruct (fold_left _ (indexed s) (0, [])) as [missingCount missingRowIdx].
    destruct Hacc as [Hl Hr].
    destruct (num_ge _ CONFIG.col_missing_threshold); [|exact H0].
    apply push_wf; try assumption; try reflexivity; try lia.
    + destruct (num_gt _ _); reflexivity.
    + split; [reflexivity|exact Hcol]. }
  rewrite (proj2 H1).
  apply (fold_left_inv (wf_inv d)); [|exact H1].
  intros this0 [i rowValues] Hin H0.
  destruct (num_ge _ CONFIG.row_missing_threshold); [|exact H0].
  apply push_wf; try assumption; try reflexivity; simpl; try lia.
  - constructor; [|constructor]. apply indexed_lt in Hin. exact Hin.
  - left. split; reflexivity.
Qed.

Lemma detectDuplicatesAndPK_wf (d : DataFrame.t) (this : Analyzer.t) :
  wf_inv d this -> wf_inv d (Analyzer.detectDuplicatesAndPK this).
Proof.
  intro H. unfold Analyzer.detectDuplicatesAndPK.
  assert (Hacc : (fun '(_, duplicates) =>
                    Forall (fun r => r < DataFrame.nrows d) duplicates)
                 (fold_left (fun '(seen, duplicates) '(i, row) =>
                    let key := JSON_stringify row in
                    if includes seen key then (seen, duplicates ++ [i])
                    else (seen ++ [key], duplicates))
                    (indexed (DataFrame.values (Analyzer.df this))) ([], []))).
  { apply fold_left_inv; [|constructor].
    intros [seen dups] [i row] Hin Hr. cbv zeta.
    destruct (includes seen (JSON_stringify row)); [|exact Hr].
    apply Forall_app. split; [exact Hr|].
    constructor; [|constructor]. apply indexed_lt in Hin.
    rewrite (proj2 H) in Hin. exact Hin. }
  destruct (fold_left _ (indexed (DataFrame.values (Analyzer.df this))) ([], []))
    as [seen duplicates].
  assert (H1 : wf_inv d
           (if 0 <? List.length duplicates
            then Analyzer.push this
                   (issue "dataset" None (firstn 10 duplicates) "exact_duplicates"
                      "high" (Fin (9#10))
                      [("count", count_val (List.length duplicates))]
                      (Some "drop_or_merge"))
            else this)).
  { destruct (0 <? List.length duplicates); [|exact H].
    apply push_wf; try assumption; try reflexivity.
    - apply firstn_le_length.
    - apply Forall_forall. intros r Hr. apply In_firstn in Hr.
      revert r Hr. apply Forall_forall. exact Hacc.
    - right. reflexivity. }
  rewrite (proj2 H1).
  apply (fold_left_inv (wf_inv d)); [|exact H1].
  intros this0 col Hcol H0. rewrite (proj2 H0).
  destruct (num_ge _ CONFIG.pk_uniqueness_threshold); [|exact H0].
  apply push_wf; try assumption; try reflexivity; simpl; try lia.
  - constructor.
  - split; [reflexivity|exact Hcol].
Qed.

Lemma detectOutliersIQR_wf (d : DataFrame.t) (this : Analyzer.t) (col : string) :
  In col (DataFrame.columns d) ->
  wf_inv d this -> wf_inv d (Analyzer.detectOutliersIQR this col).
Proof.
  intros Hcol H. unfold Analyzer.detectOutliersIQR.
  destruct (List.length _ <? 5); [exact H|].
  destruct (Analyzer.iqr_bounds _) as [lower upper].
  destruct (0 <? List.length (Analyzer.outliers_of _ lower upper)); [|exact H].
  apply push_wf; try assumption; try reflexivity.
  - rewrite length_map. apply firstn_le_length.
  - apply Forall_forall. intros r Hr. apply in_map_iff in Hr.
    destruct Hr as [[i v] [<- Hin]]. apply In_firstn in Hin.
    unfold Analyzer.outliers_of in Hin. rewrite outliers_fold_filter in Hin.
    simpl in Hin. apply filter_In in Hin. destruct Hin as [Hin _].
    rewrite (proj2 H) in Hin. apply (series_rows d col i v). exact Hin.
  - split; [reflexivity|exact Hcol].
Qed.

Lemma runOutliers_wf (d : DataFrame.t) (this : Analyzer.t) :
  wf_inv d this -> wf_inv d (Analyzer.runOutliers this).
Proof.
  intro H. unfold Analyzer.runOutliers. rewrite (proj2 H).
  apply (fold_left_inv (wf_inv d)); [|exact H].
  intros this0 col Hcol H0.
  destruct (Analyzer.inferColumnType _); try exact H0.
  apply detectOutliersIQR_wf; assumption.
Qed.

Lemma detectDateParsing_wf (d : DataFrame.t) (this : Analyzer.t) :
  wf_inv d this -> wf_inv d (Analyzer.detectDateParsing this).
Proof.
  intro H. unfold Analyzer.detectDateParsing. rewrite (proj2 H).
  apply (fold_left_inv (wf_inv d)); [|exact H].
  intros this0 col Hcol H0.
  destruct (Analyzer.inferColumnType _); try exact H0.
  destruct (fold_left _ _ (0, 0)) as [failures total].
  destruct (num_gt _ (Fin (1 # 10))); [|exact H0].
  apply push_wf;
    [exact H0|simpl; lia|constructor|reflexivity| |split; [reflexivity|exact Hcol]].
  destruct (num_gt _ (Fin (5 # 10))); reflexivity.
Qed.

Lemma detectCategoricalInconsistency_wf (d : DataFrame.t) (this : Analyzer.t) :
  wf_inv d this -> wf_inv d (Analyzer.detectCategoricalInconsistency this).
Proof.
  intro H. unfold Analyzer.detectCategoricalInconsistency. rewrite (proj2 H).
  apply (fold_left_inv (wf_inv d)); [|exact H].
  intros this0 col Hcol H0.
  destruct (Analyzer.inferColumnType _); try exact H0.
  destruct (500 <? _); [exact H0|].
  destruct (0 <? _); [|exact H0].
  apply push_wf; try assumption; try reflexivity; simpl; try lia.
  - constructor.
  - split; [reflexivity|exact Hcol].
Qed.

Lemma detectSuspiciousText_wf (d : DataFrame.t) (this : Analyzer.t) :
  wf_inv d this -> wf_inv d (Analyzer.detectSuspiciousText this).
Proof.
  intro H. unfold Analyzer.detectSuspiciousText. rewrite (proj2 H).
  apply (fold_left_inv (wf_inv d)); [|exact H].
  intros this0 col Hcol H0. rewrite (proj2 H0).
  destruct (Analyzer.inferColumnType _); try exact H0.
  set (vals := Analyzer._seriesValues (DataFrame.series d col)).
  assert (Hacc : Forall (fun r => r < DataFrame.nrows d)
                   (fold_left (fun longRows '(i, v) =>
                      if 1000 <? String.length (to_String v) then longRows ++ [i]
                      else longRows) (indexed vals) [])).
  { apply (fold_left_inv (Forall (fun r => r < DataFrame.nrows d))); [|constructor].
    intros longRows [i v] Hin Hr.
    destruct (1000 <? String.length (to_String v)); [|exact Hr].
    apply Forall_app. split; [exact Hr|].
    constructor; [|constructor]. apply (series_rows d col i v). exact Hin. }
  destruct (0 <? _); [|exact H0].
  apply push_wf; try assumption; try reflexivity.
  - apply firstn_le_length.
  - apply Forall_forall. intros r Hr. apply In_firstn in Hr.
    revert r Hr. apply Forall_forall. exact Hacc.
  - split; [reflexivity|exact Hcol].
Qed.

(** X13.  After [runAll] on any data frame, every issue is well formed:
    it lists at most ten rows, each of them a row of the frame; its kind is
    one of the eight kinds and its severity is "low", "medium" or "high";
    and it has the scope "column" with a column of the frame, or the scope
    "row" with exactly one row and no column, or the scope "dataset" with
    no column. *)
Theorem runAll_issues_well_formed (df : DataFrame.t) :
  Forall (fun i => well_formed df i = true)
         (Analyzer.issues (snd (Analyzer.runAll (Analyzer.new df)))).
Proof.
  assert (Hstart : wf_inv df (Analyzer.new df))
    by (split; [constructor|reflexivity]).
  assert (H : wf_inv df (snd (Analyzer.runAll (Analyzer.new df)))).
  { unfold Analyzer.runAll. simpl snd.
    apply detectSuspiciousText_wf, detectCategoricalInconsistency_wf,
      detectDateParsing_wf, runOutliers_wf, detectDuplicatesAndPK_wf,
      detectMissing_wf.
    exact Hstart. }
  exact (proj1 H).
Qed.

(* ------------------------------------------------------------------ *)

Lemma push_same (prefix : list finding) (a b : Analyzer.t)
    (scope : string) (column : option string) (rows : list nat)
    (issue_type severity : string) (score : num) (ev : evidence)
    (suggestedFix : option string) :
  same_findings prefix a b ->
  same_findings prefix
    (Analyzer.push a (issue scope column rows issue_type severity score ev suggestedFix))
    (Analyzer.push b (issue scope column rows issue_type severity score ev suggestedFix)).
Proof.
  intros [Hdf Hc]. split; [exact Hdf|].
  unfold Analyzer.push. simpl. rewrite !map_app, Hc, app_assoc. reflexivity.
Qed.

Lemma fold_same {A : Type} (prefix : list finding)
    (f : Analyzer.t -> A -> Analyzer.t) (l : list A) :
  (forall a b x, same_findings prefix a b -> same_findings prefix (f a x) (f b x)) ->
  forall a b, same_findings prefix a b ->
              same_findings prefix (fold_left f l a) (fold_left f l b).
Proof.
  intro Hf. induction l as [|x l IH]; intros a b H; simpl; [exact H|].
  apply IH. apply Hf. exact H.
Qed.

Lemma detectMissing_same (prefix : list finding) (a b : Analyzer.t) :
  same_findings prefix a b ->
  same_findings prefix (Analyzer.detectMissing a) (Analyzer.detectMissing b).
Proof.
  intro H. unfold Analyzer.detectMissing. cbv zeta.
  match goal with
  | |- same_findings _
         (fold_left _ (indexed (DataFrame.values (Analyzer.df ?a1))) ?a1)
         (fold_left _ (indexed (DataFrame.values (Analyzer.df ?b1))) ?b1) =>
      assert (H1 : same_findings prefix a1 b1)
  end.
  { rewrite (proj1 H). apply fold_same; [|exact H].
    intros a0 b0 col H0. rewrite (proj1 H0).
    destruct (fold_left _ (indexed _) (0, [])) as [missingCount missingRowIdx].
    destruct (num_ge _ CONFIG.col_missing_threshold); [|exact H0].
    apply push_same. exact H0. }
  rewrite (proj1 H1). apply fold_same; [|exact H1].
  intros a0 b0 [i rowValues] H0.
  destruct (num_ge _ CONFIG.row_missing_threshold); [|exact H0].
  apply push_same. exact H0.
Qed.

Lemma detectDuplicatesAndPK_same (prefix : list finding) (a b : Analyzer.t) :
  same_findings prefix a b ->
  same_findings prefix (Analyzer.detectDuplicatesAndPK a)
                       (Analyzer.detectDuplicatesAndPK b).
Proof.
  intro H. unfold Analyzer.detectDuplicatesAndPK. rewrite (proj1 H).
  destruct (fold_left _ (indexed (DataFrame.values (Analyzer.df b))) ([], []))
    as [seen duplicates].
  assert (H1 : same_findings prefix
           (if 0 <? List.length duplicates
            then Analyzer.push a
                   (issue "dataset" None (firstn 10 duplicates) "exact_duplicates"
                      "high" (Fin (9#10))
                      [("count", count_val (List.length duplicates))]
                      (Some "drop_or_merge"))
            else a)
           (if 0 <? List.length duplicates
            then Analyzer.push b
                   (issue "dataset" None (firstn 10 duplicates) "exact_duplicates"
                      "high" (Fin (9#10))
                      [("count", count_val (List.length duplicates))]
                      (Some "drop_or_merge"))
            else b)).
  { destruct (0 <? List.length duplicates); [|exact H].
    apply push_same. exact H. }
  rewrite (proj1 H1). apply fold_same; [|exact H1].
  intros a0 b0 col H0. rewrite (proj1 H0).
  destruct (num_ge _ CONFIG.pk_uniqueness_threshold); [|exact H0].
  apply push_same. exact H0.
Qed.

Lemma runOutliers_same (prefix : list finding) (a b : Analyzer.t) :
  same_findings prefix a b ->
  same_findings prefix (Analyzer.runOutliers a) (Analyzer.runOutliers b).
Proof.
  intro H. unfold Analyzer.runOutliers. rewrite (proj1 H).
  apply fold_same; [|exact H].
  intros a0 b0 col H0. rewrite (proj1 H0).
  destruct (Analyzer.inferColumnType _); try exact H0.
  unfold Analyzer.detectOutliersIQR. rewrite (proj1 H0).
  destruct (List.length _ <? 5); [exact H0|].
  destruct (Analyzer.iqr_bounds _) as [lower upper].
  destruct (0 <? List.length (Analyzer.outliers_of _ lower upper)); [|exact H0].
  apply push_same. exact H0.
Qed.

Lemma detectDateParsing_same (prefix : list finding) (a b : Analyzer.t) :
  same_findings prefix a b ->
  same_findings prefix (Analyzer.detectDateParsing a) (Analyzer.detectDateParsing b).
Proof.
  intro H. unfold Analyzer.detectDateParsing. rewrite (proj1 H).
  apply fold_same; [|exact H].
  intros a0 b0 col H0. rewrite (proj1 H0).
  destruct (Analyzer.inferColumnType _); try exact H0.
  destruct (fold_left _ _ (0, 0)) as [failures total].
  destruct (num_gt _ (Fin (1 # 10))); [|exact H0].
  apply push_same. exact H0.
Qed.

Lemma detectCategoricalInconsistency_same (prefix : list finding)
    (a b : Analyzer.t) :
  same_findings prefix a b ->
  same_findings prefix (Analyzer.detectCategoricalInconsistency a)
                       (Analyzer.detectCategoricalInconsistency b).
Proof.
  intro H. unfold Analyzer.detectCategoricalInconsistency. rewrite (proj1 H).
  apply fold_same; [|exact H].
  intros a0 b0 col H0. rewrite (proj1 H0).
  destruct (Analyzer.inferColumnType _); try exact H0.
  destruct (500 <? _); [exact H0|].
  destruct (0 <? _); [|exact H0].
  apply push_same. exact H0.
Qed.

Lemma detectSuspiciousText_same (prefix : list finding) (a b : Analyzer.t) :
  same_findings prefix a b ->
  same_findings prefix (Analyzer.detectSuspiciousText a)
                       (Analyzer.detectSuspiciousText b).
Proof.
  intro H. unfold Analyzer.detectSuspiciousText. rewrite (proj1 H).
  apply fold_same; [|exact H].
  intros a0 b0 col H0. rewrite (proj1 H0).
  destruct (Analyzer.inferColumnType _); try exact H0.
  destruct (0 <? _); [|exact H0].
  apply push_same. exact H0.
Qed.

(** X14.  [runAll] never empties [this.issues]: run on an Analyzer that
    already holds issues, it returns the same schema as a run on a new
    Analyzer of the same data frame, leaves the data frame as it is, and
    its issues are the issues held before followed by the issues of that
    new run (identifiers and time stamps apart).  So a second [runAll] on
    the same Analyzer returns every issue of the first run twice. *)
Theorem runAll_appends_to_the_issues (this : Analyzer.t) :
  let again := Analyzer.runAll this in
  let first := Analyzer.runAll (Analyzer.new (Analyzer.df this)) in
  fst again = fst first /\
  Analyzer.df (snd again) = Analyzer.df this /\
  map content (Analyzer.issues (snd again))
  = map content (Analyzer.issues this) ++ map content (Analyzer.issues (snd first)).
Proof.
  intros again first.
  assert (Hstart : same_findings (map content (Analyzer.issues this))
                     this (Analyzer.new (Analyzer.df this))).
  { split; [reflexivity|]. simpl. rewrite app_nil_r. reflexivity. }
  assert (H : same_findings (map content (Analyzer.issues this))
                (snd again) (snd first)).
  { unfold again, first, Analyzer.runAll. simpl snd.
    apply detectSuspiciousText_same, detectCategoricalInconsistency_same,
      detectDateParsing_same, runOutliers_same, detectDuplicatesAndPK_same,
      detectMissing_same.
    exact Hstart. }
  split; [reflexivity|]. split; [|exact (proj2 H)].
  assert (Hnew : wf_inv (Analyzer.df this) (Analyzer.new (Analyzer.df this)))
    by (split; [constructor|reflexivity]).
  assert (Hdf : wf_inv (Analyzer.df this) (snd first)).
  { unfold first, Analyzer.runAll. simpl snd.
    apply detectSuspiciousText_wf, detectCategoricalInconsistency_wf,
      detectDateParsing_wf, runOutliers_wf, detectDuplicatesAndPK_wf,
      detectMissing_wf.
    exact Hnew. }
  rewrite (proj1 H). exact (proj2 Hdf).
Qed.
End WellFormed.

(* ================================================================== *)
(** ** What [detectMissing] and [detectDuplicatesAndPK] report *)
(* ================================================================== *)

Lemma ratio_ge_iff (a b : nat) (p : Z) (q : positive) :
  a <= b ->
  num_ge (num_div (num_of_nat a) (num_of_nat b)) (Fin (p # q)) = true
  <-> 0 < b /\ (p * Z.of_nat b <= Z.pos q * Z.of_nat a)%Z.
Proof.
  intro Hab. destruct b as [|b].
  - assert (a = 0) by lia. subst a. rewrite ratio_zero_zero.
    split; [discriminate|lia].
  - unfold num_div, num_of_nat.
    rewrite (Qsign_of_nat_pos (S b)) by lia.
    unfold num_ge, num_le. rewrite Qle_bool_iff.
    change (Z.of_nat (S b)) with (Z.pos (Pos.of_succ_nat b)).
    rewrite <- Qmake_Qdiv. unfold Qle. cbn [Qnum Qden].
    split; [intro H; split; [lia|]|intros [_ H]]; lia.
Qed.




Lemma in_content (x : Issue.t) (l : list Issue.t) :
  In x l -> In (content x) (map content l).
Proof. apply in_map. Qed.

Section Reports.
Context {host : Host}.

Lemma push_content (this : Analyzer.t)
    (scope : string) (column : option string) (rows : list nat)
    (issue_type severity : string) (score : num) (ev : evidence)
    (suggestedFix : option string) :
  map content
    (Analyzer.issues
       (Analyzer.push this
          (issue scope column rows issue_type severity score ev suggestedFix)))
  = map content (Analyzer.issues this) ++
    [(scope, column, rows, issue_type, severity, score, ev, suggestedFix)].
Proof. unfold Analyzer.push. simpl. rewrite map_app. reflexivity. Qed.

Lemma fold_findings {A : Type} (d : DataFrame.t)
    (f : Analyzer.t -> A -> Analyzer.t) (g : A -> list finding) (l : list A) :
  (forall this x, Analyzer.df this = d ->
     Analyzer.df (f this x) = d /\
     map content (Analyzer.issues (f this x))
     = map content (Analyzer.issues this) ++ g x) ->
  forall this, Analyzer.df this = d ->
    Analyzer.df (fold_left f l this) = d /\
    map content (Analyzer.issues (fold_left f l this))
    = map content (Analyzer.issues this) ++ flat_map g l.
Proof.
  intro Hf. induction l as [|x l IH]; intros this Hd; simpl.
  - rewrite app_nil_r. split; [exact Hd|reflexivity].
  - destruct (Hf this x Hd) as [Hd1 Hc1].
    destruct (IH _ Hd1) as [Hd2 Hc2].
    split; [exact Hd2|]. rewrite Hc2, Hc1, app_assoc. reflexivity.
Qed.






End Reports.

Lemma In_firstn_iff {A : Type} (n : nat) (l : list A) (x : A) :
  In x (firstn n l) <-> exists j, j < n /\ nth_error l j = Some x.
Proof.
  revert l. induction n as [|n IH]; intro l.
  - simpl. split; [tauto|]. intros [j [Hj _]]. lia.
  - destruct l as [|y l]; simpl.
    + split; [tauto|]. intros [j [_ Hj]]. destruct j; discriminate.
    + rewrite IH. split.
      * intros [->|[j [Hj Hn]]].
        -- exists 0. split; [lia|reflexivity].
        -- exists (S j). split; [lia|exact Hn].
      * intros [[|j] [Hj Hn]]; simpl in Hn.
        -- left. congruence.
        -- right. exists j. split; [lia|exact Hn].
Qed.

Lemma includes_app (l1 l2 : list string) (s : string) :
  includes (l1 ++ l2) s = includes l1 s || includes l2 s.
Proof. unfold includes. apply existsb_app. Qed.

Section DuplicateReports.
Context {host : Host}.

Lemma duplicates_fold_closed (rows : list (list jsval)) :
  forall (start : nat) (seen pre : list string) (dups : list nat),
  (forall k, includes seen k = includes pre k) ->
  snd (fold_left (fun '(seen, duplicates) '(i, row) =>
         let key := JSON_stringify row in
         if includes seen key then (seen, duplicates ++ [i])
         else (seen ++ [key], duplicates))
       (combine (seq start (List.length rows)) rows) (seen, dups))
  = dups ++
    filter (fun i =>
              includes (pre ++ firstn (i - start) (map JSON_stringify rows))
                       (nth (i - start) (map JSON_stringify rows) ""))
           (seq start (List.length rows)).
Proof.
  induction rows as [|row rows IH]; intros start seen pre dups Hseen.
  - simpl. rewrite app_nil_r. reflexivity.
  - cbv zeta in IH.
    cbn [List.length seq combine fold_left map filter].
    rewrite Nat.sub_diag. cbn [firstn nth]. rewrite app_nil_r.
    rewrite <- Hseen.
    match goal with
    | |- context [filter ?c (seq (S start) (List.length rows))] =>
        assert (Hext : filter c (seq (S start) (List.length rows))
                = filter (fun i =>
                    includes ((pre ++ [JSON_stringify row]) ++
                              firstn (i - S start) (map JSON_stringify rows))
                             (nth (i - S start) (map JSON_stringify rows) ""))
                    (seq (S start) (List.length rows)))
    end.
    { apply filter_ext_in. intros i Hi. apply in_seq in Hi.
      replace (i - start) with (S (i - S start)) by lia.
      cbn [firstn nth]. rewrite <- app_assoc. reflexivity. }
    rewrite Hext.
    destruct (includes seen (JSON_stringify row)) eqn:E.
    + rewrite (IH (S start) seen (pre ++ [JSON_stringify row]) (dups ++ [start])).
      * rewrite <- app_assoc. reflexivity.
      * intro k. rewrite includes_app, <- Hseen.
        unfold includes at 3. cbn [existsb]. rewrite orb_false_r.
        destruct (String.eqb k (JSON_stringify row)) eqn:Ek.
        -- apply String.eqb_eq in Ek. subst k. rewrite E. reflexivity.
        -- rewrite orb_false_r. reflexivity.
    + rewrite (IH (S start) (seen ++ [JSON_stringify row])
                 (pre ++ [JSON_stringify row]) dups).
      * reflexivity.
      * intro k. rewrite !includes_app, Hseen. reflexivity.
Qed.

(** [detectDuplicatesAndPK], part by part. *)
Lemma detectDuplicatesAndPK_findings (this : Analyzer.t) :
  map content (Analyzer.issues (Analyzer.detectDuplicatesAndPK this))
  = map content (Analyzer.issues this) ++
    exact_duplicates_finding (Analyzer.df this) ++
    flat_map (pk_candidate_finding (Analyzer.df this))
             (DataFrame.columns (Analyzer.df this)).
Proof.
  set (d := Analyzer.df this).
  unfold Analyzer.detectDuplicatesAndPK. fold d.
  pose proof (duplicates_fold_closed (DataFrame.values d) 0 [] [] []
                (fun k => eq_refl)) as Hdup.
  fold (indexed (DataFrame.values d)) in Hdup.
  destruct (fold_left _ (indexed (DataFrame.values d)) ([], []))
    as [seen duplicates].
  simpl in Hdup.
  assert (Hrep : duplicates
                 = repeated_rows (map JSON_stringify (DataFrame.values d))).
  { rewrite Hdup. unfold repeated_rows. rewrite length_map.
    apply filter_ext. intro i. rewrite Nat.sub_0_r. reflexivity. }
  clear Hdup.
  set (this1 := if 0 <? List.length duplicates
                then Analyzer.push this
                       (issue "dataset" None (firstn 10 duplicates)
                          "exact_duplicates" "high" (Fin (9#10))
                          [("count", count_val (List.length duplicates))]
                          (Some "drop_or_merge"))
                else this).
  assert (H1 : Analyzer.df this1 = d /\
               map content (Analyzer.issues this1)
               = map content (Analyzer.issues this) ++ exact_duplicates_finding d).
  { unfold this1, exact_duplicates_finding. rewrite <- Hrep.
    destruct (0 <? List.length duplicates).
    - split; [reflexivity|apply push_content].
    - split; [reflexivity|]. rewrite app_nil_r. reflexivity. }
  destruct H1 as [Hd1 Hc1]. rewrite Hd1.
  match goal with
  | |- context [fold_left ?f (DataFrame.columns d) this1] =>
      destruct (fold_findings d f (pk_candidate_finding d)
                  (DataFrame.columns d)) with (this := this1) as [Hd2 Hc2]
  end.
  { intros this0 col Hd0. rewrite Hd0. unfold pk_candidate_finding.
    destruct (num_ge _ CONFIG.pk_uniqueness_threshold).
    - split; [exact Hd0|]. apply push_content.
    - split; [exact Hd0|]. rewrite app_nil_r. reflexivity. }
  { exact Hd1. }
  rewrite Hc2, Hc1, app_assoc. reflexivity.
Qed.

Lemma repeated_rows_In (keys : list string) (i : nat) :
  In i (repeated_rows keys)
  <-> i < List.length keys /\ exists j, j < i /\ nth j keys "" = nth i keys "".
Proof.
  unfold repeated_rows. rewrite filter_In, in_seq, includes_In, In_firstn_iff.
  split.
  - intros [[_ Hi] [j [Hj Hn]]]. split; [simpl in Hi; exact Hi|].
    exists j. split; [exact Hj|]. apply nth_error_nth. exact Hn.
  - intros [Hi [j [Hj Hn]]]. split; [simpl; lia|].
    exists j. split; [exact Hj|]. rewrite <- Hn.
    apply nth_error_nth'. lia.
Qed.

(** X17.  [detectDuplicatesAndPK] reports exact duplicates exactly when
    two rows have the same JSON text.  The issue lists the first ten of the
    rows whose JSON text is that of an earlier row, and its evidence counts
    all of them: the first row of each group of equal rows is not
    counted. *)
Theorem exact_duplicates_reported_iff (df : DataFrame.t) :
  let keys := map JSON_stringify (DataFrame.values df) in
  let reported (x : Issue.t) :=
    In x (Analyzer.issues (Analyzer.detectDuplicatesAndPK (Analyzer.new df))) /\
    Issue.issue_type x = "exact_duplicates" in
  ((exists x, reported x)
   <-> exists i j, j < i /\ i < List.length keys /\ nth j keys "" = nth i keys "") /\
  (forall x, reported x ->
     Issue.rows x = firstn 10 (repeated_rows keys) /\
     Issue.evidence x = [("count", count_val (List.length (repeated_rows keys)))]) /\
  (forall i, In i (repeated_rows keys)
             <-> i < List.length keys /\
                 exists j, j < i /\ nth j keys "" = nth i keys "").
Proof.
  intros keys reported.
  pose proof (detectDuplicatesAndPK_findings (Analyzer.new df)) as Hc.
  simpl in Hc. fold keys in Hc.
  assert (Hfind : forall x, reported x ->
                            In (content x) (exact_duplicates_finding df)).
  { intros x [Hin Ht]. apply in_content in Hin. rewrite Hc in Hin.
    apply in_app_or in Hin. destruct Hin as [Hin|Hin]; [exact Hin|].
    apply in_flat_map in Hin. destruct Hin as [c [_ Hf]].
    unfold pk_candidate_finding in Hf.
    destruct (num_ge _ CONFIG.pk_uniqueness_threshold); [|destruct Hf].
    destruct Hf as [Hf|[]]. unfold content in Hf. rewrite Ht in Hf.
    discriminate. }
  split; [|split].
  - split.
    + intros [x Hx]. apply Hfind in Hx.
      unfold exact_duplicates_finding in Hx. fold keys in Hx.
      destruct (repeated_rows keys) as [|i rest] eqn:E; [destruct Hx|].
      assert (Hi : In i (repeated_rows keys)) by (rewrite E; left; reflexivity).
      apply repeated_rows_In in Hi. destruct Hi as [Hi [j [Hj Hn]]].
      exists i, j. auto.
    + intros [i [j [Hj [Hi Hn]]]].
      assert (Hin : In i (repeated_rows keys)).
      { apply repeated_rows_In. split; [exact Hi|]. exists j. auto. }
      assert (Hex : exists f, In f (exact_duplicates_finding df) /\
                              snd (fst (fst (fst (fst f)))) = "exact_duplicates").
      { unfold exact_duplicates_finding. fold keys.
        destruct (repeated_rows keys); [destruct Hin|].
        eexists. split; [left; reflexivity|reflexivity]. }
      destruct Hex as [f [Hf Ht]].
      assert (Hin' : In f (map content
                             (Analyzer.issues
                                (Analyzer.detectDuplicatesAndPK (Analyzer.new df))))).
      { rewrite Hc. apply in_or_app. left. exact Hf. }
      apply in_map_iff in Hin'. destruct Hin' as [x [Hx Hin']].
      exists x. split; [exact Hin'|]. subst f. exact Ht.
  - intros x Hx. apply Hfind in Hx.
    unfold exact_duplicates_finding in Hx. fold keys in Hx.
    destruct (0 <? List.length (repeated_rows keys)); [|destruct Hx].
    destruct Hx as [Hx|[]]. unfold content in Hx. split; congruence.
  - apply repeated_rows_In.
Qed.

End DuplicateReports.

(* ================================================================== *)
(** ** The inferred types and the schema *)
(* ================================================================== *)

Lemma filter_nil_iff {A : Type} (p : A -> bool) (l : list A) :
  filter p l = [] <-> Forall (fun v => p v = false) l.
Proof.
  induction l as [|x l IH]; simpl.
  - split; [constructor|reflexivity].
  - destruct (p x) eqn:E.
    + split; [discriminate|]. intro H. inversion H. congruence.
    + rewrite IH. split; [intro H; constructor; assumption|].
      intro H. inversion H. assumption.
Qed.

Lemma filter_all {A : Type} (p : A -> bool) (l : list A) :
  Forall (fun v => p v = true) l -> filter p l = l.
Proof.
  induction 1 as [|x l Hx Hl IH]; simpl; [reflexivity|].
  rewrite Hx, IH. reflexivity.
Qed.

Lemma filter_split_length {A : Type} (p : A -> bool) (l : list A) :
  List.length (filter p l) + List.length (filter (fun v => negb (p v)) l)
  = List.length l.
Proof.
  induction l as [|x l IH]; simpl; [reflexivity|].
  destruct (p x); simpl; lia.
Qed.

Lemma count_if_filter {A : Type} (p : A -> bool) (l : list A) :
  Analyzer.count_if p l = List.length (filter p l).
Proof.
  unfold Analyzer.count_if.
  assert (H : forall n, fold_left (fun n x => if p x then n + 1 else n) l n
                        = n + List.length (filter p l)).
  { induction l as [|x l IH]; intro n; simpl; [lia|].
    rewrite IH. destruct (p x); simpl; lia. }
  apply (H 0).
Qed.

Lemma digit_not_sign (c : ascii) :
  is_digit c = true -> (Ascii.eqb c "-" || Ascii.eqb c "+")%char = false.
Proof.
  intro H. apply orb_false_iff.
  split; apply Ascii.eqb_neq; intro E; subst c; discriminate H.
Qed.

Lemma span_digits_all (s : string) :
  all_digits s = true -> span_digits s = (s, EmptyString).
Proof.
  induction s as [|c s IH]; simpl; [reflexivity|].
  intro H. apply andb_prop in H. destruct H as [Hc Hs].
  rewrite Hc, (IH Hs). reflexivity.
Qed.

(** A plain year matches the pattern of the numbers. *)
Lemma plain_year_is_number (s : string) :
  isPlainYear s = true -> isStrictNumber s = true.
Proof.
  unfold isPlainYear, isStrictNumber. intro H.
  apply andb_prop in H. destruct H as [Hd Hl].
  destruct s as [|c s]; [discriminate Hl|].
  assert (Hc : is_digit c = true)
    by (simpl in Hd; apply andb_prop in Hd; tauto).
  rewrite (digit_not_sign c Hc), (span_digits_all _ Hd). reflexivity.
Qed.

Lemma distinct_fold_grows (l seen : list string) :
  List.length seen
  <= List.length
       (fold_left (fun seen x => if includes seen x then seen else seen ++ [x])
                  l seen).
Proof.
  revert seen. induction l as [|x l IH]; intro seen; simpl; [lia|].
  destruct (includes seen x).
  - apply IH.
  - etransitivity; [|apply IH]. rewrite length_app. simpl. lia.
Qed.

Lemma distinct_none_iff (l : list string) :
  List.length (distinct l) = 0 <-> l = [].
Proof.
  split; [|intros ->; reflexivity].
  destruct l as [|x l]; [reflexivity|].
  unfold distinct. simpl. intro H.
  pose proof (distinct_fold_grows l [x]) as Hg. simpl in Hg. lia.
Qed.

Section Types.
Context {host : Host}.

Lemma inferColumnType_empty_iff (series : option (list jsval)) :
  Analyzer.inferColumnType series = TEmpty
  <-> filter Analyzer.present (Analyzer._seriesValues series) = [].
Proof.
  unfold Analyzer.inferColumnType. cbv zeta.
  destruct (filter Analyzer.present (Analyzer._seriesValues series)) as [|x vals].
  - split; reflexivity.
  - replace (List.length (x :: vals) =? 0) with false by reflexivity.
    destruct (_ && _); [split; discriminate|].
    destruct (_ && _); split; discriminate.
Qed.


(** X20.  A column whose cells, the empty ones apart, are plain years
    (four digits or more, as "2024") has the type "numeric", never
    "datetime", whatever [Date.parse] makes of them. *)
Theorem inferColumnType_plain_years_numeric (vs : list jsval) :
  forallb (fun v => negb (Analyzer.present v) ||
                    isPlainYear (trim (to_String v))) vs = true ->
  existsb Analyzer.present vs = true ->
  Analyzer.inferColumnType (Some vs) = TNumeric.
Proof.
  intros Hall Hex.
  unfold Analyzer.inferColumnType, Analyzer._seriesValues. cbv zeta.
  set (P := filter Analyzer.present vs).
  set (sample := map (fun v => trim (to_String v)) (firstn 300 P)).
  assert (Hyears : Forall (fun s => isPlainYear s = true) sample).
  { apply Forall_forall. intros s Hs. unfold sample in Hs.
    apply in_map_iff in Hs. destruct Hs as [v [<- Hv]].
    apply In_firstn in Hv. unfold P in Hv. apply filter_In in Hv.
    destruct Hv as [Hin Hp].
    pose proof (proj1 (forallb_forall _ _) Hall v Hin) as Hv.
    cbv beta in Hv. rewrite Hp in Hv. exact Hv. }
  assert (HP : 0 < List.length P).
  { apply existsb_exists in Hex. destruct Hex as [v [Hin Hp]].
    assert (Hv : In v P) by (apply filter_In; split; assumption).
    destruct P; [destruct Hv|simpl; lia]. }
  assert (Hs : 0 < List.length sample).
  { unfold sample. rewrite length_map.
    destruct P as [|x P']; [simpl in HP; lia|].
    rewrite (firstn_cons 299 x P'). simpl. lia. }
  replace (List.length P =? 0) with false
    by (symmetry; apply Nat.eqb_neq; lia).
  rewrite !count_if_filter.
  assert (Hdates : filter Analyzer.isValidDate sample = []).
  { apply filter_nil_iff. eapply Forall_impl; [|exact Hyears].
    intros s Hy. unfold Analyzer.isValidDate. rewrite Hy. reflexivity. }
  assert (Hnums : filter isStrictNumber sample = sample).
  { apply filter_all. eapply Forall_impl; [|exact Hyears].
    apply plain_year_is_number. }
  rewrite Hdates, Hnums.
  replace (0 <? List.length sample) with true
    by (symmetry; apply Nat.ltb_lt; exact Hs).
  assert (H0 : num_ge (num_div (num_of_nat (List.length (@nil string)))
                               (num_of_nat (List.length sample)))
                      (Fin (9 # 10)) = false).
  { apply not_true_iff_false. rewrite ratio_ge_iff by (simpl; lia).
    simpl List.length. lia. }
  assert (H1 : num_ge (num_div (num_of_nat (List.length sample))
                               (num_of_nat (List.length sample)))
                      (Fin (9 # 10)) = true).
  { apply ratio_ge_iff; [lia|]. lia. }
  rewrite H0, H1. reflexivity.
Qed.

(** X21.  [inferSchema] has a profile for every column of the frame, and
    in every profile: the missing cells and the distinct values together
    are at most the rows of the frame; the missing fraction is between 0
    and 1; there are at most five examples, none of them an empty cell;
    and the type is "empty" exactly when [nunique] is 0. *)
Theorem inferSchema_profiles (this : Analyzer.t) :
  (forall col, In col (DataFrame.columns (Analyzer.df this)) ->
               exists p, In (col, p) (Analyzer.inferSchema this)) /\
  (forall col p, In (col, p) (Analyzer.inferSchema this) ->
     In col (DataFrame.columns (Analyzer.df this)) /\
     Analyzer.missing_count p + Analyzer.nunique p
     <= DataFrame.nrows (Analyzer.df this) /\
     unit_score (Analyzer.missing_pct p) = true /\
     List.length (Analyzer.example p) <= 5 /\
     Forall (fun v => Analyzer.present v = true) (Analyzer.example p) /\
     (Analyzer.inferred_type p = TEmpty <-> Analyzer.nunique p = 0)).
Proof.
  split.
  - intros col Hcol. unfold Analyzer.inferSchema.
    eexists. apply in_map_iff. exists col. split; [reflexivity|exact Hcol].
  - intros col p Hin. unfold Analyzer.inferSchema in Hin.
    apply in_map_iff in Hin. destruct Hin as [c [E Hc]].
    cbv zeta in E.
    pose proof (f_equal fst E) as E1. pose proof (f_equal snd E) as E2.
    cbn [fst snd] in E1, E2. subst c p. clear E.
    cbn [Analyzer.missing_count Analyzer.nunique Analyzer.missing_pct
         Analyzer.example Analyzer.inferred_type].
    set (arr := Analyzer._seriesValues
                  (DataFrame.series (Analyzer.df this) col)).
    pose proof (filter_split_length Analyzer.present arr) as Hsplit.
    pose proof (series_length (Analyzer.df this) col) as Hlen. fold arr in Hlen.
    pose proof (distinct_length
                  (map to_String (filter Analyzer.present arr))) as Hd.
    rewrite length_map in Hd.
    split; [exact Hc|]. split; [lia|]. split; [|split; [|split]].
    + destruct (List.length arr =? 0) eqn:E; [reflexivity|].
      apply Nat.eqb_neq in E. apply ratio_unit; lia.
    + apply firstn_le_length.
    + apply Forall_forall. intros v Hv. apply In_firstn in Hv.
      apply filter_In in Hv. tauto.
    + rewrite inferColumnType_empty_iff. fold arr.
      rewrite distinct_none_iff. split.
      * intros ->. reflexivity.
      * intro H. apply map_eq_nil in H. exact H.
Qed.

(* ------------------------------------------------------------------ *)

(** X22.  The clustering pass over the distinct values of a column:
    every cluster has at least two members, every cluster is the list of
    the hits of the search for one of the values that score below
    [1 - categorical_fuzzy_ratio], and there are at most as many clusters
    as values. *)
Theorem cluster_pass_clusters (uniques : list string) :
  let close (u : string) :=
    map fst (filter (fun m => num_lt (snd m)
                                (num_sub (Fin 1) CONFIG.categorical_fuzzy_ratio))
                    (Fuse_search uniques u)) in
  let clusters := fst (Analyzer.cluster_pass uniques) in
  Forall (fun g => 2 <= List.length g /\
                   exists u, In u uniques /\ g = close u) clusters /\
  List.length clusters <= List.length uniques.
Proof.
  intros close clusters. unfold clusters, Analyzer.cluster_pass.
  split.
  - apply (fold_left_inv
             (fun s : list (list string) * list string =>
                Forall (fun g => 2 <= List.length g /\
                                 exists u, In u uniques /\ g = close u) (fst s)));
      [|constructor].
    intros [cs used] u Hu Hcs. simpl fst in Hcs.
    destruct (includes used u); [exact Hcs|].
    cbv zeta. simpl fst.
    match goal with
    | |- Forall _ (if ?b then _ else _) => destruct b eqn:E
    end; [|exact Hcs].
    apply Nat.ltb_lt in E.
    apply Forall_app. split; [exact Hcs|].
    constructor; [|constructor]. split; [lia|].
    exists u. split; [exact Hu|reflexivity].
  - assert (H : forall l cs used,
               List.length
                 (fst (fold_left (fun '(clusters, used) u =>
                    if includes used u then (clusters, used)
                    else
                      let matches :=
                        filter (fun m => num_lt (snd m)
                                           (num_sub (Fin 1)
                                              CONFIG.categorical_fuzzy_ratio))
                               (Fuse_search uniques u) in
                      let group := map fst matches in
                      let used := fold_left (fun used g =>
                                    if includes used g then used
                                    else used ++ [g]) group used in
                      (if 1 <? List.length group then clusters ++ [group]
                       else clusters, used)) l (cs, used)))
               <= List.length cs + List.length l).
    { induction l as [|u l IH]; intros cs used; simpl fold_left; [simpl; lia|].
      destruct (includes used u).
      - etransitivity; [apply IH|]. simpl. lia.
      - cbv zeta. etransitivity; [apply IH|].
        destruct (1 <? _); [rewrite length_app|]; simpl; lia. }
    apply (H uniques [] []).
Qed.
End Types.

Lemma inferColumnType_plain_years_numeric_witness :
  @Analyzer.inferColumnType ExampleHost.host
    (Some [VStr "2024"; VNull; VStr " 1999 "; VStr ""]) = TNumeric.
Proof.
  apply (@inferColumnType_plain_years_numeric ExampleHost.host
           [VStr "2024"; VNull; VStr " 1999 "; VStr ""]).
  - reflexivity.
  - reflexivity.
Defined.

(* ------------------------------------------------------------------ *)


(* ================================================================== *)
(** ** The kinds of issue and the inferred types *)
(* ================================================================== *)

Section Kinds.
Context {host : Host}.

Lemma push_typed (d : DataFrame.t) (this : Analyzer.t)
    (scope : string) (column : option string) (rows : list nat)
    (issue_type severity : string) (score : num) (ev : evidence)
    (suggestedFix : option string) :
  typed_inv d this ->
  match column with
  | Some c =>
      kind_fits (Analyzer.inferColumnType (DataFrame.series d c)) issue_type
  | None => includes ["row_sparsity"; "exact_duplicates"] issue_type
  end = true ->
  typed_inv d (Analyzer.push this
                 (issue scope column rows issue_type severity score ev suggestedFix)).
Proof.
  intros [Hok Hdf] Hfit. split; [|exact Hdf].
  unfold Analyzer.push. simpl.
  apply Forall_app. split; [exact Hok|].
  constructor; [exact Hfit|constructor].
Qed.

Lemma detectMissing_typed (d : DataFrame.t) (this : Analyzer.t) :
  typed_inv d this -> typed_inv d (Analyzer.detectMissing this).
Proof.
  intro H. unfold Analyzer.detectMissing. cbv zeta.
  apply (fold_left_inv (typed_inv d)).
  - intros this0 [i rowValues] _ H0.
    destruct (num_ge _ CONFIG.row_missing_threshold); [|exact H0].
    apply push_typed; [exact H0|reflexivity].
  - apply (fold_left_inv (typed_inv d)); [|exact H].
    intros this0 col _ H0.
    destruct (fold_left _ (indexed _) (0, [])) as [missingCount missingRowIdx].
    destruct (num_ge _ CONFIG.col_missing_threshold); [|exact H0].
    apply push_typed; [exact H0|reflexivity].
Qed.

Lemma detectDuplicatesAndPK_typed (d : DataFrame.t) (this : Analyzer.t) :
  typed_inv d this -> typed_inv d (Analyzer.detectDuplicatesAndPK this).
Proof.
  intro H. unfold Analyzer.detectDuplicatesAndPK.
  destruct (fold_left _ (indexed (DataFrame.values (Analyzer.df this))) ([], []))
    as [seen duplicates].
  apply (fold_left_inv (typed_inv d)).
  - intros this0 col _ H0.
    destruct (num_ge _ CONFIG.pk_uniqueness_threshold); [|exact H0].
    apply push_typed; [exact H0|reflexivity].
  - destruct (0 <? List.length duplicates); [|exact H].
    apply push_typed; [exact H|reflexivity].
Qed.

Lemma runOutliers_typed (d : DataFrame.t) (this : Analyzer.t) :
  typed_inv d this -> typed_inv d (Analyzer.runOutliers this).
Proof.
  intro H. unfold Analyzer.runOutliers.
  apply (fold_left_inv (typed_inv d)); [|exact H].
  intros this0 col _ H0. rewrite (proj2 H0).
  destruct (Analyzer.inferColumnType (DataFrame.series d col)) eqn:Et;
    try exact H0.
  unfold Analyzer.detectOutliersIQR.
  destruct (List.length _ <? 5); [exact H0|].
  destruct (Analyzer.iqr_bounds _) as [lower upper].
  destruct (0 <? List.length (Analyzer.outliers_of _ lower upper)); [|exact H0].
  apply push_typed; [exact H0|]. rewrite Et. reflexivity.
Qed.

Lemma detectDateParsing_typed (d : DataFrame.t) (this : Analyzer.t) :
  typed_inv d this -> typed_inv d (Analyzer.detectDateParsing this).
Proof.
  intro H. unfold Analyzer.detectDateParsing.
  apply (fold_left_inv (typed_inv d)); [|exact H].
  intros this0 col _ H0. rewrite (proj2 H0).
  destruct (Analyzer.inferColumnType (DataFrame.series d col)) eqn:Et;
    try exact H0.
  destruct (fold_left _ _ (0, 0)) as [failures total].
  destruct (num_gt _ (Fin (1 # 10))); [|exact H0].
  apply push_typed; [exact H0|]. rewrite Et. reflexivity.
Qed.

Lemma detectCategoricalInconsistency_typed (d : DataFrame.t) (this : Analyzer.t) :
  typed_inv d this -> typed_inv d (Analyzer.detectCategoricalInconsistency this).
Proof.
  intro H. unfold Analyzer.detectCategoricalInconsistency.
  apply (fold_left_inv (typed_inv d)); [|exact H].
  intros this0 col _ H0. rewrite (proj2 H0).
  destruct (Analyzer.inferColumnType (DataFrame.series d col)) eqn:Et;
    try exact H0.
  destruct (500 <? _); [exact H0|].
  destruct (0 <? _); [|exact H0].
  apply push_typed; [exact H0|]. rewrite Et. reflexivity.
Qed.

Lemma detectSuspiciousText_typed (d : DataFrame.t) (this : Analyzer.t) :
  typed_inv d this -> typed_inv d (Analyzer.detectSuspiciousText this).
Proof.
  intro H. unfold Analyzer.detectSuspiciousText.
  apply (fold_left_inv (typed_inv d)); [|exact H].
  intros this0 col _ H0. rewrite (proj2 H0).
  destruct (Analyzer.inferColumnType (DataFrame.series d col)) eqn:Et;
    try exact H0.
  destruct (0 <? _); [|exact H0].
  apply push_typed; [exact H0|]. rewrite Et. reflexivity.
Qed.

(** X24.  After [runAll], the kind of every issue fits the inferred type
    of its column: "outlier_iqr" is reported for numeric columns only,
    "date_parse_failures" for datetime columns only,
    "categorical_inconsistency" and "suspicious_text_long" for string
    columns only; and the issues without a column are the sparse rows and
    the exact duplicates. *)
Theorem runAll_kinds_fit_the_types (df : DataFrame.t) :
  Forall (fun i => fits_type df i = true)
         (Analyzer.issues (snd (Analyzer.runAll (Analyzer.new df)))).
Proof.
  assert (Hstart : typed_inv df (Analyzer.new df))
    by (split; [constructor|reflexivity]).
  assert (H : typed_inv df (snd (Analyzer.runAll (Analyzer.new df)))).
  { unfold Analyzer.runAll. simpl snd.
    apply detectSuspiciousText_typed, detectCategoricalInconsistency_typed,
      detectDateParsing_typed, runOutliers_typed, detectDuplicatesAndPK_typed,
      detectMissing_typed.
    exact Hstart. }
  exact (proj1 H).
Qed.
End Kinds.

(* ================================================================== *)
(** ** FillMissing with the strategy "mode" *)
(* ================================================================== *)

(** X25.  With the strategy "mode", [FillMissing.apply] throws a
    ReferenceError on every list of records: [freq = {}] assigns to a name
    that is not declared, in the strict mode code of a class body.  No
    record is copied before. *)
Theorem FillMissing_mode_always_throws {host : Host}
    (h : heap) (this records : loc) (t : Transformation.t)
    (ls : list loc) (rs : list record) :
  instance_at h this = Some (CFillMissing, t) ->
  holds h records ls rs ->
  Params.strategy (Transformation.params t) = VStr "mode" ->
  apply this records h = Throw ReferenceError h.
Proof.
  intros Ht Hr Hmode.
  rewrite (apply_dispatch _ _ _ _ _ Ht).
  apply (FillMissing_apply_mode h this records t ls rs Ht Hr).
  rewrite Hmode. reflexivity.
Qed.

Lemma FillMissing_mode_always_throws_witness :
  let cells := ExampleHost.null_cells in
  let p := ExampleHost.params_strategy (VStr "mode") VUndefined in
  let h := ExampleHost.heap_with (@FillMissing.new ExampleHost.host 0 p) cells in
  @apply ExampleHost.host (ExampleHost.instance_of cells)
         (ExampleHost.array_of cells) h
  = Throw ReferenceError h.
Proof.
  intros cells p h.
  apply (@FillMissing_mode_always_throws ExampleHost.host h
           (ExampleHost.instance_of cells) (ExampleHost.array_of cells)
           (@Transformation.new ExampleHost.host 0 "fill_missing" p false)
           (ExampleHost.locs_of cells) (ExampleHost.records_of cells)).
  - reflexivity.
  - split; [reflexivity|repeat constructor].
  - reflexivity.
Defined.
